(** * Qwen-Image-Edit: the batch image-editing pipeline

    A shallow embedding of [src/image_processor.py] and of the pipeline
    functions of [src/streamlit_app.py], with the properties of the
    validator, the fingerprint, the normaliser, the remote client, the
    batch loop and the archive builder.

    Conventions.
    - A Python [str] is a Rocq [string] whose characters are read as the
      code points U+0000..U+00FF; the [str] methods below follow CPython on
      that range.
    - A Python [bytes] is a [list byte].
    - A Python [int] is a [Z].
    - An exception is the text [str(e)] it carries; code that may raise
      returns a [result]. *)

From Stdlib Require Import ZArith NArith Arith List String Ascii Bool Lia.
From Stdlib Require Import Strings.Byte.
From Stdlib Require Import DecimalString DecimalNat.
Import ListNotations.
Local Open Scope string_scope.
Local Open Scope Z_scope.

Definition str := string.
Definition bytes := list byte.

(** ** Python built-ins on [str] *)
Module Py.

Definition ord (c : ascii) : N := N_of_ascii c.

Definition between (lo hi : N) (c : ascii) : bool :=
  ((lo <=? ord c) && (ord c <=? hi))%N.

(** [c.isspace()] *)
Definition isspace (c : ascii) : bool :=
  between 9 13 c || between 28 32 c || between 133 133 c || between 160 160 c.

(** [c.isalnum()] *)
Definition isalnum (c : ascii) : bool :=
  between 48 57 c || between 65 90 c || between 97 122 c
  || between 170 170 c || between 178 179 c || between 181 181 c
  || between 185 186 c || between 188 190 c || between 192 214 c
  || between 216 246 c || between 248 255 c.

Definition isdigit_ascii (c : ascii) : bool := between 48 57 c.

Definition lower_char (c : ascii) : ascii :=
  if between 65 90 c || between 192 214 c || between 216 222 c
  then ascii_of_N (ord c + 32) else c.

(** [s.lower()] *)
Fixpoint lower (s : str) : str :=
  match s with
  | EmptyString => EmptyString
  | String c t => String (lower_char c) (lower t)
  end.

Fixpoint lstrip (s : str) : str :=
  match s with
  | EmptyString => EmptyString
  | String c t => if isspace c then lstrip t else s
  end.

Fixpoint rstrip (s : str) : str :=
  match s with
  | EmptyString => EmptyString
  | String c t =>
      match rstrip t with
      | EmptyString => if isspace c then EmptyString else String c EmptyString
      | r => String c r
      end
  end.

(** [s.strip()] *)
Definition strip (s : str) : str := rstrip (lstrip s).

(** [bool(s)]: a [str] is truthy when it is not empty. *)
Definition truthy (s : str) : bool :=
  match s with EmptyString => false | _ => true end.

(** [needle in s] *)
Fixpoint contains (needle s : str) : bool :=
  if prefix needle s then true
  else match s with
       | EmptyString => false
       | String _ t => contains needle t
       end.

(** [s.split(sep)] for a one-character separator. *)
Fixpoint split (sep : ascii) (s : str) : list str :=
  match s with
  | EmptyString => [EmptyString]
  | String c t =>
      if Ascii.eqb c sep then EmptyString :: split sep t
      else match split sep t with
           | h :: r => String c h :: r
           | [] => [String c EmptyString]
           end
  end.

(** [sep.join(parts)] *)
Fixpoint join (sep : str) (parts : list str) : str :=
  match parts with
  | [] => EmptyString
  | [p] => p
  | p :: rest => p ++ sep ++ join sep rest
  end.

(** ["".join(c for c in s if keep(c))] *)
Fixpoint filter (keep : ascii -> bool) (s : str) : str :=
  match s with
  | EmptyString => EmptyString
  | String c t => if keep c then String c (filter keep t) else filter keep t
  end.

(** [x in l] for a list of [str]. *)
Definition str_in (x : str) (l : list str) : bool := existsb (String.eqb x) l.

(** [str(n)] for a non-negative [int]. *)
Definition str_of_nat (n : nat) : str := NilEmpty.string_of_uint (Nat.to_uint n).

(** [str(z)] *)
Definition str_of_int (z : Z) : str :=
  if z <? 0 then "-" ++ str_of_nat (Z.to_nat (- z)) else str_of_nat (Z.to_nat z).

(** [f"{n:02d}"] for a non-negative [int]: decimal, zero-padded to width 2. *)
Definition format_02d (n : nat) : str :=
  let digits := str_of_nat n in
  if (String.length digits <? 2)%nat then "0" ++ digits else digits.

(** [len(b)] *)
Definition len {A} (l : list A) : Z := Z.of_nat (List.length l).

(** [range(n)] *)
Definition range (n : Z) : list Z := map Z.of_nat (seq 0 (Z.to_nat n)).

(** [s.encode()]: UTF-8. *)
Definition encode_char (c : ascii) : bytes :=
  let n := ord c in
  if (n <? 128)%N then [byte_of_ascii c]
  else [byte_of_ascii (ascii_of_N (192 + N.shiftr n 6));
        byte_of_ascii (ascii_of_N (128 + N.land n 63))].

Fixpoint encode (s : str) : bytes :=
  match s with
  | EmptyString => []
  | String c t => (encode_char c ++ encode t)%list
  end.

(** [s.rfind(c)]: index of the last occurrence, [-1] when there is none. *)
Fixpoint rfind_from (c : ascii) (s : str) (i found : Z) : Z :=
  match s with
  | EmptyString => found
  | String x t => rfind_from c t (i + 1) (if Ascii.eqb x c then i else found)
  end.

Definition rfind (c : ascii) (s : str) : Z := rfind_from c s 0 (-1).

(** The [while] loop of [genericpath._splitext]: scans [p] from
    [filenameIndex] up to [dotIndex] for a character that is not a dot. *)
Fixpoint has_stem (steps : nat) (p : str) (filenameIndex : nat) : bool :=
  match steps with
  | O => false
  | S k =>
      match get filenameIndex p with
      | Some x => if Ascii.eqb x "." then has_stem k p (S filenameIndex) else true
      | None => true
      end
  end.

(** [os.path.splitext(p)] (POSIX flavour: separator [/], no alternative
    separator). *)
Definition splitext (p : str) : str * str :=
  let sepIndex := rfind "/" p in
  let dotIndex := rfind "." p in
  if (sepIndex <? dotIndex)
     && has_stem (Z.to_nat (dotIndex - (sepIndex + 1))) p (Z.to_nat (sepIndex + 1))
  then (substring 0 (Z.to_nat dotIndex) p,
        substring (Z.to_nat dotIndex) (String.length p - Z.to_nat dotIndex) p)
  else (p, EmptyString).

End Py.

(** ** [hashlib]: MD5 (RFC 1321) and SHA-256 (FIPS 180-4) *)
Module Hashlib.

Definition w32 (x : Z) : Z := Z.land x 0xffffffff.
Definition not32 (x : Z) : Z := Z.lxor x 0xffffffff.
Definition rotl32 (n x : Z) : Z :=
  w32 (Z.lor (Z.shiftl x n) (Z.shiftr x (32 - n))).
Definition rotr32 (n x : Z) : Z :=
  w32 (Z.lor (Z.shiftr x n) (Z.shiftl x (32 - n))).

Definition byte_val (b : byte) : Z := Z.of_N (Byte.to_N b).

Fixpoint chunks {A} (fuel n : nat) (l : list A) : list (list A) :=
  match fuel with
  | O => []
  | S k =>
      match l with
      | [] => []
      | _ => firstn n l :: chunks k n (skipn n l)
      end
  end.

Definition blocks (size : nat) (l : list Z) : list (list Z) :=
  chunks (List.length l) size l.

(** Big-endian and little-endian byte strings of a number. *)
Fixpoint be_bytes (n : nat) (x : Z) : list Z :=
  match n with
  | O => []
  | S k => Z.land (Z.shiftr x (8 * Z.of_nat k)) 255 :: be_bytes k x
  end.

Definition le_bytes (n : nat) (x : Z) : list Z := rev (be_bytes n x).

Definition be_word (bs : list Z) : Z :=
  fold_left (fun acc b => Z.lor (Z.shiftl acc 8) b) bs 0.

Definition le_word (bs : list Z) : Z := be_word (rev bs).

(** Message padding: a [0x80] byte, zeros up to 56 modulo 64, then the
    bit length on 8 bytes. *)
Definition padded (length_bytes : nat -> Z -> list Z) (msg : list Z) : list Z :=
  let n := Z.of_nat (List.length msg) in
  (msg ++ [128] ++ repeat 0 (Z.to_nat ((55 - n) mod 64))
       ++ length_bytes 8%nat (8 * n))%list.

Definition hexdigit (n : Z) : ascii :=
  match get (Z.to_nat n) "0123456789abcdef" with
  | Some c => c
  | None => "0"%char
  end.

Definition hex_byte (b : Z) (rest : str) : str :=
  String (hexdigit (Z.land (Z.shiftr b 4) 15)) (String (hexdigit (Z.land b 15)) rest).

Definition hex_word_be (w : Z) (rest : str) : str :=
  hex_byte (Z.shiftr w 24) (hex_byte (Z.shiftr w 16) (hex_byte (Z.shiftr w 8)
    (hex_byte w rest))).

Definition hex_word_le (w : Z) (rest : str) : str :=
  hex_byte w (hex_byte (Z.shiftr w 8) (hex_byte (Z.shiftr w 16)
    (hex_byte (Z.shiftr w 24) rest))).

(** *** SHA-256 *)

(** The first 64 primes. *)
Definition primes : list Z :=
  [2; 3; 5; 7; 11; 13; 17; 19; 23; 29; 31; 37; 41; 43; 47; 53; 59; 61; 67; 71; 73; 79;
   83; 89; 97; 101; 103; 107; 109; 113; 127; 131; 137; 139; 149; 151; 157; 163; 167;
   173; 179; 181; 191; 193; 197; 199; 211; 223; 227; 229; 233; 239; 241; 251; 257; 263;
   269; 271; 277; 281; 283; 293; 307; 311].

(** The integer cube root of a number below [2^108], one bit at a time. *)
Definition cube_root (n : Z) : Z :=
  fold_left (fun x bit => let y := x + 2 ^ bit in if y * y * y <=? n then y else x)
            (map Z.of_nat (rev (seq 0 36))) 0.

(** The round constants: the first 32 bits of the fractional parts of the
    cube roots of the first 64 primes. *)
Definition K256 : list Z :=
  Eval vm_compute in map (fun p => cube_root (p * 2 ^ 96) mod 2 ^ 32) primes.

Record state256 := State256 {
  ha : Z; hb : Z; hc : Z; hd : Z; he : Z; hf : Z; hg : Z; hh : Z }.

(** The first 32 bits of the fractional part of the square root of [p]. *)
Definition root_bits (p : Z) : Z := Z.sqrt (p * 2 ^ 64) mod 2 ^ 32.

(** The initial hash value, from the first 8 primes. *)
Definition H256 : state256 :=
  Eval vm_compute in
    State256 (root_bits 2) (root_bits 3) (root_bits 5) (root_bits 7)
             (root_bits 11) (root_bits 13) (root_bits 17) (root_bits 19).

Definition ssig0 (x : Z) : Z :=
  Z.lxor (Z.lxor (rotr32 7 x) (rotr32 18 x)) (Z.shiftr x 3).
Definition ssig1 (x : Z) : Z :=
  Z.lxor (Z.lxor (rotr32 17 x) (rotr32 19 x)) (Z.shiftr x 10).
Definition bsig0 (x : Z) : Z :=
  Z.lxor (Z.lxor (rotr32 2 x) (rotr32 13 x)) (rotr32 22 x).
Definition bsig1 (x : Z) : Z :=
  Z.lxor (Z.lxor (rotr32 6 x) (rotr32 11 x)) (rotr32 25 x).
Definition ch (x y z : Z) : Z := Z.lxor (Z.land x y) (Z.land (not32 x) z).
Definition maj (x y z : Z) : Z :=
  Z.lxor (Z.lxor (Z.land x y) (Z.land x z)) (Z.land y z).

(** The message schedule, newest word first. *)
Fixpoint schedule (n : nat) (w : list Z) : list Z :=
  match n with
  | O => w
  | S k =>
      let next := w32 (ssig1 (nth 1 w 0) + nth 6 w 0 + ssig0 (nth 14 w 0) + nth 15 w 0) in
      schedule k (next :: w)
  end.

Definition round256 (s : state256) (kw : Z * Z) : state256 :=
  let t1 := hh s + bsig1 (he s) + ch (he s) (hf s) (hg s) + fst kw + snd kw in
  let t2 := bsig0 (ha s) + maj (ha s) (hb s) (hc s) in
  State256 (w32 (t1 + t2)) (ha s) (hb s) (hc s) (w32 (hd s + t1)) (he s) (hf s) (hg s).

Definition compress256 (h : state256) (block : list Z) : state256 :=
  let w := rev (schedule 48 (rev (map be_word (blocks 4 block)))) in
  let s := fold_left round256 (combine K256 w) h in
  State256 (w32 (ha h + ha s)) (w32 (hb h + hb s)) (w32 (hc h + hc s))
           (w32 (hd h + hd s)) (w32 (he h + he s)) (w32 (hf h + hf s))
           (w32 (hg h + hg s)) (w32 (hh h + hh s)).

Definition sha256_state (msg : bytes) : state256 :=
  fold_left compress256 (blocks 64 (padded be_bytes (map byte_val msg))) H256.

(** [hashlib.sha256(msg).hexdigest()] *)
Definition sha256_hexdigest (msg : bytes) : str :=
  let s := sha256_state msg in
  hex_word_be (ha s) (hex_word_be (hb s) (hex_word_be (hc s) (hex_word_be (hd s)
    (hex_word_be (he s) (hex_word_be (hf s) (hex_word_be (hg s)
      (hex_word_be (hh s) EmptyString))))))).

(** *** MD5 *)

Definition T5 : list Z :=
  [0xd76aa478; 0xe8c7b756; 0x242070db; 0xc1bdceee; 0xf57c0faf; 0x4787c62a;
   0xa8304613; 0xfd469501; 0x698098d8; 0x8b44f7af; 0xffff5bb1; 0x895cd7be;
   0x6b901122; 0xfd987193; 0xa679438e; 0x49b40821; 0xf61e2562; 0xc040b340;
   0x265e5a51; 0xe9b6c7aa; 0xd62f105d; 0x02441453; 0xd8a1e681; 0xe7d3fbc8;
   0x21e1cde6; 0xc33707d6; 0xf4d50d87; 0x455a14ed; 0xa9e3e905; 0xfcefa3f8;
   0x676f02d9; 0x8d2a4c8a; 0xfffa3942; 0x8771f681; 0x6d9d6122; 0xfde5380c;
   0xa4beea44; 0x4bdecfa9; 0xf6bb4b60; 0xbebfbc70; 0x289b7ec6; 0xeaa127fa;
   0xd4ef3085; 0x04881d05; 0xd9d4d039; 0xe6db99e5; 0x1fa27cf8; 0xc4ac5665;
   0xf4292244; 0x432aff97; 0xab9423a7; 0xfc93a039; 0x655b59c3; 0x8f0ccc92;
   0xffeff47d; 0x85845dd1; 0x6fa87e4f; 0xfe2ce6e0; 0xa3014314; 0x4e0811a1;
   0xf7537e82; 0xbd3af235; 0x2ad7d2bb; 0xeb86d391].

Definition S5 : list Z :=
  [7; 12; 17; 22; 7; 12; 17; 22; 7; 12; 17; 22; 7; 12; 17; 22;
   5; 9; 14; 20; 5; 9; 14; 20; 5; 9; 14; 20; 5; 9; 14; 20;
   4; 11; 16; 23; 4; 11; 16; 23; 4; 11; 16; 23; 4; 11; 16; 23;
   6; 10; 15; 21; 6; 10; 15; 21; 6; 10; 15; 21; 6; 10; 15; 21].

Record state5 := State5 { ma : Z; mb : Z; mc : Z; md : Z }.

Definition H5 : state5 := State5 0x67452301 0xefcdab89 0x98badcfe 0x10325476.

Definition round5 (m : list Z) (s : state5) (i : nat) : state5 :=
  let iz := Z.of_nat i in
  let '(f, g) :=
    if iz <? 16 then
      (Z.lor (Z.land (mb s) (mc s)) (Z.land (not32 (mb s)) (md s)), iz)
    else if iz <? 32 then
      (Z.lor (Z.land (md s) (mb s)) (Z.land (not32 (md s)) (mc s)), (5 * iz + 1) mod 16)
    else if iz <? 48 then
      (Z.lxor (Z.lxor (mb s) (mc s)) (md s), (3 * iz + 5) mod 16)
    else
      (Z.lxor (mc s) (Z.lor (mb s) (not32 (md s))), (7 * iz) mod 16) in
  let f' := w32 (f + ma s + nth i T5 0 + nth (Z.to_nat g) m 0) in
  State5 (md s) (w32 (mb s + rotl32 (nth i S5 0) f')) (mb s) (mc s).

Definition compress5 (h : state5) (block : list Z) : state5 :=
  let m := map le_word (blocks 4 block) in
  let s := fold_left (round5 m) (seq 0 64) h in
  State5 (w32 (ma h + ma s)) (w32 (mb h + mb s)) (w32 (mc h + mc s)) (w32 (md h + md s)).

Definition md5_state (msg : bytes) : state5 :=
  fold_left compress5 (blocks 64 (padded le_bytes (map byte_val msg))) H5.

(** [hashlib.md5(msg).hexdigest()] *)
Definition md5_hexdigest (msg : bytes) : str :=
  let s := md5_state msg in
  hex_word_le (ma s) (hex_word_le (mb s) (hex_word_le (mc s)
    (hex_word_le (md s) EmptyString))).

End Hashlib.

(** ** Exceptions *)

(** A raised exception, as far as the program looks at it: the text
    [str(e)]. *)
Record Exception := Raise { exn_text : str }.

Inductive result (A : Type) : Type :=
| Ok (value : A)
| Raises (e : Exception).
Arguments Ok {A} value.
Arguments Raises {A} e.

Definition bind {A B} (r : result A) (k : A -> result B) : result B :=
  match r with
  | Ok a => k a
  | Raises e => Raises e
  end.

Notation "x <- r ;; k" := (bind r (fun x => k))
  (at level 61, r at next level, right associativity).

(** [l[-1]] *)
Definition last_item {A} (l : list A) : result A :=
  match rev l with
  | x :: _ => Ok x
  | [] => Raises (Raise "tuple index out of range")
  end.

(** ** Pillow *)
Module PIL.

Record Image := {
  width : Z;
  height : Z;
  format : option str;
  mode : str;
  pixels : list Z
}.

Definition size (image : Image) : Z * Z := (width image, height image).

(** The decoder, the encoder and the raster operations of the library.
    Each may raise: an image opened from bytes is decoded lazily. *)
Class Pillow := {
  (** [Image.open(io.BytesIO(b))] *)
  Image_open : bytes -> result Image;
  (** [image.split()] *)
  Image_split : Image -> result (list Image);
  (** the raster left in [background] by [background.paste(image, mask=mask)] *)
  paste_pixels : Image -> Image -> option Image -> result (list Z);
  (** the raster of [image.convert(mode)] *)
  convert_pixels : Image -> str -> result (list Z);
  (** [image.save(buffer, format='PNG', optimize=True); buffer.getvalue()] *)
  save_png : Image -> result bytes
}.

(** [Image.new(mode, size, color)] *)
Definition Image_new (mode : str) (size : Z * Z) (color : list Z) : Image :=
  {| width := fst size; height := snd size; format := None; mode := mode;
     pixels := List.concat (repeat color (Z.to_nat (fst size * snd size))) |}.

(** [background.paste(image, mask=mask)], returning the updated
    [background]: the paste writes pixels only. *)
Definition Image_paste `{Pillow} (background image : Image) (mask : option Image)
  : result Image :=
  px <- paste_pixels background image mask ;;
  Ok {| width := width background; height := height background;
        format := format background; mode := mode background; pixels := px |}.

(** [image.convert(mode)]: a new image of the requested mode and the same
    size. *)
Definition Image_convert `{Pillow} (image : Image) (mode : str) : result Image :=
  px <- convert_pixels image mode ;;
  Ok {| width := width image; height := height image; format := None;
        mode := mode; pixels := px |}.

End PIL.

(** ** huggingface_hub and the clock *)
Module Hub.

Record InferenceClient := { provider : str; api_key : str }.

(** What the program does to the outside world, oldest first. *)
Inductive Event :=
| RemoteCall (client : InferenceClient) (image : bytes) (prompt model : str)
| Sleep (milliseconds : Z).

Definition World := list Event.

Class Service := {
  (** [InferenceClient(provider=..., api_key=...)]: the exception the
      constructor raises, if any. *)
  InferenceClient_init : str -> str -> option Exception;
  (** [client.image_to_image(image, prompt=..., model=...)]; the answer may
      depend on everything that happened before. *)
  image_to_image : World -> InferenceClient -> bytes -> str -> str -> result PIL.Image
}.

Definition is_call (e : Event) : bool :=
  match e with RemoteCall _ _ _ _ => true | Sleep _ => false end.

Definition calls (w : World) : list Event := List.filter is_call w.

End Hub.

(** ** Float formatting *)

(** [f"{n/1024/1024:.1f}"] for an [int] [n]. *)
Class FloatFormat := { megabytes_1f : Z -> str }.

(** With [n] below [2^53] both divisions are exact, and [.1f] rounds the
    tenths half to even. *)
Definition megabytes_1f_exact (n : Z) : str :=
  let q := (10 * n) / 1048576 in
  let r := (10 * n) mod 1048576 in
  let tenths :=
    if r <? 524288 then q
    else if r >? 524288 then q + 1
    else if Z.even q then q else q + 1 in
  Py.str_of_int (tenths / 10) ++ "." ++ Py.str_of_int (tenths mod 10).

(** ** Streamlit: what a script run shows, and how it ends *)
Module St.

Inductive Message :=
| ErrorTokenNotFound          (* st.error: HF_TOKEN not found *)
| InfoSetupInstructions       (* st.info: setup instructions *)
| SuccessClientInitialized    (* st.success: client initialised *)
| ErrorClientInit (text : str) (* st.error: failed to initialise, with str(e) *)
| ErrorCheckToken.            (* st.error: check token and connection *)

(** A computation that may call [st.stop()]. *)
Inductive Script (A : Type) : Type :=
| Continue (value : A) (shown : list Message)
| Stop (shown : list Message).
Arguments Continue {A} value shown.
Arguments Stop {A} shown.

End St.

(** ** [image_processor.py] *)
Module ImageProcessor.

Definition MAX_FILE_SIZE : Z := 10 * 1024 * 1024.
Definition SUPPORTED_FORMATS : list str := ["png"; "jpg"; "jpeg"; "webp"].

(** [str(MAX_FILE_SIZE/1024/1024)]: the float [10.0]. *)
Definition max_megabytes : str := "10.0".

(** An uploaded file: [file.name], [file.size], [file.getvalue()]. *)
Record UploadedFile := { name : str; size : Z; getvalue : bytes }.

(** The dictionary [validate_image] returns: always a ['valid'] key, then
    either the description of the image or an ['error']. *)
Inductive Validation :=
| Valid (size : Z) (dimensions format mode : str) (file_bytes : bytes)
| Invalid (error : str).

Definition valid (v : Validation) : bool :=
  match v with Valid _ _ _ _ _ => true | Invalid _ => false end.

(** The dictionary [process_single_image] returns. *)
Inductive ProcessingResult :=
| Success (filename : str) (image_bytes : bytes) (image_obj : PIL.Image)
          (original_size result_size : Z)
| Failure (filename error : str).

Definition success (r : ProcessingResult) : bool :=
  match r with Success _ _ _ _ _ => true | Failure _ _ => false end.

Definition filename (r : ProcessingResult) : str :=
  match r with Success f _ _ _ _ => f | Failure f _ => f end.

(** The [image_bytes] argument, whose type the function checks itself. *)
Inductive Payload :=
| IsBytes (b : bytes)
| NotBytes.

Record ImageProcessor := { client : Hub.InferenceClient }.

Definition environ_get (environ : list (str * str)) (key : str) : option str :=
  match find (fun kv => String.eqb (fst kv) key) environ with
  | Some kv => Some (snd kv)
  | None => None
  end.

Definition max_retries : Z := 2.
Definition model : str := "Qwen/Qwen-Image-Edit".

(** Lines 174-187: the message reported for the last error. *)
Definition final_error (api_error : Exception) : str :=
  let error_msg := Py.lower (exn_text api_error) in
  if Py.contains "images" error_msg || Py.contains "parameter" error_msg then
    "API parameter error - image format may be incompatible"
  else if Py.contains "timeout" error_msg then
    "Request timeout - try with a smaller image"
  else if Py.contains "quota" error_msg || Py.contains "rate limit" error_msg then
    "API quota exceeded - please wait before trying again"
  else if Py.contains "unauthorized" error_msg || Py.contains "token" error_msg then
    "Authentication error - check your HF_TOKEN"
  else if Py.contains "model" error_msg then
    "Model not available - try again later"
  else
    "API error: " ++ exn_text api_error.

(** [f"{image.width}x{image.height}"] *)
Definition dimensions (image : PIL.Image) : str :=
  Py.str_of_int (PIL.width image) ++ "x" ++ Py.str_of_int (PIL.height image).

(** Line 56: [file.name.split('.')[-1].lower() if '.' in file.name else ''] *)
Definition file_extension (name : str) : str :=
  if Py.contains "." name
  then Py.lower (last (Py.split "." name) EmptyString)
  else EmptyString.

Section WithLibraries.
Context `{pillow : PIL.Pillow} `{service : Hub.Service} `{floats : FloatFormat}.

(** [_initialize_client], returning the client it stores in [self.client]. *)
Definition _initialize_client (environ : list (str * str))
  : St.Script Hub.InferenceClient :=
  match environ_get environ "HF_TOKEN" with
  | None => St.Stop [St.ErrorTokenNotFound; St.InfoSetupInstructions]
  | Some token =>
      if negb (Py.truthy token) then
        St.Stop [St.ErrorTokenNotFound; St.InfoSetupInstructions]
      else
        match Hub.InferenceClient_init "fal-ai" token with
        | None =>
            St.Continue {| Hub.provider := "fal-ai"; Hub.api_key := token |}
                        [St.SuccessClientInitialized]
        | Some e => St.Stop [St.ErrorClientInit (exn_text e); St.ErrorCheckToken]
        end
  end.

(** [ImageProcessor()] *)
Definition __init__ (environ : list (str * str)) : St.Script ImageProcessor :=
  match _initialize_client environ with
  | St.Continue c shown => St.Continue {| client := c |} shown
  | St.Stop shown => St.Stop shown
  end.

(** The body of [validate_image], inside its [try]. *)
Definition validate_image_body (file : UploadedFile) : result Validation :=
  if size file >? MAX_FILE_SIZE then
    Ok (Invalid ("File too large: " ++ megabytes_1f (size file)
                 ++ "MB (max: " ++ max_megabytes ++ "MB)"))
  else
    if negb (Py.str_in (file_extension (name file)) SUPPORTED_FORMATS) then
      Ok (Invalid ("Unsupported format: " ++ file_extension (name file)
                   ++ " (supported: " ++ Py.join ", " SUPPORTED_FORMATS ++ ")"))
    else
      let file_bytes := getvalue file in
      if Py.len file_bytes =? 0 then Ok (Invalid "Empty file")
      else
        image <- PIL.Image_open file_bytes ;;
        if (PIL.width image >? 4000) || (PIL.height image >? 4000) then
          Ok (Invalid ("Image too large: " ++ dimensions image ++ " (max: 4000x4000)"))
        else if (PIL.width image <? 50) || (PIL.height image <? 50) then
          Ok (Invalid ("Image too small: " ++ dimensions image ++ " (min: 50x50)"))
        else
          Ok (Valid (size file) (dimensions image)
                    (match PIL.format image with
                     | Some f => if Py.truthy f then f else "Unknown"
                     | None => "Unknown"
                     end)
                    (PIL.mode image) file_bytes).

Definition validate_image (file : UploadedFile) : Validation :=
  match validate_image_body file with
  | Ok v => v
  | Raises e => Invalid ("Invalid image file: " ++ exn_text e)
  end.

(** Lines 118-135: decode, bring to RGB or L, encode as PNG. *)
Definition prepare (image_bytes : bytes) : result bytes :=
  image <- PIL.Image_open image_bytes ;;
  image <-
    (if negb (Py.str_in (PIL.mode image) ["RGB"; "L"]) then
       if String.eqb (PIL.mode image) "RGBA" then
         let background := PIL.Image_new "RGB" (PIL.size image) [255; 255; 255] in
         mask <-
           (if String.eqb (PIL.mode image) "RGBA"
            then bands <- PIL.Image_split image ;;
                 band <- last_item bands ;;
                 Ok (Some band)
            else Ok None) ;;
         PIL.Image_paste background image mask
       else PIL.Image_convert image "RGB"
     else Ok image) ;;
  PIL.save_png image.

(** One pass through the [try] of the retry loop: the remote call, then
    the encoding of its answer. *)
Definition call_api (self : ImageProcessor) (processed_bytes : bytes) (prompt : str)
                    (w : Hub.World) : result (PIL.Image * bytes) * Hub.World :=
  (edited_image <-
     Hub.image_to_image w (client self) processed_bytes (Py.strip prompt) model ;;
   result_bytes <- PIL.save_png edited_image ;;
   Ok (edited_image, result_bytes),
   (w ++ [Hub.RemoteCall (client self) processed_bytes (Py.strip prompt) model])%list).

(** [for attempt in range(max_retries): ...]; [None] when the loop ends
    without a [return]. *)
Fixpoint retry_loop (self : ImageProcessor) (attempts : list Z)
                    (image_bytes processed_bytes : bytes) (prompt filename : str)
                    (w : Hub.World) : option ProcessingResult * Hub.World :=
  match attempts with
  | [] => (None, w)
  | attempt :: rest =>
      match call_api self processed_bytes prompt w with
      | (Ok (edited_image, result_bytes), w1) =>
          (Some (Success filename result_bytes edited_image
                         (Py.len image_bytes) (Py.len result_bytes)), w1)
      | (Raises api_error, w1) =>
          if attempt <? max_retries - 1 then
            retry_loop self rest image_bytes processed_bytes prompt filename
                       (w1 ++ [Hub.Sleep 1000])%list
          else
            (Some (Failure filename (final_error api_error)), w1)
      end
  end.

(** The body of [process_single_image], inside its outer [try]. *)
Definition process_single_image_body (self : ImageProcessor) (image_bytes : Payload)
                                     (prompt filename : str) (w : Hub.World)
  : result (option ProcessingResult) * Hub.World :=
  match image_bytes with
  | NotBytes => (Ok (Some (Failure filename "Invalid image data format")), w)
  | IsBytes b =>
      if Py.len b =? 0 then
        (Ok (Some (Failure filename "Invalid image data format")), w)
      else if negb (Py.truthy prompt) || negb (Py.truthy (Py.strip prompt)) then
        (Ok (Some (Failure filename "Empty prompt")), w)
      else
        match prepare b with
        | Raises e =>
            (Ok (Some (Failure filename ("Image preprocessing failed: " ++ exn_text e))), w)
        | Ok processed_bytes =>
            let (r, w1) := retry_loop self (Py.range max_retries) b processed_bytes
                                      prompt filename w in
            (Ok r, w1)
        end
  end.

(** [process_single_image]; [None] stands for a call that returns no
    dictionary. *)
Definition process_single_image (self : ImageProcessor) (image_bytes : Payload)
                                (prompt filename : str) (w : Hub.World)
  : option ProcessingResult * Hub.World :=
  match process_single_image_body self image_bytes prompt filename w with
  | (Ok r, w1) => (r, w1)
  | (Raises e, w1) => (Some (Failure filename ("Unexpected error: " ++ exn_text e)), w1)
  end.

End WithLibraries.

End ImageProcessor.

(** ** [streamlit_app.py] *)
Module App.

Definition MAX_FILE_SIZE : Z := 10 * 1024 * 1024.
Definition MAX_FILES : Z := 15.
Definition SUPPORTED_FORMATS : list str := ["png"; "jpg"; "jpeg"; "webp"].

(** One value of [st.session_state.uploaded_files_data]. *)
Record FileData := {
  fd_filename : str;
  fd_size : Z;
  fd_dimensions : str;
  fd_format : str;
  fd_mode : str;
  fd_bytes : bytes;
  fd_hash : str
}.

(** A [dict] with [str] keys: its items in insertion order, keys unique. *)
Definition dict (V : Type) := list (str * V).

(** [key in d] *)
Definition dict_contains {V} (key : str) (d : dict V) : bool :=
  existsb (fun kv => String.eqb (fst kv) key) d.

(** [d[key] = v]: a present key keeps its place, a new one goes last. *)
Fixpoint dict_set {V} (key : str) (v : V) (d : dict V) : dict V :=
  match d with
  | [] => [(key, v)]
  | (k, x) :: rest =>
      if String.eqb k key then (k, v) :: rest else (k, x) :: dict_set key v rest
  end.

Definition keys {V} (d : dict V) : list str := map fst d.

(** [st.session_state] *)
Record SessionState := {
  uploaded_files_data : dict FileData;
  processing_results : list (option ImageProcessor.ProcessingResult);
  current_prompt : str;
  processing_in_progress : bool
}.

(** The state [initialize_session_state] leaves in a fresh session. *)
Definition initialize_session_state : SessionState :=
  {| uploaded_files_data := []; processing_results := [];
     current_prompt := EmptyString; processing_in_progress := false |}.

Definition create_file_hash (file_content : bytes) (filename : str) : str :=
  let hash_input :=
    filename ++ "_" ++ Py.str_of_int (Py.len file_content) ++ "_"
             ++ Hashlib.md5_hexdigest file_content in
  substring 0 12 (Hashlib.sha256_hexdigest (Py.encode hash_input)).

(** An archive, as the entries written into it, in order. *)
Record ZipEntry := { zip_filename : str; zip_data : bytes }.

Definition safe_char (c : ascii) : bool :=
  Py.isalnum c || Ascii.eqb c " " || Ascii.eqb c "-" || Ascii.eqb c "_".

Definition safe_name (filename : str) : str :=
  let base_name := fst (Py.splitext filename) in
  Py.strip (Py.filter safe_char base_name).

Definition entry_name (i : nat) (filename : str) : str :=
  Py.format_02d (i + 1) ++ "_edited_" ++ safe_name filename ++ ".png".

(** [for i, result in enumerate(results)], from index [i]. *)
Fixpoint write_entries (i : nat) (results : list ImageProcessor.ProcessingResult)
  : list ZipEntry :=
  match results with
  | [] => []
  | result :: rest =>
      match result with
      | ImageProcessor.Success filename image_bytes _ _ _ =>
          {| zip_filename := entry_name i filename; zip_data := image_bytes |}
            :: write_entries (S i) rest
      | ImageProcessor.Failure _ _ => write_entries (S i) rest
      end
  end.

Definition create_zip_download (results : list ImageProcessor.ProcessingResult)
  : list ZipEntry :=
  write_entries 0 results.

Section WithLibraries.
Context `{pillow : PIL.Pillow} `{service : Hub.Service} `{floats : FloatFormat}.

(** What one pass over the uploaded files has done so far. *)
Record Upload := {
  session : dict FileData;
  new_files : Z;
  invalid_files : list (str * str)
}.

(** Lines 169-193: the body of the loop over the uploaded files. *)
Definition upload_step (u : Upload) (file : ImageProcessor.UploadedFile) : Upload :=
  let file_hash :=
    create_file_hash (ImageProcessor.getvalue file) (ImageProcessor.name file) in
  if negb (dict_contains file_hash (session u)) then
    match ImageProcessor.validate_image file with
    | ImageProcessor.Valid size dimensions format mode file_bytes =>
        {| session :=
             dict_set file_hash
               {| fd_filename := ImageProcessor.name file; fd_size := size;
                  fd_dimensions := dimensions; fd_format := format; fd_mode := mode;
                  fd_bytes := file_bytes; fd_hash := file_hash |}
               (session u);
           new_files := new_files u + 1;
           invalid_files := invalid_files u |}
    | ImageProcessor.Invalid error =>
        {| session := session u;
           new_files := new_files u;
           invalid_files := (invalid_files u ++ [(ImageProcessor.name file, error)])%list |}
    end
  else u.

(** Lines 157-193: what [main] does with the files in the uploader. *)
Definition process_uploads (uploaded_files : list ImageProcessor.UploadedFile)
                           (files : dict FileData) : Upload :=
  let start := {| session := files; new_files := 0; invalid_files := [] |} in
  if Py.len uploaded_files >? 0 then
    let uploaded_files :=
      if Py.len uploaded_files >? MAX_FILES
      then firstn (Z.to_nat MAX_FILES) uploaded_files
      else uploaded_files in
    fold_left upload_step uploaded_files start
  else start.

(** Lines 285-299: the loop over the session's items. *)
Fixpoint process_files (processor : ImageProcessor.ImageProcessor)
                       (files_data : list (str * FileData)) (prompt : str)
                       (results : list (option ImageProcessor.ProcessingResult))
                       (w : Hub.World)
  : list (option ImageProcessor.ProcessingResult) * Hub.World :=
  match files_data with
  | [] => (results, w)
  | (file_hash, file_data) :: rest =>
      let (result, w1) :=
        ImageProcessor.process_single_image processor
          (ImageProcessor.IsBytes (fd_bytes file_data)) prompt (fd_filename file_data) w in
      process_files processor rest prompt (results ++ [result])%list
                    (w1 ++ [Hub.Sleep 200])%list
  end.

Definition can_process (state : SessionState) (prompt : str) : bool :=
  match uploaded_files_data state with [] => false | _ => true end
  && Py.truthy (Py.strip prompt)
  && negb (processing_in_progress state).

(** Lines 272-309: a batch run, from the click to [st.rerun()]. *)
Definition run_batch (processor : ImageProcessor.ImageProcessor) (prompt : str)
                     (state : SessionState) (w : Hub.World)
  : SessionState * Hub.World :=
  let files_data := uploaded_files_data state in
  let (results, w1) := process_files processor files_data prompt [] w in
  ({| uploaded_files_data := uploaded_files_data state;
      processing_results := results;
      current_prompt := current_prompt state;
      processing_in_progress := false |},
   (w1 ++ [Hub.Sleep 1000])%list).

(** What the user has put into the widgets before a script run. *)
Record Inputs := {
  uploaded_files : list ImageProcessor.UploadedFile;
  prompt : str;
  start_clicked : bool
}.

(** One script run of [main] with no sidebar button pressed: the
    processor is created, the uploader is read, and a click on the start
    button runs the batch. *)
Definition main (environ : list (str * str)) (inputs : Inputs)
                (state : SessionState) (w : Hub.World)
  : St.Script unit * SessionState * Hub.World :=
  match ImageProcessor.__init__ environ with
  | St.Stop shown => (St.Stop shown, state, w)
  | St.Continue processor shown =>
      let u := process_uploads (uploaded_files inputs) (uploaded_files_data state) in
      let state1 :=
        {| uploaded_files_data := session u;
           processing_results := processing_results state;
           current_prompt := prompt inputs;
           processing_in_progress := processing_in_progress state |} in
      if start_clicked inputs && can_process state1 (prompt inputs) then
        let (state2, w2) := run_batch processor (prompt inputs) state1 w in
        (St.Continue tt shown, state2, w2)
      else (St.Continue tt shown, state1, w)
  end.

End WithLibraries.

End App.

(** ** A miniature installation

    Small stand-ins for Pillow, for the remote service and for float
    formatting, on which the pipeline runs by computation.  An image file
    is a mode tag, its width and height in tens of pixels, and a raster. *)
Module Sample.

Definition mode_of_tag (tag : Z) : option str :=
  match tag with
  | 1 => Some "RGB" | 2 => Some "L" | 3 => Some "RGBA" | 4 => Some "LA" | 5 => Some "P"
  | _ => None
  end.

Definition tag_of_mode (mode : str) : Z :=
  if String.eqb mode "RGB" then 1 else if String.eqb mode "L" then 2
  else if String.eqb mode "RGBA" then 3 else if String.eqb mode "LA" then 4 else 5.

Definition bands (mode : str) : nat :=
  if String.eqb mode "RGB" then 3 else if String.eqb mode "RGBA" then 4
  else if String.eqb mode "LA" then 2 else 1.

Definition byte_of_Z (z : Z) : byte := byte_of_ascii (ascii_of_N (Z.to_N z)).

Definition raw_open (b : bytes) : result PIL.Image :=
  match map Hashlib.byte_val b with
  | tag :: w :: h :: raster =>
      match mode_of_tag tag with
      | Some m =>
          Ok {| PIL.width := 10 * w; PIL.height := 10 * h; PIL.format := Some "PNG";
                PIL.mode := m; PIL.pixels := raster |}
      | None => Raises (Raise "cannot identify image file")
      end
  | _ => Raises (Raise "cannot identify image file")
  end.

Definition raw_save (image : PIL.Image) : result bytes :=
  Ok (map byte_of_Z (tag_of_mode (PIL.mode image) :: PIL.width image / 10
                       :: PIL.height image / 10 :: PIL.pixels image)).

Definition pixels_of (image : PIL.Image) : list (list Z) :=
  Hashlib.blocks (bands (PIL.mode image)) (PIL.pixels image).

Definition band_image (image : PIL.Image) (i : nat) : PIL.Image :=
  {| PIL.width := PIL.width image; PIL.height := PIL.height image; PIL.format := None;
     PIL.mode := "L"; PIL.pixels := map (fun px => nth i px 0) (pixels_of image) |}.

Definition raw_split (image : PIL.Image) : result (list PIL.Image) :=
  Ok (map (band_image image) (seq 0 (bands (PIL.mode image)))).

(** The colour of a pixel as red, green, blue. *)
Definition rgb (mode : str) (px : list Z) : list Z :=
  if (3 <=? bands mode)%nat then firstn 3 px else repeat (nth 0 px 0) 3.

Definition blend (alpha : Z) (over under : list Z) : list Z :=
  map (fun ou => (fst ou * alpha + snd ou * (255 - alpha)) / 255) (combine over under).

Definition raw_paste (background image : PIL.Image) (mask : option PIL.Image)
  : result (list Z) :=
  let colours := map (rgb (PIL.mode image)) (pixels_of image) in
  let alphas :=
    match mask with
    | Some m => PIL.pixels m
    | None => repeat 255 (List.length colours)
    end in
  Ok (List.concat
        (map (fun ca => blend (snd ca) (fst ca) [255; 255; 255]) (combine colours alphas))).

Definition raw_convert (image : PIL.Image) (mode : str) : result (list Z) :=
  if String.eqb mode "RGB"
  then Ok (List.concat (map (rgb (PIL.mode image)) (pixels_of image)))
  else Raises (Raise "conversion not supported").

#[local] Instance pillow : PIL.Pillow := {|
  PIL.Image_open := raw_open;
  PIL.Image_split := raw_split;
  PIL.paste_pixels := raw_paste;
  PIL.convert_pixels := raw_convert;
  PIL.save_png := raw_save
|}.

(** A service that follows a script: its [n]-th call gets the [n]-th
    answer, and it echoes the image it was sent when the answer is [None]. *)
Definition scripted (answers : list (option str)) : Hub.Service := {|
  Hub.InferenceClient_init := fun _ _ => None;
  Hub.image_to_image := fun w _ image _ _ =>
    match nth (List.length (Hub.calls w)) answers None with
    | Some failure => Raises (Raise failure)
    | None => raw_open image
    end
|}.

#[local] Instance floats : FloatFormat := {| megabytes_1f := megabytes_1f_exact |}.

(** A file holding a 100x100 image of the given mode tag and raster. *)
Definition image_file (name : str) (tag : Z) (raster : list Z) : ImageProcessor.UploadedFile :=
  let content := map byte_of_Z (tag :: 10 :: 10 :: raster) in
  {| ImageProcessor.name := name;
     ImageProcessor.size := Py.len content;
     ImageProcessor.getvalue := content |}.

(** [count] files numbered from [first], each a 100x100 RGB image with a
    raster of its own. *)
Definition album (first count : nat) : list ImageProcessor.UploadedFile :=
  map (fun i => image_file (Py.format_02d i ++ ".png") 1 [Z.of_nat i]) (seq first count).

Definition processor : ImageProcessor.ImageProcessor :=
  {| ImageProcessor.client := {| Hub.provider := "fal-ai"; Hub.api_key := "hf_x" |} |}.

(** The session after the upload of two different images that are both
    called [cat.png]. *)
Definition two_cats : App.SessionState :=
  {| App.uploaded_files_data :=
       [("6e5002bc3937",
         {| App.fd_filename := "cat.png"; App.fd_size := 6;
            App.fd_dimensions := "100x100"; App.fd_format := "PNG"; App.fd_mode := "RGB";
            App.fd_bytes := map byte_of_Z [1; 10; 10; 1; 2; 3];
            App.fd_hash := "6e5002bc3937" |});
        ("6d279d861e6f",
         {| App.fd_filename := "cat.png"; App.fd_size := 6;
            App.fd_dimensions := "100x100"; App.fd_format := "PNG"; App.fd_mode := "RGB";
            App.fd_bytes := map byte_of_Z [1; 10; 10; 4; 5; 6];
            App.fd_hash := "6d279d861e6f" |})];
     App.processing_results := [];
     App.current_prompt := EmptyString;
     App.processing_in_progress := false |}.

End Sample.

(** ** The vocabulary of the specification *)
Module Spec.

(** The six kinds of remote failure. *)
Inductive ErrorKind :=
| IncompatibleFormat
| RequestTimeout
| QuotaExceeded
| AuthenticationError
| ModelUnavailable
| UnknownRemoteError.

(** The classification as a table, in decreasing precedence: a kind and
    the lower-case fragments that announce it. *)
Definition precedence : list (ErrorKind * list str) :=
  [(IncompatibleFormat, ["images"; "parameter"]);
   (RequestTimeout, ["timeout"]);
   (QuotaExceeded, ["quota"; "rate limit"]);
   (AuthenticationError, ["unauthorized"; "token"]);
   (ModelUnavailable, ["model"])].

(** The error text mentions one of the fragments, whatever its case. *)
Definition mentions (fragments : list str) (text : str) : bool :=
  existsb (fun fragment => Py.contains fragment (Py.lower text)) fragments.

Fixpoint first_match (table : list (ErrorKind * list str)) (text : str) : ErrorKind :=
  match table with
  | [] => UnknownRemoteError
  | (kind, fragments) :: rest =>
      if mentions fragments text then kind else first_match rest text
  end.

Definition classify (text : str) : ErrorKind := first_match precedence text.

(** What the user reads for each kind; only the unknown kind quotes the
    error text. *)
Definition kind_message (kind : ErrorKind) (text : str) : str :=
  match kind with
  | IncompatibleFormat => "API parameter error - image format may be incompatible"
  | RequestTimeout => "Request timeout - try with a smaller image"
  | QuotaExceeded => "API quota exceeded - please wait before trying again"
  | AuthenticationError => "Authentication error - check your HF_TOKEN"
  | ModelUnavailable => "Model not available - try again later"
  | UnknownRemoteError => "API error: " ++ text
  end.

(** An instruction that is empty or made of white space only. *)
Definition blank (instruction : str) : bool :=
  forallb Py.isspace (list_ascii_of_string instruction).

(** Pillow's modes that carry an alpha band. *)
Definition has_alpha_channel (mode : str) : bool :=
  Py.str_in mode ["RGBA"; "LA"; "PA"; "RGBa"; "La"].

(** The image laid over an opaque white background of its size, its last
    band as the blend mask. *)
Definition composite_on_white `{PIL.Pillow} (image : PIL.Image) : result PIL.Image :=
  bands <- PIL.Image_split image ;;
  band <- last_item bands ;;
  PIL.Image_paste (PIL.Image_new "RGB" (PIL.size image) [255; 255; 255]) image (Some band).

(** A lower-case hexadecimal digit. *)
Definition is_hex (c : ascii) : bool := Py.between 48 57 c || Py.between 97 102 c.

(** Every character of [s] satisfies [p]. *)
Definition all_chars (p : ascii -> bool) (s : str) : bool :=
  forallb p (list_ascii_of_string s).

(** [s] is [t] with some characters left out. *)
Fixpoint subsequence (s t : str) : bool :=
  match s, t with
  | EmptyString, _ => true
  | String _ _, EmptyString => false
  | String a s', String b t' =>
      if Ascii.eqb a b then subsequence s' t' else subsequence s t'
  end.

End Spec.

(** ** The rest of [main]: the session controls and the results section *)
Module Page.



(** Lines 127-129: "Clear Files". *)
Definition clear_files (state : App.SessionState) : App.SessionState :=
  {| App.uploaded_files_data := [];
     App.processing_results := App.processing_results state;
     App.current_prompt := App.current_prompt state;
     App.processing_in_progress := App.processing_in_progress state |}.

(** Lines 132-134: "Clear Results". *)
Definition clear_results (state : App.SessionState) : App.SessionState :=
  {| App.uploaded_files_data := App.uploaded_files_data state;
     App.processing_results := [];
     App.current_prompt := App.current_prompt state;
     App.processing_in_progress := App.processing_in_progress state |}.

(** [[r for r in results if keep(r['success'])]]: an element that is not
    a dictionary cannot be subscripted. *)
Fixpoint select (keep : bool -> bool)
                (results : list (option ImageProcessor.ProcessingResult))
  : result (list ImageProcessor.ProcessingResult) :=
  match results with
  | [] => Ok []
  | None :: _ => Raises (Raise "'NoneType' object is not subscriptable")
  | Some r :: rest =>
      chosen <- select keep rest ;;
      Ok (if keep (ImageProcessor.success r) then r :: chosen else chosen)
  end.

(** Line 321 *)
Definition successful (results : list (option ImageProcessor.ProcessingResult))
  : result (list ImageProcessor.ProcessingResult) :=
  select (fun s => s) results.

(** Line 322 *)
Definition failed (results : list (option ImageProcessor.ProcessingResult))
  : result (list ImageProcessor.ProcessingResult) :=
  select negb results.

(** [r.get('result_size', 0)] *)
Definition result_size (r : ImageProcessor.ProcessingResult) : Z :=
  match r with
  | ImageProcessor.Success _ _ _ _ n => n
  | ImageProcessor.Failure _ _ => 0
  end.

(** Line 335, before the division: [sum(r.get('result_size', 0) ...)]. *)
Definition output_bytes (chosen : list ImageProcessor.ProcessingResult) : Z :=
  fold_left Z.add (map result_size chosen) 0.


(** Line 416: [f"edited_{result['filename'].split('.')[0]}.png"] *)
Definition download_name (filename : str) : str :=
  "edited_" ++ hd EmptyString (Py.split "." filename) ++ ".png".

(** The choices of the "Max previews" box. *)
Inductive MaxPreview :=
| Count (n : Z)
| All.

(** Lines 377-380 *)
Definition preview_count (max_preview : MaxPreview)
                         (chosen : list ImageProcessor.ProcessingResult) : Z :=
  match max_preview with
  | All => Py.len chosen
  | Count n => Z.min n (Py.len chosen)
  end.

(** Line 382: [successful[:preview_count]], for a count that is not
    negative. *)
Definition previews (max_preview : MaxPreview)
                    (chosen : list ImageProcessor.ProcessingResult)
  : list ImageProcessor.ProcessingResult :=
  firstn (Z.to_nat (preview_count max_preview chosen)) chosen.

(** Line 423: whether the note "Showing k of n results" appears. *)
Definition more_results_note (max_preview : MaxPreview)
                             (chosen : list ImageProcessor.ProcessingResult) : bool :=
  Py.len chosen >? preview_count max_preview chosen.

Section WithLibraries.
Context `{pillow : PIL.Pillow}.

(** What the upload loop stores under a key: the file's own fingerprint,
    and the bytes, name and description of a file that passed every check
    of the validator. *)
Definition stored_by_upload (key : str) (file_data : App.FileData) : Prop :=
  App.fd_hash file_data = key
  /\ key = App.create_file_hash (App.fd_bytes file_data) (App.fd_filename file_data)
  /\ App.fd_bytes file_data <> []
  /\ App.fd_size file_data <= ImageProcessor.MAX_FILE_SIZE
  /\ Py.str_in (ImageProcessor.file_extension (App.fd_filename file_data))
               ImageProcessor.SUPPORTED_FORMATS = true
  /\ exists image,
       PIL.Image_open (App.fd_bytes file_data) = Ok image
       /\ 50 <= PIL.width image <= 4000
       /\ 50 <= PIL.height image <= 4000
       /\ App.fd_dimensions file_data = ImageProcessor.dimensions image
       /\ App.fd_mode file_data = PIL.mode image.

(** A session as uploads build it. *)
Definition well_formed (files : App.dict App.FileData) : Prop :=
  NoDup (App.keys files)
  /\ Forall (fun item => stored_by_upload (fst item) (snd item)) files.

End WithLibraries.

End Page.

(** ** Proof automation *)

Ltac compare_ints :=
  repeat match goal with
         | H : context [?a >? ?b] |- _ => destruct (Z.gtb_spec a b)
         | |- context [?a >? ?b] => destruct (Z.gtb_spec a b)
         | H : context [?a <? ?b] |- _ => destruct (Z.ltb_spec a b)
         | |- context [?a <? ?b] => destruct (Z.ltb_spec a b)
         | H : context [?a =? ?b] |- _ => destruct (Z.eqb_spec a b)
         | |- context [?a =? ?b] => destruct (Z.eqb_spec a b)
         end.

(* ================================================================= *)
(** * Properties *)

Example lower_mixed : Py.lower "Rate LIMIT" = "rate limit".
Proof. reflexivity. Qed.

Example strip_blank : Py.strip "  	 " = "".
Proof. reflexivity. Qed.

Example strip_inner : Py.strip " a b " = "a b".
Proof. reflexivity. Qed.

Example split_dots : Py.split "." "archive.tar.gz" = ["archive"; "tar"; "gz"].
Proof. reflexivity. Qed.

Example splitext_examples :
  Py.splitext "a.tar.gz" = ("a.tar", ".gz") /\ Py.splitext ".bashrc" = (".bashrc", "")
  /\ Py.splitext "dir.d/file" = ("dir.d/file", "") /\ Py.splitext "a." = ("a", ".")
  /\ Py.splitext "..." = ("...", "") /\ Py.splitext "a/.b.c" = ("a/.b", ".c")
  /\ Py.splitext "a..png" = ("a.", ".png").
Proof. repeat split; reflexivity. Qed.

Example format_02d_examples :
  Py.format_02d 5 = "05" /\ Py.format_02d 12 = "12" /\ Py.format_02d 100 = "100"
  /\ Py.format_02d 0 = "00".
Proof. repeat split; reflexivity. Qed.

(** The character tables, against CPython's on U+0000..U+00FF. *)
Example isalnum_table :
  List.filter (fun n => Py.isalnum (ascii_of_nat n)) (seq 0 256)
  = ([48; 49; 50; 51; 52; 53; 54; 55; 56; 57; 65; 66; 67; 68; 69; 70; 71; 72; 73; 74; 75;
     76; 77; 78; 79; 80; 81; 82; 83; 84; 85; 86; 87; 88; 89; 90; 97; 98; 99; 100; 101;
     102; 103; 104; 105; 106; 107; 108; 109; 110; 111; 112; 113; 114; 115; 116; 117; 118;
     119; 120; 121; 122; 170; 178; 179; 181; 185; 186; 188; 189; 190; 192; 193; 194; 195;
     196; 197; 198; 199; 200; 201; 202; 203; 204; 205; 206; 207; 208; 209; 210; 211; 212;
     213; 214; 216; 217; 218; 219; 220; 221; 222; 223; 224; 225; 226; 227; 228; 229; 230;
     231; 232; 233; 234; 235; 236; 237; 238; 239; 240; 241; 242; 243; 244; 245; 246; 248;
     249; 250; 251; 252; 253; 254; 255])%nat.
Proof. vm_compute. reflexivity. Qed.

Example isspace_table :
  List.filter (fun n => Py.isspace (ascii_of_nat n)) (seq 0 256)
  = ([9; 10; 11; 12; 13; 28; 29; 30; 31; 32; 133; 160])%nat.
Proof. vm_compute. reflexivity. Qed.

Example lower_table :
  map (fun n => nat_of_ascii (Py.lower_char (ascii_of_nat n))) (seq 0 256)
  = ([0; 1; 2; 3; 4; 5; 6; 7; 8; 9; 10; 11; 12; 13; 14; 15; 16; 17; 18; 19; 20; 21; 22;
     23; 24; 25; 26; 27; 28; 29; 30; 31; 32; 33; 34; 35; 36; 37; 38; 39; 40; 41; 42; 43;
     44; 45; 46; 47; 48; 49; 50; 51; 52; 53; 54; 55; 56; 57; 58; 59; 60; 61; 62; 63; 64;
     97; 98; 99; 100; 101; 102; 103; 104; 105; 106; 107; 108; 109; 110; 111; 112; 113;
     114; 115; 116; 117; 118; 119; 120; 121; 122; 91; 92; 93; 94; 95; 96; 97; 98; 99;
     100; 101; 102; 103; 104; 105; 106; 107; 108; 109; 110; 111; 112; 113; 114; 115; 116;
     117; 118; 119; 120; 121; 122; 123; 124; 125; 126; 127; 128; 129; 130; 131; 132; 133;
     134; 135; 136; 137; 138; 139; 140; 141; 142; 143; 144; 145; 146; 147; 148; 149; 150;
     151; 152; 153; 154; 155; 156; 157; 158; 159; 160; 161; 162; 163; 164; 165; 166; 167;
     168; 169; 170; 171; 172; 173; 174; 175; 176; 177; 178; 179; 180; 181; 182; 183; 184;
     185; 186; 187; 188; 189; 190; 191; 224; 225; 226; 227; 228; 229; 230; 231; 232; 233;
     234; 235; 236; 237; 238; 239; 240; 241; 242; 243; 244; 245; 246; 215; 248; 249; 250;
     251; 252; 253; 254; 223; 224; 225; 226; 227; 228; 229; 230; 231; 232; 233; 234; 235;
     236; 237; 238; 239; 240; 241; 242; 243; 244; 245; 246; 247; 248; 249; 250; 251; 252;
     253; 254; 255])%nat.
Proof. vm_compute. reflexivity. Qed.

Example sha256_abc :
  Hashlib.sha256_hexdigest (list_byte_of_string "abc")
  = "ba7816bf8f01cfea414140de5dae2223b00361a396177a9cb410ff61f20015ad".
Proof. vm_compute. reflexivity. Qed.

Example sha256_empty :
  Hashlib.sha256_hexdigest []
  = "e3b0c44298fc1c149afbf4c8996fb92427ae41e4649b934ca495991b7852b855".
Proof. vm_compute. reflexivity. Qed.

Example sha256_two_blocks :
  Hashlib.sha256_hexdigest (repeat "a"%byte 70)
  = "6bd5e5034855a11241f0dee8fc72850ffd9955b28347a86428b5fa19119f6ad0".
Proof. vm_compute. reflexivity. Qed.

Example sha256_padding_edges :
  Hashlib.sha256_hexdigest (repeat "a"%byte 55)
  = "9f4390f8d30c2dd92ec9f095b65e2b9ae9b0a925a5258e241c9f1e910f734318"
  /\ Hashlib.sha256_hexdigest (repeat "a"%byte 56)
     = "b35439a4ac6f0948b6d6f9e3c6af0f5f590ce20f1bde7090ef7970686ec6738a"
  /\ Hashlib.sha256_hexdigest (repeat "a"%byte 64)
     = "ffe054fe7ae0cb6dc65c3af9b61d5209f439851db43d0ba5997337df154668eb"
  /\ Hashlib.sha256_hexdigest (repeat "a"%byte 120)
     = "2f3d335432c70b580af0e8e1b3674a7c020d683aa5f73aaaedfdc55af904c21c".
Proof. vm_compute. repeat split. Qed.

Example md5_padding_edges :
  Hashlib.md5_hexdigest (repeat "a"%byte 55) = "ef1772b6dff9a122358552954ad0df65"
  /\ Hashlib.md5_hexdigest (repeat "a"%byte 56) = "3b0c8ac703f828b04c6c197006d17218"
  /\ Hashlib.md5_hexdigest (repeat "a"%byte 64) = "014842d480b571495a4a0363793f7367"
  /\ Hashlib.md5_hexdigest (repeat "a"%byte 120) = "5f61c0ccad4cac44c75ff505e1f1e537".
Proof. vm_compute. repeat split. Qed.

Example hashes_of_all_byte_values :
  let all := map (fun n => byte_of_ascii (ascii_of_nat n)) (seq 0 256) in
  Hashlib.sha256_hexdigest all
  = "40aff2e9d2d8922e47afd4648e6967497158785fbd1da870e7110266bf944880"
  /\ Hashlib.md5_hexdigest all = "e2c865db4162bed963bfaa9ef6ac18f0".
Proof. vm_compute. repeat split. Qed.

Example md5_abc :
  Hashlib.md5_hexdigest (list_byte_of_string "abc") = "900150983cd24fb0d6963f7d28e17f72".
Proof. vm_compute. reflexivity. Qed.

Example md5_empty : Hashlib.md5_hexdigest [] = "d41d8cd98f00b204e9800998ecf8427e".
Proof. vm_compute. reflexivity. Qed.

Example md5_two_blocks :
  Hashlib.md5_hexdigest (repeat "a"%byte 70) = "0f5c6c4e740bfcc08c3c26ccb2673d46".
Proof. vm_compute. reflexivity. Qed.

Example megabytes_1f_exact_examples :
  megabytes_1f_exact 262144 = "0.2" /\ megabytes_1f_exact 786432 = "0.8"
  /\ megabytes_1f_exact 10485761 = "10.0" /\ megabytes_1f_exact 11534336 = "11.0"
  /\ megabytes_1f_exact 10538188 = "10.0" /\ megabytes_1f_exact 10538189 = "10.1"
  /\ megabytes_1f_exact 15990784 = "15.2".
Proof. repeat split; reflexivity. Qed.

Example sample_validation :
  @ImageProcessor.validate_image Sample.pillow Sample.floats
     (Sample.image_file "cat.png" 1 [1; 2; 3])
  = ImageProcessor.Valid 6 "100x100" "PNG" "RGB" (map Sample.byte_of_Z [1; 10; 10; 1; 2; 3]).
Proof. reflexivity. Qed.

Example sample_fingerprint :
  App.create_file_hash [x01%byte] "a.png" = "0767e6ce6668"
  /\ App.create_file_hash (list_byte_of_string "abc") (String (ascii_of_N 99)
       (String (ascii_of_N 97) (String (ascii_of_N 102) (String (ascii_of_N 233) ".png"))))
     = "40a3272f31e3"
  /\ App.create_file_hash [] "x" = "3682518e8b27".
Proof. repeat split; vm_compute; reflexivity. Qed.

(* ----------------------------------------------------------------- *)
(** ** Strings *)

Lemma contains_dot_cons (c : ascii) (t : str) :
  Py.contains "." (String c t) = Ascii.eqb c "." || Py.contains "." t.
Proof.
  change (Py.contains "." (String c t))
    with (if (if ascii_dec "." c then prefix "" t else false)
          then true else Py.contains "." t).
  destruct (ascii_dec "." c) as [<- | n].
  - destruct t; reflexivity.
  - destruct (Ascii.eqb_spec c "."); [congruence | reflexivity].
Qed.

Lemma contains_dot_app (s t : str) :
  Py.contains "." (s ++ t) = Py.contains "." s || Py.contains "." t.
Proof.
  induction s as [| c s IH].
  - destruct t; reflexivity.
  - change (String c s ++ t) with (String c (s ++ t)).
    rewrite !contains_dot_cons, IH. now rewrite orb_assoc.
Qed.

(** A [str] contains a dot exactly when it can be cut around one. *)
Lemma contains_dot_iff (s : str) :
  Py.contains "." s = true <-> exists pre post, s = pre ++ "." ++ post.
Proof.
  split.
  - induction s as [| c s IH]; [discriminate |].
    rewrite contains_dot_cons. intros H. apply orb_true_iff in H as [H | H].
    + apply Ascii.eqb_eq in H. subst c. now exists "", s.
    + destruct (IH H) as (pre & post & ->). now exists (String c pre), post.
  - intros (pre & post & ->). rewrite contains_dot_app.
    change ("." ++ post) with (String "." post).
    rewrite contains_dot_cons. simpl. now rewrite orb_true_r.
Qed.

Lemma split_not_nil (sep : ascii) (s : str) : Py.split sep s <> [].
Proof.
  induction s as [| c s IH]; simpl; [discriminate |].
  destruct (Ascii.eqb c sep); [discriminate |].
  destruct (Py.split sep s); [contradiction | discriminate].
Qed.

Lemma split_no_dot (s : str) : Py.contains "." s = false -> Py.split "." s = [s].
Proof.
  induction s as [| c s IH]; [reflexivity |].
  rewrite contains_dot_cons. intros H. apply orb_false_iff in H as [Hc Hs].
  simpl. rewrite Hc, (IH Hs). reflexivity.
Qed.

Lemma last_cons_not_nil {A} (x d : A) (l : list A) : l <> [] -> last (x :: l) d = last l d.
Proof. destruct l; [contradiction | reflexivity]. Qed.

Lemma split_around_last_dot (pre seg : str) :
  Py.contains "." seg = false ->
  exists h r, Py.split "." (pre ++ "." ++ seg) = (h :: r ++ [seg])%list.
Proof.
  intros Hseg. induction pre as [| c pre (h & r & IH)].
  - change ("" ++ "." ++ seg) with (String "." seg). simpl.
    rewrite (split_no_dot seg Hseg). now exists "", [].
  - change (String c pre ++ "." ++ seg) with (String c (pre ++ "." ++ seg)).
    cbn [Py.split]. rewrite IH. destruct (Ascii.eqb c ".").
    + now exists "", (h :: r).
    + now exists (String c h), r.
Qed.

(** The last piece of [split] is what follows the last dot. *)
Lemma split_last_segment (pre seg : str) :
  Py.contains "." seg = false ->
  last (Py.split "." (pre ++ "." ++ seg)) EmptyString = seg.
Proof.
  intros Hseg. destruct (split_around_last_dot pre seg Hseg) as (h & r & ->).
  change (h :: r ++ [seg])%list with ((h :: r) ++ [seg])%list. apply last_last.
Qed.

Lemma file_extension_no_dot (name : str) :
  Py.contains "." name = false -> ImageProcessor.file_extension name = "".
Proof. unfold ImageProcessor.file_extension. now intros ->. Qed.

Lemma file_extension_last_segment (pre seg : str) :
  Py.contains "." seg = false ->
  ImageProcessor.file_extension (pre ++ "." ++ seg) = Py.lower seg.
Proof.
  intros Hseg. unfold ImageProcessor.file_extension.
  assert (H : Py.contains "." (pre ++ "." ++ seg) = true)
    by (apply contains_dot_iff; now exists pre, seg).
  now rewrite H, split_last_segment.
Qed.

(* ----------------------------------------------------------------- *)
(** ** The validator *)

Lemma len_zero_iff {A} (l : list A) : Py.len l = 0 <-> l = [].
Proof.
  unfold Py.len. destruct l; simpl; split; intros; try reflexivity; try discriminate; lia.
Qed.

Lemma supported_formats_listing :
  Py.join ", " ImageProcessor.SUPPORTED_FORMATS = "png, jpg, jpeg, webp".
Proof. reflexivity. Qed.

Section Validator.
Context `{pillow : PIL.Pillow} `{floats : FloatFormat}.

(** What [validate_image] answers once the size, extension and emptiness
    checks have passed and the decoder has answered. *)
Lemma validate_image_decoded (file : ImageProcessor.UploadedFile) :
  ImageProcessor.size file <= ImageProcessor.MAX_FILE_SIZE ->
  Py.str_in (ImageProcessor.file_extension (ImageProcessor.name file))
            ImageProcessor.SUPPORTED_FORMATS = true ->
  ImageProcessor.getvalue file <> [] ->
  ImageProcessor.validate_image_body file =
    (image <- PIL.Image_open (ImageProcessor.getvalue file) ;;
     if (PIL.width image >? 4000) || (PIL.height image >? 4000) then
       Ok (ImageProcessor.Invalid ("Image too large: " ++ ImageProcessor.dimensions image ++ " (max: 4000x4000)"))
     else if (PIL.width image <? 50) || (PIL.height image <? 50) then
       Ok (ImageProcessor.Invalid ("Image too small: " ++ ImageProcessor.dimensions image ++ " (min: 50x50)"))
     else
       Ok (ImageProcessor.Valid (ImageProcessor.size file) (ImageProcessor.dimensions image)
             (match PIL.format image with
              | Some f => if Py.truthy f then f else "Unknown"
              | None => "Unknown"
              end)
             (PIL.mode image) (ImageProcessor.getvalue file))).
Proof.
  intros Hsize Hext Hbytes. unfold ImageProcessor.validate_image_body.
  destruct (Z.gtb_spec (ImageProcessor.size file) ImageProcessor.MAX_FILE_SIZE); [lia |].
  rewrite Hext. cbn [negb].
  destruct (Z.eqb_spec (Py.len (ImageProcessor.getvalue file)) 0) as [E | _].
  - now apply len_zero_iff in E.
  - reflexivity.
Qed.

(** C3.  The checks of [validate_image] run in the order size, extension,
    emptiness, decoding, upper bound, lower bound, and the first one that
    fails decides: a file above 10 MiB is rejected as too large whatever
    it holds, and a file that passes the first four checks is accepted
    exactly when both dimensions lie in [50, 4000], rejected as too large
    when one exceeds 4000 and otherwise as too small when one is below 50. *)
Theorem validate_image_checks_in_order (file : ImageProcessor.UploadedFile) :
  let extension := ImageProcessor.file_extension (ImageProcessor.name file) in
  let supported := Py.str_in extension ImageProcessor.SUPPORTED_FORMATS in
  (ImageProcessor.size file > 10 * 1024 * 1024 ->
   ImageProcessor.validate_image file =
     ImageProcessor.Invalid ("File too large: " ++ megabytes_1f (ImageProcessor.size file)
                             ++ "MB (max: 10.0MB)"))
  /\ (ImageProcessor.size file <= 10 * 1024 * 1024 -> supported = false ->
      ImageProcessor.validate_image file =
        ImageProcessor.Invalid ("Unsupported format: " ++ extension
                                ++ " (supported: png, jpg, jpeg, webp)"))
  /\ (ImageProcessor.size file <= 10 * 1024 * 1024 -> supported = true ->
      ImageProcessor.getvalue file = [] ->
      ImageProcessor.validate_image file = ImageProcessor.Invalid "Empty file")
  /\ (forall e,
      ImageProcessor.size file <= 10 * 1024 * 1024 -> supported = true ->
      ImageProcessor.getvalue file <> [] ->
      PIL.Image_open (ImageProcessor.getvalue file) = Raises e ->
      ImageProcessor.validate_image file =
        ImageProcessor.Invalid ("Invalid image file: " ++ exn_text e))
  /\ (forall image,
      ImageProcessor.size file <= 10 * 1024 * 1024 -> supported = true ->
      ImageProcessor.getvalue file <> [] ->
      PIL.Image_open (ImageProcessor.getvalue file) = Ok image ->
      let w := PIL.width image in
      let h := PIL.height image in
      (ImageProcessor.valid (ImageProcessor.validate_image file) = true
       <-> (50 <= w <= 4000 /\ 50 <= h <= 4000))
      /\ (w > 4000 \/ h > 4000 ->
          ImageProcessor.validate_image file =
            ImageProcessor.Invalid ("Image too large: " ++ ImageProcessor.dimensions image
                                    ++ " (max: 4000x4000)"))
      /\ (w <= 4000 -> h <= 4000 -> w < 50 \/ h < 50 ->
          ImageProcessor.validate_image file =
            ImageProcessor.Invalid ("Image too small: " ++ ImageProcessor.dimensions image
                                    ++ " (min: 50x50)"))).
Proof.
  intros extension supported. subst extension supported.
  change (10 * 1024 * 1024) with ImageProcessor.MAX_FILE_SIZE.
  split; [| split; [| split; [| split]]].
  - intros H. unfold ImageProcessor.validate_image, ImageProcessor.validate_image_body.
    destruct (Z.gtb_spec (ImageProcessor.size file) ImageProcessor.MAX_FILE_SIZE); [| lia].
    reflexivity.
  - intros H Hext. unfold ImageProcessor.validate_image, ImageProcessor.validate_image_body.
    destruct (Z.gtb_spec (ImageProcessor.size file) ImageProcessor.MAX_FILE_SIZE); [lia |].
    rewrite Hext. reflexivity.
  - intros H Hext Hb. unfold ImageProcessor.validate_image, ImageProcessor.validate_image_body.
    destruct (Z.gtb_spec (ImageProcessor.size file) ImageProcessor.MAX_FILE_SIZE); [lia |].
    rewrite Hext, Hb. reflexivity.
  - intros e H Hext Hb Hopen. unfold ImageProcessor.validate_image.
    rewrite validate_image_decoded, Hopen by assumption. reflexivity.
  - intros image H Hext Hb Hopen w h. subst w h.
    unfold ImageProcessor.validate_image.
    rewrite validate_image_decoded, Hopen by assumption. cbn [bind].
    destruct (Z.gtb_spec (PIL.width image) 4000); destruct (Z.gtb_spec (PIL.height image) 4000);
      destruct (Z.ltb_spec (PIL.width image) 50); destruct (Z.ltb_spec (PIL.height image) 50);
      cbn [orb ImageProcessor.valid];
      (split; [split; [intros; try discriminate; lia | intros; try reflexivity; lia] |
               split; intros; try reflexivity; lia]).
Qed.

(** The only place where the body of [validate_image] raises is the
    decoder, and only after the three checks before it have passed. *)
Lemma validate_image_body_raises (file : ImageProcessor.UploadedFile) (e : Exception) :
  ImageProcessor.validate_image_body file = Raises e ->
  PIL.Image_open (ImageProcessor.getvalue file) = Raises e
  /\ ImageProcessor.size file <= ImageProcessor.MAX_FILE_SIZE
  /\ Py.str_in (ImageProcessor.file_extension (ImageProcessor.name file))
               ImageProcessor.SUPPORTED_FORMATS = true
  /\ ImageProcessor.getvalue file <> [].
Proof.
  unfold ImageProcessor.validate_image_body.
  destruct (Z.gtb_spec (ImageProcessor.size file) ImageProcessor.MAX_FILE_SIZE);
    [discriminate |].
  destruct (Py.str_in _ ImageProcessor.SUPPORTED_FORMATS); cbn [negb]; [| discriminate].
  destruct (Z.eqb_spec (Py.len (ImageProcessor.getvalue file)) 0) as [E | N];
    [discriminate |].
  destruct (PIL.Image_open (ImageProcessor.getvalue file)) as [image | e'] eqn:Hopen;
    cbn [bind].
  - destruct (_ || _); [discriminate |]. destruct (_ || _); discriminate.
  - intros [= ->]. repeat split; try assumption.
    intros Hnil. apply N. now apply len_zero_iff.
Qed.

(** C9.  [validate_image] is total: whatever the decoder does, the call
    returns a dictionary, which is either the accepted description
    (['valid'] true) or an ['error'] (['valid'] false); an exception raised
    inside the body never leaves the function, it comes back as the
    invalid result ["Invalid image file: " + str(e)]. *)
Theorem validate_image_never_raises (file : ImageProcessor.UploadedFile) :
  (exists v, ImageProcessor.validate_image file = v
             /\ ((ImageProcessor.valid v = true
                  /\ exists size dims format mode file_bytes,
                       v = ImageProcessor.Valid size dims format mode file_bytes)
                 \/ (ImageProcessor.valid v = false
                     /\ exists error, v = ImageProcessor.Invalid error)))
  /\ (forall e, ImageProcessor.validate_image_body file = Raises e ->
                ImageProcessor.validate_image file
                = ImageProcessor.Invalid ("Invalid image file: " ++ exn_text e))
  /\ (forall e, PIL.Image_open (ImageProcessor.getvalue file) = Raises e ->
                ImageProcessor.validate_image file
                  = ImageProcessor.Invalid ("Invalid image file: " ++ exn_text e)
                \/ ImageProcessor.validate_image_body file
                   = Ok (ImageProcessor.validate_image file)).
Proof.
  split; [| split].
  - exists (ImageProcessor.validate_image file). split; [reflexivity |].
    destruct (ImageProcessor.validate_image file) as [sz d f m b | err].
    + left. split; [reflexivity |]. now exists sz, d, f, m, b.
    + right. split; [reflexivity |]. now exists err.
  - intros e H. unfold ImageProcessor.validate_image. now rewrite H.
  - intros e Hopen. unfold ImageProcessor.validate_image.
    destruct (ImageProcessor.validate_image_body file) as [v | e'] eqn:Hbody.
    + now right.
    + left. apply validate_image_body_raises in Hbody as (Hopen' & _).
      rewrite Hopen in Hopen'. now injection Hopen' as ->.
Qed.

(** C10, as the code has it.  The extension is the lower-cased piece
    after the last dot: a name without a dot has the empty extension, a
    name with several dots is judged by its last piece alone; a file whose
    name has no dot is never accepted: it is rejected as an unsupported
    format whenever the size check before it passes, and as too large
    otherwise. *)
Theorem extension_is_last_segment :
  (forall name, (forall pre post, name <> pre ++ "." ++ post) ->
                ImageProcessor.file_extension name = "")
  /\ (forall pre seg, (forall a b, seg <> a ++ "." ++ b) ->
                      ImageProcessor.file_extension (pre ++ "." ++ seg) = Py.lower seg)
  /\ ImageProcessor.file_extension "archive.tar.gz" = "gz"
  /\ (forall file : ImageProcessor.UploadedFile,
        (forall pre post, ImageProcessor.name file <> pre ++ "." ++ post) ->
        ImageProcessor.valid (ImageProcessor.validate_image file) = false
        /\ (ImageProcessor.size file <= 10 * 1024 * 1024 ->
            ImageProcessor.validate_image file
            = ImageProcessor.Invalid "Unsupported format:  (supported: png, jpg, jpeg, webp)")
        /\ (ImageProcessor.size file > 10 * 1024 * 1024 ->
            ImageProcessor.validate_image file
            = ImageProcessor.Invalid ("File too large: " ++ megabytes_1f (ImageProcessor.size file)
                                      ++ "MB (max: 10.0MB)"))).
Proof.
  assert (no_dot : forall s, (forall a b, s <> a ++ "." ++ b) -> Py.contains "." s = false).
  { intros s H. destruct (Py.contains "." s) eqn:E; [| reflexivity].
    apply contains_dot_iff in E as (a & b & ->). now destruct (H a b). }
  split; [| split; [| split]].
  - intros name H. apply file_extension_no_dot. now apply no_dot.
  - intros pre seg H. apply file_extension_last_segment. now apply no_dot.
  - reflexivity.
  - intros file H. apply no_dot, file_extension_no_dot in H.
    unfold ImageProcessor.validate_image, ImageProcessor.validate_image_body.
    rewrite H. change (10 * 1024 * 1024) with ImageProcessor.MAX_FILE_SIZE.
    destruct (Z.gtb_spec (ImageProcessor.size file) ImageProcessor.MAX_FILE_SIZE).
    + split; [reflexivity | split; [lia | reflexivity]].
    + split; [reflexivity | split; [reflexivity | lia]].
Qed.

End Validator.

(** Sample runs of the validator. *)
Lemma validate_image_checks_in_order_witness :
  ImageProcessor.validate_image (floats := Sample.floats) (pillow := Sample.pillow)
    {| ImageProcessor.name := "big.png"; ImageProcessor.size := 11534336;
       ImageProcessor.getvalue := [] |}
  = ImageProcessor.Invalid "File too large: 11.0MB (max: 10.0MB)"
  /\ ImageProcessor.validate_image (floats := Sample.floats) (pillow := Sample.pillow)
       (Sample.image_file "notes.txt" 1 [])
     = ImageProcessor.Invalid "Unsupported format: txt (supported: png, jpg, jpeg, webp)"
  /\ ImageProcessor.validate_image (floats := Sample.floats) (pillow := Sample.pillow)
       {| ImageProcessor.name := "empty.png"; ImageProcessor.size := 0;
          ImageProcessor.getvalue := [] |}
     = ImageProcessor.Invalid "Empty file"
  /\ ImageProcessor.validate_image (floats := Sample.floats) (pillow := Sample.pillow)
       {| ImageProcessor.name := "junk.png"; ImageProcessor.size := 1;
          ImageProcessor.getvalue := [x09%byte] |}
     = ImageProcessor.Invalid "Invalid image file: cannot identify image file"
  /\ ImageProcessor.validate_image (floats := Sample.floats) (pillow := Sample.pillow)
       {| ImageProcessor.name := "tiny.png"; ImageProcessor.size := 3;
          ImageProcessor.getvalue := map Sample.byte_of_Z [1; 2; 2] |}
     = ImageProcessor.Invalid "Image too small: 20x20 (min: 50x50)".
Proof.
  split; [| split; [| split; [| split]]].
  - apply (validate_image_checks_in_order (floats := Sample.floats) (pillow := Sample.pillow)
             {| ImageProcessor.name := "big.png"; ImageProcessor.size := 11534336;
                ImageProcessor.getvalue := [] |}). reflexivity.
  - apply (validate_image_checks_in_order (floats := Sample.floats) (pillow := Sample.pillow)
             (Sample.image_file "notes.txt" 1 [])); [discriminate | reflexivity].
  - apply (validate_image_checks_in_order (floats := Sample.floats) (pillow := Sample.pillow)
             {| ImageProcessor.name := "empty.png"; ImageProcessor.size := 0;
                ImageProcessor.getvalue := [] |}); [discriminate | reflexivity | reflexivity].
  - apply (validate_image_checks_in_order (floats := Sample.floats) (pillow := Sample.pillow)
             {| ImageProcessor.name := "junk.png"; ImageProcessor.size := 1;
                ImageProcessor.getvalue := [x09%byte] |}
             ) with (e := Raise "cannot identify image file");
      [discriminate | reflexivity | discriminate | reflexivity].
  - destruct (validate_image_checks_in_order (floats := Sample.floats) (pillow := Sample.pillow)
                {| ImageProcessor.name := "tiny.png"; ImageProcessor.size := 3;
                   ImageProcessor.getvalue := map Sample.byte_of_Z [1; 2; 2] |})
      as (_ & _ & _ & _ & H).
    cbv zeta in H.
    edestruct H as (_ & _ & Hsmall);
      [discriminate | reflexivity | discriminate | reflexivity |].
    apply Hsmall; [simpl; lia | simpl; lia | left; simpl; lia].
Defined.

Lemma validate_image_never_raises_witness :
  ImageProcessor.validate_image (floats := Sample.floats) (pillow := Sample.pillow)
    {| ImageProcessor.name := "junk.png"; ImageProcessor.size := 1;
       ImageProcessor.getvalue := [x09%byte] |}
  = ImageProcessor.Invalid "Invalid image file: cannot identify image file".
Proof.
  apply (validate_image_never_raises (floats := Sample.floats) (pillow := Sample.pillow)
           {| ImageProcessor.name := "junk.png"; ImageProcessor.size := 1;
              ImageProcessor.getvalue := [x09%byte] |}) with (e := Raise "cannot identify image file").
  reflexivity.
Defined.

Lemma extension_is_last_segment_witness :
  ImageProcessor.file_extension "README" = ""
  /\ ImageProcessor.file_extension "photo.final.PNG" = "png"
  /\ ImageProcessor.validate_image (floats := Sample.floats) (pillow := Sample.pillow)
       {| ImageProcessor.name := "README"; ImageProcessor.size := 5;
          ImageProcessor.getvalue := [x01%byte] |}
     = ImageProcessor.Invalid "Unsupported format:  (supported: png, jpg, jpeg, webp)".
Proof.
  assert (no_dot : forall s, Py.contains "." s = false -> forall a b, s <> a ++ "." ++ b).
  { intros s H a b ->. assert (E : Py.contains "." (a ++ "." ++ b) = true)
      by (apply contains_dot_iff; now exists a, b). congruence. }
  destruct (extension_is_last_segment (floats := Sample.floats) (pillow := Sample.pillow))
    as (H1 & H2 & _ & H4).
  split; [| split].
  - apply H1, no_dot. reflexivity.
  - apply (H2 "photo.final" "PNG"), no_dot. reflexivity.
  - destruct (H4 {| ImageProcessor.name := "README"; ImageProcessor.size := 5;
                    ImageProcessor.getvalue := [x01%byte] |}) as (_ & Hsmall & _);
      [apply no_dot; reflexivity |].
    apply Hsmall. simpl. lia.
Defined.

(** C10 as worded fails above the size limit: a file without a dot in
    its name is then rejected as too large, not as an unsupported format. *)
Lemma no_dot_oversized_is_too_large :
  Py.contains "." "README" = false
  /\ ImageProcessor.validate_image (floats := Sample.floats) (pillow := Sample.pillow)
       {| ImageProcessor.name := "README"; ImageProcessor.size := 11534336;
          ImageProcessor.getvalue := [] |}
     = ImageProcessor.Invalid "File too large: 11.0MB (max: 10.0MB)"
  /\ ImageProcessor.Invalid "File too large: 11.0MB (max: 10.0MB)"
     <> ImageProcessor.Invalid "Unsupported format:  (supported: png, jpg, jpeg, webp)".
Proof. split; [reflexivity | split; [reflexivity | discriminate]]. Qed.

(* ----------------------------------------------------------------- *)
(** ** The remote client *)

Lemma final_error_classified (e : Exception) :
  ImageProcessor.final_error e
  = Spec.kind_message (Spec.classify (exn_text e)) (exn_text e).
Proof.
  unfold ImageProcessor.final_error, Spec.classify, Spec.precedence, Spec.first_match,
    Spec.mentions, existsb.
  rewrite !orb_false_r.
  repeat match goal with
         | |- context [Py.contains ?n ?t] => destruct (Py.contains n t)
         end; reflexivity.
Qed.

Lemma kind_message_injective (k1 k2 : Spec.ErrorKind) (t1 t2 : str) :
  Spec.kind_message k1 t1 = Spec.kind_message k2 t2 -> k1 = k2.
Proof. destruct k1, k2; cbn [Spec.kind_message]; intros H; try reflexivity; discriminate. Qed.

Lemma classify_precedence (text : str) :
  let m := fun fragments => Spec.mentions fragments text in
  (Spec.classify text = Spec.IncompatibleFormat <-> m ["images"; "parameter"] = true)
  /\ (Spec.classify text = Spec.RequestTimeout
      <-> m ["images"; "parameter"] = false /\ m ["timeout"] = true)
  /\ (Spec.classify text = Spec.QuotaExceeded
      <-> m ["images"; "parameter"; "timeout"] = false /\ m ["quota"; "rate limit"] = true)
  /\ (Spec.classify text = Spec.AuthenticationError
      <-> m ["images"; "parameter"; "timeout"; "quota"; "rate limit"] = false
          /\ m ["unauthorized"; "token"] = true)
  /\ (Spec.classify text = Spec.ModelUnavailable
      <-> m ["images"; "parameter"; "timeout"; "quota"; "rate limit";
             "unauthorized"; "token"] = false
          /\ m ["model"] = true)
  /\ (Spec.classify text = Spec.UnknownRemoteError
      <-> m ["images"; "parameter"; "timeout"; "quota"; "rate limit";
             "unauthorized"; "token"; "model"] = false).
Proof.
  unfold Spec.classify, Spec.precedence, Spec.first_match, Spec.mentions, existsb.
  cbv zeta.
  repeat match goal with
         | |- context [Py.contains ?n ?t] => destruct (Py.contains n t)
         end; cbn [orb];
    repeat split; intros; try discriminate; try reflexivity;
    repeat match goal with H : _ /\ _ |- _ => destruct H end; discriminate.
Qed.

Lemma classify_ignores_case (t1 t2 : str) :
  Py.lower t1 = Py.lower t2 -> Spec.classify t1 = Spec.classify t2.
Proof.
  intros H. unfold Spec.classify, Spec.precedence, Spec.first_match, Spec.mentions.
  now rewrite H.
Qed.

Section RemoteClient.
Context `{pillow : PIL.Pillow} `{service : Hub.Service}.

Lemma call_api_world (self : ImageProcessor.ImageProcessor) (processed : bytes)
                     (prompt : str) (w : Hub.World) :
  snd (ImageProcessor.call_api self processed prompt w)
  = (w ++ [Hub.RemoteCall (ImageProcessor.client self) processed (Py.strip prompt)
                          ImageProcessor.model])%list.
Proof. reflexivity. Qed.

(** The retry loop, unrolled over [range(2)]. *)
Lemma retry_loop_unrolled (self : ImageProcessor.ImageProcessor)
                          (image_bytes processed : bytes) (prompt filename : str)
                          (w : Hub.World) :
  let call := Hub.RemoteCall (ImageProcessor.client self) processed (Py.strip prompt)
                             ImageProcessor.model in
  ImageProcessor.retry_loop self (Py.range ImageProcessor.max_retries)
                            image_bytes processed prompt filename w
  = match fst (ImageProcessor.call_api self processed prompt w) with
    | Ok (edited, rb) =>
        (Some (ImageProcessor.Success filename rb edited (Py.len image_bytes) (Py.len rb)),
         w ++ [call])%list
    | Raises _ =>
        match fst (ImageProcessor.call_api self processed prompt
                     (w ++ [call; Hub.Sleep 1000])%list) with
        | Ok (edited, rb) =>
            (Some (ImageProcessor.Success filename rb edited
                     (Py.len image_bytes) (Py.len rb)),
             w ++ [call; Hub.Sleep 1000; call])%list
        | Raises e2 =>
            (Some (ImageProcessor.Failure filename (ImageProcessor.final_error e2)),
             w ++ [call; Hub.Sleep 1000; call])%list
        end
    end.
Proof.
  intros call.
  change (Py.range ImageProcessor.max_retries) with [0; 1].
  cbn [ImageProcessor.retry_loop].
  destruct (ImageProcessor.call_api self processed prompt w) as [r1 w1] eqn:E1.
  pose proof (call_api_world self processed prompt w) as Hw1. rewrite E1 in Hw1.
  cbn [fst snd] in *. subst w1. fold call.
  destruct r1 as [[edited rb] | e1]; [reflexivity |].
  change (0 <? ImageProcessor.max_retries - 1) with true. cbv iota.
  replace ((w ++ [call]) ++ [Hub.Sleep 1000])%list with (w ++ [call; Hub.Sleep 1000])%list
    by now rewrite <- app_assoc.
  destruct (ImageProcessor.call_api self processed prompt (w ++ [call; Hub.Sleep 1000])%list)
    as [r2 w2] eqn:E2.
  pose proof (call_api_world self processed prompt (w ++ [call; Hub.Sleep 1000])%list) as Hw2.
  rewrite E2 in Hw2. cbn [fst snd] in *. subst w2. fold call.
  replace ((w ++ [call; Hub.Sleep 1000]) ++ [call])%list
    with (w ++ [call; Hub.Sleep 1000; call])%list by now rewrite <- app_assoc.
  destruct r2 as [[edited rb] | e2]; reflexivity.
Qed.

(** What a call of [process_single_image] adds to the world: nothing, one
    remote call, or two remote calls a second apart. *)
Lemma process_single_image_trace (self : ImageProcessor.ImageProcessor)
                                 (payload : ImageProcessor.Payload)
                                 (prompt filename : str) (w : Hub.World) :
  exists r trace,
    ImageProcessor.process_single_image self payload prompt filename w
    = (Some r, (w ++ trace)%list)
    /\ ImageProcessor.filename r = filename
    /\ (trace = []
        \/ exists call, Hub.is_call call = true
                        /\ (trace = [call] \/ trace = [call; Hub.Sleep 1000; call])).
Proof.
  unfold ImageProcessor.process_single_image, ImageProcessor.process_single_image_body.
  destruct payload as [b |].
  2: { exists (ImageProcessor.Failure filename "Invalid image data format"), [].
       rewrite app_nil_r. auto. }
  destruct (Py.len b =? 0).
  { exists (ImageProcessor.Failure filename "Invalid image data format"), [].
    rewrite app_nil_r. auto. }
  destruct (negb (Py.truthy prompt) || negb (Py.truthy (Py.strip prompt))).
  { exists (ImageProcessor.Failure filename "Empty prompt"), [].
    rewrite app_nil_r. auto. }
  destruct (ImageProcessor.prepare b) as [processed | e].
  2: { eexists (ImageProcessor.Failure filename _), [].
       rewrite app_nil_r. auto. }
  rewrite retry_loop_unrolled.
  set (call := Hub.RemoteCall _ _ _ _).
  destruct (fst (ImageProcessor.call_api self processed prompt w)) as [[edited rb] | e1].
  { eexists _, [call]. split; [reflexivity |]. split; [reflexivity |].
    right. exists call. auto. }
  destruct (fst (ImageProcessor.call_api self processed prompt _)) as [[edited rb] | e2];
    (eexists _, [call; Hub.Sleep 1000; call]; split; [reflexivity |];
     split; [reflexivity |]; right; exists call; auto).
Qed.

(** C2.  For every item the client tries the remote call at most twice,
    the second time one second after a first failure, and then gives up;
    the last error is reported under exactly one of the six kinds, found
    by looking for fragments in the lower-cased error text in the order
    parameter/images, timeout, quota/rate limit, unauthorized/token,
    model, and a text with none of them is quoted as it is. *)
Theorem remote_client_two_attempts_then_classifies
    (self : ImageProcessor.ImageProcessor) (image_bytes processed : bytes)
    (prompt filename : str) (w : Hub.World) :
  let call := Hub.RemoteCall (ImageProcessor.client self) processed (Py.strip prompt)
                             ImageProcessor.model in
  let first := fst (ImageProcessor.call_api self processed prompt w) in
  let second := fst (ImageProcessor.call_api self processed prompt
                       (w ++ [call; Hub.Sleep 1000])%list) in
  let outcome := ImageProcessor.retry_loop self (Py.range ImageProcessor.max_retries)
                   image_bytes processed prompt filename w in
  (exists trace, snd outcome = (w ++ trace)%list
                 /\ (trace = [call] \/ trace = [call; Hub.Sleep 1000; call])
                 /\ (List.length (Hub.calls trace) <= 2)%nat)
  /\ (forall payload, exists r trace,
        ImageProcessor.process_single_image self payload prompt filename w
        = (Some r, (w ++ trace)%list)
        /\ (List.length (Hub.calls trace) <= 2)%nat)
  /\ (forall e1, first = Raises e1 ->
        snd outcome = (w ++ [call; Hub.Sleep 1000; call])%list)
  /\ (forall e1 e2, first = Raises e1 -> second = Raises e2 ->
        fst outcome
        = Some (ImageProcessor.Failure filename
                  (Spec.kind_message (Spec.classify (exn_text e2)) (exn_text e2))))
  /\ (forall k1 k2 t1 t2,
        Spec.kind_message k1 t1 = Spec.kind_message k2 t2 -> k1 = k2)
  /\ (forall text,
        let m := fun fragments => Spec.mentions fragments text in
        (Spec.classify text = Spec.IncompatibleFormat
         <-> m ["images"; "parameter"] = true)
        /\ (Spec.classify text = Spec.RequestTimeout
            <-> m ["images"; "parameter"] = false /\ m ["timeout"] = true)
        /\ (Spec.classify text = Spec.QuotaExceeded
            <-> m ["images"; "parameter"; "timeout"] = false
                /\ m ["quota"; "rate limit"] = true)
        /\ (Spec.classify text = Spec.AuthenticationError
            <-> m ["images"; "parameter"; "timeout"; "quota"; "rate limit"] = false
                /\ m ["unauthorized"; "token"] = true)
        /\ (Spec.classify text = Spec.ModelUnavailable
            <-> m ["images"; "parameter"; "timeout"; "quota"; "rate limit";
                   "unauthorized"; "token"] = false
                /\ m ["model"] = true)
        /\ (Spec.classify text = Spec.UnknownRemoteError
            <-> m ["images"; "parameter"; "timeout"; "quota"; "rate limit";
                   "unauthorized"; "token"; "model"] = false))
  /\ (forall t1 t2, Py.lower t1 = Py.lower t2 -> Spec.classify t1 = Spec.classify t2)
  /\ (forall e, Spec.classify (exn_text e) = Spec.UnknownRemoteError ->
                ImageProcessor.final_error e = "API error: " ++ exn_text e).
Proof.
  intros call first second outcome.
  assert (Hout : outcome
    = match first with
      | Ok (edited, rb) =>
          (Some (ImageProcessor.Success filename rb edited (Py.len image_bytes) (Py.len rb)),
           w ++ [call])%list
      | Raises _ =>
          match second with
          | Ok (edited, rb) =>
              (Some (ImageProcessor.Success filename rb edited
                       (Py.len image_bytes) (Py.len rb)),
               w ++ [call; Hub.Sleep 1000; call])%list
          | Raises e2 =>
              (Some (ImageProcessor.Failure filename (ImageProcessor.final_error e2)),
               w ++ [call; Hub.Sleep 1000; call])%list
          end
      end) by apply retry_loop_unrolled.
  split; [| split; [| split; [| split; [| split; [| split; [| split]]]]]].
  - rewrite Hout. destruct first as [[edited rb] | e1].
    + exists [call]. repeat split; [now left | simpl; lia].
    + exists [call; Hub.Sleep 1000; call].
      destruct second as [[edited rb] | e2]; (repeat split; [now right | simpl; lia]).
  - intros payload.
    destruct (process_single_image_trace self payload prompt filename w)
      as (r & trace & Hrun & _ & Htrace).
    exists r, trace. split; [exact Hrun |].
    destruct Htrace as [-> | (c & Hc & [-> | ->])]; simpl; rewrite ?Hc; simpl; lia.
  - intros e1 H1. rewrite Hout, H1. now destruct second as [[edited rb] | e2].
  - intros e1 e2 H1 H2. rewrite Hout, H1, H2. cbn [fst].
    now rewrite final_error_classified.
  - apply kind_message_injective.
  - apply classify_precedence.
  - apply classify_ignores_case.
  - intros e H. rewrite final_error_classified, H. reflexivity.
Qed.

End RemoteClient.

Lemma remote_client_two_attempts_then_classifies_witness :
  ImageProcessor.retry_loop
    (service := Sample.scripted [Some "Rate LIMIT exceeded"; Some "HTTP 429: Rate Limit"])
    (pillow := Sample.pillow)
    Sample.processor (Py.range ImageProcessor.max_retries) [x01%byte] [x01%byte]
    " add a hat " "cat.png" []
  = (Some (ImageProcessor.Failure "cat.png"
             "API quota exceeded - please wait before trying again"),
     [Hub.RemoteCall (ImageProcessor.client Sample.processor) [x01%byte] "add a hat"
                     "Qwen/Qwen-Image-Edit";
      Hub.Sleep 1000;
      Hub.RemoteCall (ImageProcessor.client Sample.processor) [x01%byte] "add a hat"
                     "Qwen/Qwen-Image-Edit"]).
Proof.
  destruct (remote_client_two_attempts_then_classifies
              (service := Sample.scripted
                            [Some "Rate LIMIT exceeded"; Some "HTTP 429: Rate Limit"])
              (pillow := Sample.pillow)
              Sample.processor [x01%byte] [x01%byte] " add a hat " "cat.png" [])
    as (_ & _ & Hworld & Hfail & _).
  apply injective_projections.
  - exact (Hfail (Raise "Rate LIMIT exceeded") (Raise "HTTP 429: Rate Limit")
                 eq_refl eq_refl).
  - exact (Hworld (Raise "Rate LIMIT exceeded") eq_refl).
Defined.

(* ----------------------------------------------------------------- *)
(** ** The batch loop *)

Lemma lstrip_blank (s : str) : Py.lstrip s = "" <-> Spec.blank s = true.
Proof.
  unfold Spec.blank. induction s as [| c s IH]; cbn [Py.lstrip list_ascii_of_string forallb].
  - now split.
  - destruct (Py.isspace c); cbn [andb]; [exact IH | split; discriminate].
Qed.

Lemma lstrip_head (s : str) :
  Py.lstrip s = "" \/ exists c t, Py.lstrip s = String c t /\ Py.isspace c = false.
Proof.
  induction s as [| c s IH]; cbn [Py.lstrip]; [now left |].
  destruct (Py.isspace c) eqn:E; [exact IH | right; now exists c, s].
Qed.

Lemma rstrip_keeps_head (c : ascii) (t : str) :
  Py.isspace c = false -> exists r, Py.rstrip (String c t) = String c r.
Proof.
  intros H. cbn [Py.rstrip]. rewrite H.
  destruct (Py.rstrip t) as [| c' r]; [now exists "" | now exists (String c' r)].
Qed.

(** [strip] leaves nothing exactly of the blank strings. *)
Lemma strip_blank_iff (s : str) : Py.strip s = "" <-> Spec.blank s = true.
Proof.
  unfold Py.strip. rewrite <- lstrip_blank.
  destruct (lstrip_head s) as [-> | (c & t & -> & Hc)]; [now split |].
  destruct (rstrip_keeps_head c t Hc) as (r & ->). split; discriminate.
Qed.

(** The test [not prompt or not prompt.strip()]. *)
Lemma empty_prompt_test (prompt : str) :
  negb (Py.truthy prompt) || negb (Py.truthy (Py.strip prompt)) = Spec.blank prompt.
Proof.
  destruct (Spec.blank prompt) eqn:E.
  - apply strip_blank_iff in E. rewrite E. cbn. apply orb_true_r.
  - destruct (Py.strip prompt) eqn:Es.
    + apply strip_blank_iff in Es. congruence.
    + destruct prompt; [discriminate Es | reflexivity].
Qed.

Section Batch.
Context `{pillow : PIL.Pillow} `{service : Hub.Service}.

(** The ways one item fails without stopping anything. *)
Lemma process_single_image_failures (self : ImageProcessor.ImageProcessor)
                                    (b : bytes) (prompt filename : str) (w : Hub.World) :
  ImageProcessor.process_single_image self ImageProcessor.NotBytes prompt filename w
  = (Some (ImageProcessor.Failure filename "Invalid image data format"), w)
  /\ (b = [] ->
      ImageProcessor.process_single_image self (ImageProcessor.IsBytes b) prompt filename w
      = (Some (ImageProcessor.Failure filename "Invalid image data format"), w))
  /\ (b <> [] -> Spec.blank prompt = true ->
      ImageProcessor.process_single_image self (ImageProcessor.IsBytes b) prompt filename w
      = (Some (ImageProcessor.Failure filename "Empty prompt"), w))
  /\ (forall e, b <> [] -> Spec.blank prompt = false ->
      ImageProcessor.prepare b = Raises e ->
      ImageProcessor.process_single_image self (ImageProcessor.IsBytes b) prompt filename w
      = (Some (ImageProcessor.Failure filename
                 ("Image preprocessing failed: " ++ exn_text e)), w))
  /\ (forall processed e1 e2, b <> [] -> Spec.blank prompt = false ->
      ImageProcessor.prepare b = Ok processed ->
      let call := Hub.RemoteCall (ImageProcessor.client self) processed (Py.strip prompt)
                                 ImageProcessor.model in
      fst (ImageProcessor.call_api self processed prompt w) = Raises e1 ->
      fst (ImageProcessor.call_api self processed prompt (w ++ [call; Hub.Sleep 1000])%list)
      = Raises e2 ->
      ImageProcessor.process_single_image self (ImageProcessor.IsBytes b) prompt filename w
      = (Some (ImageProcessor.Failure filename (ImageProcessor.final_error e2)),
         (w ++ [call; Hub.Sleep 1000; call])%list)).
Proof.
  unfold ImageProcessor.process_single_image, ImageProcessor.process_single_image_body.
  rewrite empty_prompt_test.
  split; [reflexivity |].
  split; [intros ->; reflexivity |].
  assert (Hlen : b <> [] -> (Py.len b =? 0) = false).
  { intros Hb. destruct (Z.eqb_spec (Py.len b) 0) as [E |]; [| reflexivity].
    now apply len_zero_iff in E. }
  split; [| split].
  - intros Hb Hp. now rewrite (Hlen Hb), Hp.
  - intros e Hb Hp He. now rewrite (Hlen Hb), Hp, He.
  - intros processed e1 e2 Hb Hp Hprep. cbv zeta. intros H1 H2.
    rewrite (Hlen Hb), Hp, Hprep, retry_loop_unrolled. cbv zeta.
    now rewrite H1, H2.
Qed.

(** The loop appends one dictionary per item, in order. *)
Lemma process_files_appends (processor : ImageProcessor.ImageProcessor)
                            (files_data : list (str * App.FileData)) (prompt : str) :
  forall (acc : list (option ImageProcessor.ProcessingResult)) (w : Hub.World),
  exists results w',
    App.process_files processor files_data prompt acc w
    = ((acc ++ map Some results)%list, w')
    /\ Forall2 (fun item r =>
                  exists w0 w1,
                    ImageProcessor.process_single_image processor
                      (ImageProcessor.IsBytes (App.fd_bytes (snd item))) prompt
                      (App.fd_filename (snd item)) w0
                    = (Some r, w1))
               files_data results.
Proof.
  induction files_data as [| [file_hash file_data] rest IH]; intros acc w.
  - exists [], w. cbn. rewrite app_nil_r. split; [reflexivity | constructor].
  - cbn [App.process_files].
    destruct (process_single_image_trace processor
                (ImageProcessor.IsBytes (App.fd_bytes file_data)) prompt
                (App.fd_filename file_data) w) as (r & trace & Hrun & _).
    rewrite Hrun.
    destruct (IH (acc ++ [Some r])%list ((w ++ trace) ++ [Hub.Sleep 200])%list)
      as (results & w' & Hrest & Hall).
    exists (r :: results), w'. split.
    + rewrite Hrest. cbn [map]. now rewrite <- app_assoc.
    + constructor; [| exact Hall]. now exists w, (w ++ trace)%list.
Qed.

(** C1.  A batch run over a session of N items with any instruction
    leaves exactly N results, one per item and in the session's order,
    each of them a dictionary (no call returns nothing, none raises); an
    item whose bytes are empty or not bytes, or met with a blank
    instruction, or whose preparation fails, or whose two remote attempts
    both fail, gets a failure result, and the loop goes on to the next
    item all the same. *)
Theorem batch_gives_one_result_per_item
    (processor : ImageProcessor.ImageProcessor) (state : App.SessionState)
    (prompt : str) (w : Hub.World) :
  let files_data := App.uploaded_files_data state in
  (exists results : list ImageProcessor.ProcessingResult,
     App.processing_results (fst (App.run_batch processor prompt state w))
     = map Some results
     /\ fst (App.process_files processor files_data prompt [] w) = map Some results
     /\ List.length results = List.length files_data
     /\ map ImageProcessor.filename results
        = map (fun item => App.fd_filename (snd item)) files_data
     /\ Forall2
          (fun item r =>
             let b := App.fd_bytes (snd item) in
             let name := App.fd_filename (snd item) in
             (b = [] -> r = ImageProcessor.Failure name "Invalid image data format")
             /\ (b <> [] -> Spec.blank prompt = true ->
                 r = ImageProcessor.Failure name "Empty prompt")
             /\ (forall e, b <> [] -> Spec.blank prompt = false ->
                 ImageProcessor.prepare b = Raises e ->
                 r = ImageProcessor.Failure name
                       ("Image preprocessing failed: " ++ exn_text e))
             /\ (exists w0 w1,
                   ImageProcessor.process_single_image processor
                     (ImageProcessor.IsBytes b) prompt name w0 = (Some r, w1)
                   /\ forall processed e1 e2,
                        b <> [] -> Spec.blank prompt = false ->
                        ImageProcessor.prepare b = Ok processed ->
                        fst (ImageProcessor.call_api processor processed prompt w0)
                        = Raises e1 ->
                        fst (ImageProcessor.call_api processor processed prompt
                               (w0 ++ [Hub.RemoteCall (ImageProcessor.client processor)
                                         processed (Py.strip prompt) ImageProcessor.model;
                                       Hub.Sleep 1000])%list)
                        = Raises e2 ->
                        r = ImageProcessor.Failure name (ImageProcessor.final_error e2)))
          files_data results)
  /\ (forall name w0,
        ImageProcessor.process_single_image processor ImageProcessor.NotBytes prompt name w0
        = (Some (ImageProcessor.Failure name "Invalid image data format"), w0)).
Proof.
  intros files_data. split.
  2: { intros name w0.
       now destruct (process_single_image_failures processor [] prompt name w0) as (H & _). }
  destruct (process_files_appends processor files_data prompt [] w)
    as (results & w' & Hrun & Hall).
  cbn [app] in Hrun.
  exists results. split; [| split; [| split; [| split]]].
  - unfold App.run_batch. fold files_data. now rewrite Hrun.
  - now rewrite Hrun.
  - symmetry. exact (Forall2_length Hall).
  - clear Hrun. induction Hall as [| item r items rs (w0 & w1 & Hitem) _ IH]; [reflexivity |].
    cbn [map]. rewrite IH. f_equal.
    destruct (process_single_image_trace processor
                (ImageProcessor.IsBytes (App.fd_bytes (snd item))) prompt
                (App.fd_filename (snd item)) w0) as (r' & trace & Hrun' & Hname & _).
    rewrite Hrun' in Hitem. now injection Hitem as -> _.
  - refine (Forall2_impl _ _ Hall). intros item r (w0 & w1 & Hitem). cbv zeta.
    pose proof (process_single_image_failures processor (App.fd_bytes (snd item)) prompt
                  (App.fd_filename (snd item)) w0) as (_ & Hempty & Hblank & Hprep & Hcall).
    split; [| split; [| split]].
    + intros Hb. rewrite (Hempty Hb) in Hitem. now injection Hitem as <-.
    + intros Hb Hp. rewrite (Hblank Hb Hp) in Hitem. now injection Hitem as <-.
    + intros e Hb Hp He. rewrite (Hprep e Hb Hp He) in Hitem. now injection Hitem as <-.
    + exists w0, w1. split; [exact Hitem |].
      intros processed e1 e2 Hb Hp Hok H1 H2.
      rewrite (Hcall processed e1 e2 Hb Hp Hok H1 H2) in Hitem. now injection Hitem as <-.
Qed.

End Batch.

Lemma batch_gives_one_result_per_item_witness :
  exists results,
    fst (App.process_files
           (service := Sample.scripted [None; Some "rate limit"; Some "Rate limit"; None])
           (pillow := Sample.pillow)
           Sample.processor
           [("k1", {| App.fd_filename := "a.png"; App.fd_size := 4; App.fd_dimensions := "100x100";
                      App.fd_format := "PNG"; App.fd_mode := "L";
                      App.fd_bytes := map Sample.byte_of_Z [2; 10; 10; 7]; App.fd_hash := "k1" |});
            ("k2", {| App.fd_filename := "b.png"; App.fd_size := 4; App.fd_dimensions := "100x100";
                      App.fd_format := "PNG"; App.fd_mode := "L";
                      App.fd_bytes := map Sample.byte_of_Z [2; 10; 10; 8]; App.fd_hash := "k2" |});
            ("k3", {| App.fd_filename := "c.png"; App.fd_size := 0; App.fd_dimensions := "100x100";
                      App.fd_format := "PNG"; App.fd_mode := "L";
                      App.fd_bytes := []; App.fd_hash := "k3" |})]
           "make it vintage" [] [])
    = map Some results
    /\ List.length results = 3%nat
    /\ map ImageProcessor.filename results = ["a.png"; "b.png"; "c.png"].
Proof.
  destruct (batch_gives_one_result_per_item
              (service := Sample.scripted [None; Some "rate limit"; Some "Rate limit"; None])
              (pillow := Sample.pillow)
              Sample.processor
              {| App.uploaded_files_data :=
                   [("k1", {| App.fd_filename := "a.png"; App.fd_size := 4;
                              App.fd_dimensions := "100x100";
                              App.fd_format := "PNG"; App.fd_mode := "L";
                              App.fd_bytes := map Sample.byte_of_Z [2; 10; 10; 7];
                              App.fd_hash := "k1" |});
                    ("k2", {| App.fd_filename := "b.png"; App.fd_size := 4;
                              App.fd_dimensions := "100x100";
                              App.fd_format := "PNG"; App.fd_mode := "L";
                              App.fd_bytes := map Sample.byte_of_Z [2; 10; 10; 8];
                              App.fd_hash := "k2" |});
                    ("k3", {| App.fd_filename := "c.png"; App.fd_size := 0;
                              App.fd_dimensions := "100x100";
                              App.fd_format := "PNG"; App.fd_mode := "L";
                              App.fd_bytes := []; App.fd_hash := "k3" |})];
                 App.processing_results := [];
                 App.current_prompt := "";
                 App.processing_in_progress := false |}
              "make it vintage" [])
    as ((results & _ & Hrun & Hlen & Hnames & _) & _).
  exists results. split; [exact Hrun | split; [exact Hlen | exact Hnames]].
Defined.

(** The scenario of the specification: three items, the second one
    refused twice for its rate limit. *)
Example batch_with_one_quota_failure :
  let run :=
    App.process_files
      (service := Sample.scripted [None; Some "rate limit"; Some "Rate limit"; None])
      (pillow := Sample.pillow)
      Sample.processor
      [("k1", {| App.fd_filename := "a.png"; App.fd_size := 4; App.fd_dimensions := "100x100";
                 App.fd_format := "PNG"; App.fd_mode := "L";
                 App.fd_bytes := map Sample.byte_of_Z [2; 10; 10; 7]; App.fd_hash := "k1" |});
       ("k2", {| App.fd_filename := "b.png"; App.fd_size := 4; App.fd_dimensions := "100x100";
                 App.fd_format := "PNG"; App.fd_mode := "L";
                 App.fd_bytes := map Sample.byte_of_Z [2; 10; 10; 8]; App.fd_hash := "k2" |});
       ("k3", {| App.fd_filename := "c.png"; App.fd_size := 4; App.fd_dimensions := "100x100";
                 App.fd_format := "PNG"; App.fd_mode := "L";
                 App.fd_bytes := map Sample.byte_of_Z [2; 10; 10; 9]; App.fd_hash := "k3" |})]
      "make it vintage" [] [] in
  map (option_map ImageProcessor.success) (fst run) = [Some true; Some false; Some true]
  /\ nth_error (fst run) 1
     = Some (Some (ImageProcessor.Failure "b.png"
                     "API quota exceeded - please wait before trying again"))
  /\ List.length (Hub.calls (snd run)) = 4%nat.
Proof. vm_compute. repeat split. Qed.

(* ----------------------------------------------------------------- *)
(** ** The normaliser *)

Section Normalizer.
Context `{pillow : PIL.Pillow} `{service : Hub.Service}.

Lemma paste_keeps_mode (background image flat : PIL.Image) (mask : option PIL.Image) :
  PIL.Image_paste background image mask = Ok flat -> PIL.mode flat = PIL.mode background.
Proof.
  unfold PIL.Image_paste. destruct (PIL.paste_pixels background image mask); cbn [bind];
    [| discriminate]. now intros [= <-].
Qed.

Lemma convert_sets_mode (image converted : PIL.Image) (mode : str) :
  PIL.Image_convert image mode = Ok converted -> PIL.mode converted = mode.
Proof.
  unfold PIL.Image_convert. destruct (PIL.convert_pixels image mode); cbn [bind];
    [| discriminate]. now intros [= <-].
Qed.

(** The three branches of the preparation, by the mode of the image. *)
Lemma prepare_by_mode (b : bytes) (image : PIL.Image) :
  PIL.Image_open b = Ok image ->
  (PIL.mode image = "RGB" \/ PIL.mode image = "L" ->
   ImageProcessor.prepare b = PIL.save_png image)
  /\ (PIL.mode image = "RGBA" ->
      ImageProcessor.prepare b
      = (flat <- Spec.composite_on_white image ;; PIL.save_png flat))
  /\ (PIL.mode image <> "RGB" -> PIL.mode image <> "L" -> PIL.mode image <> "RGBA" ->
      ImageProcessor.prepare b
      = (converted <- PIL.Image_convert image "RGB" ;; PIL.save_png converted)).
Proof.
  intros Hopen. unfold ImageProcessor.prepare. rewrite Hopen. cbn [bind].
  unfold Py.str_in, existsb. split; [| split].
  - intros [-> | ->]; reflexivity.
  - intros ->. cbn. unfold Spec.composite_on_white.
    destruct (PIL.Image_split image) as [bands |]; cbn [bind]; [| reflexivity].
    destruct (last_item bands); reflexivity.
  - intros H1 H2 H3.
    destruct (String.eqb_spec (PIL.mode image) "RGB"); [contradiction |].
    destruct (String.eqb_spec (PIL.mode image) "L"); [contradiction |].
    destruct (String.eqb_spec (PIL.mode image) "RGBA"); [contradiction |].
    reflexivity.
Qed.

(** C5, as the code has it.  The preparation decodes the bytes and hands
    to the PNG encoder an image in mode RGB or L: an image already in RGB
    or L as it is, an image in mode RGBA laid over opaque white with its
    alpha band as mask, an image in any other mode, with or without an
    alpha band, after [convert('RGB')]; a failure of the decoder, of a
    raster operation or of the encoder fails this item only, before any
    remote call, and the loop goes on. *)
Theorem prepare_encodes_rgb_or_l (b : bytes) :
  (forall e, PIL.Image_open b = Raises e -> ImageProcessor.prepare b = Raises e)
  /\ (forall image, PIL.Image_open b = Ok image ->
        (PIL.mode image = "RGB" \/ PIL.mode image = "L" ->
         ImageProcessor.prepare b = PIL.save_png image)
        /\ (PIL.mode image = "RGBA" ->
            ImageProcessor.prepare b
            = (flat <- Spec.composite_on_white image ;; PIL.save_png flat))
        /\ (PIL.mode image <> "RGB" -> PIL.mode image <> "L" -> PIL.mode image <> "RGBA" ->
            ImageProcessor.prepare b
            = (converted <- PIL.Image_convert image "RGB" ;; PIL.save_png converted)))
  /\ (forall out, ImageProcessor.prepare b = Ok out ->
        exists encoded, PIL.save_png encoded = Ok out
                        /\ (PIL.mode encoded = "RGB" \/ PIL.mode encoded = "L"))
  /\ (forall self prompt filename w e,
        b <> [] -> Spec.blank prompt = false -> ImageProcessor.prepare b = Raises e ->
        let failure :=
          ImageProcessor.Failure filename ("Image preprocessing failed: " ++ exn_text e) in
        ImageProcessor.process_single_image self (ImageProcessor.IsBytes b) prompt filename w
        = (Some failure, w)
        /\ forall file_hash file_data rest results,
             App.fd_bytes file_data = b -> App.fd_filename file_data = filename ->
             App.process_files self ((file_hash, file_data) :: rest) prompt results w
             = App.process_files self rest prompt (results ++ [Some failure])%list
                                 (w ++ [Hub.Sleep 200])%list).
Proof.
  split; [| split; [| split]].
  - intros e H. unfold ImageProcessor.prepare. now rewrite H.
  - apply prepare_by_mode.
  - intros out Hout.
    destruct (PIL.Image_open b) as [image | e] eqn:Hopen.
    2: { unfold ImageProcessor.prepare in Hout. now rewrite Hopen in Hout. }
    destruct (prepare_by_mode b image Hopen) as (Hkeep & Hflat & Hconv).
    destruct (String.eqb_spec (PIL.mode image) "RGB") as [E1 | N1].
    { exists image. rewrite <- Hkeep by now left. auto. }
    destruct (String.eqb_spec (PIL.mode image) "L") as [E2 | N2].
    { exists image. rewrite <- Hkeep by now right. auto. }
    destruct (String.eqb_spec (PIL.mode image) "RGBA") as [E3 | N3].
    + rewrite (Hflat E3) in Hout. unfold Spec.composite_on_white in Hout.
      destruct (PIL.Image_split image) as [bands |]; cbn [bind] in Hout; [| discriminate].
      destruct (last_item bands) as [band |]; cbn [bind] in Hout; [| discriminate].
      destruct (PIL.Image_paste _ image (Some band)) as [flat |] eqn:Hpaste;
        cbn [bind] in Hout; [| discriminate].
      exists flat. split; [exact Hout |]. left.
      now rewrite (paste_keeps_mode _ _ _ _ Hpaste).
    + rewrite (Hconv N1 N2 N3) in Hout.
      destruct (PIL.Image_convert image "RGB") as [converted |] eqn:Hc;
        cbn [bind] in Hout; [| discriminate].
      exists converted. split; [exact Hout |]. left. exact (convert_sets_mode _ _ _ Hc).
  - intros self prompt filename w e Hb Hp He failure.
    destruct (process_single_image_failures self b prompt filename w)
      as (_ & _ & _ & Hprep & _).
    specialize (Hprep e Hb Hp He). split; [exact Hprep |].
    intros file_hash file_data rest results Hbytes Hname.
    cbn [App.process_files]. rewrite Hbytes, Hname, Hprep. reflexivity.
Qed.

End Normalizer.

Lemma prepare_encodes_rgb_or_l_witness :
  ImageProcessor.prepare (pillow := Sample.pillow) (map Sample.byte_of_Z [3; 10; 10; 200; 100; 0; 0])
  = Ok (map Sample.byte_of_Z [1; 10; 10; 255; 255; 255])
  /\ ImageProcessor.prepare (pillow := Sample.pillow) (map Sample.byte_of_Z [4; 10; 10; 90; 0])
     = Ok (map Sample.byte_of_Z [1; 10; 10; 90; 90; 90])
  /\ ImageProcessor.prepare (pillow := Sample.pillow) (map Sample.byte_of_Z [2; 10; 10; 90])
     = Ok (map Sample.byte_of_Z [2; 10; 10; 90]).
Proof.
  split; [| split].
  - destruct (prepare_encodes_rgb_or_l (pillow := Sample.pillow)
                (service := Sample.scripted [])
                (map Sample.byte_of_Z [3; 10; 10; 200; 100; 0; 0])) as (_ & H & _).
    edestruct H as (_ & Hflat & _); [reflexivity |].
    rewrite Hflat by reflexivity. reflexivity.
  - destruct (prepare_encodes_rgb_or_l (pillow := Sample.pillow)
                (service := Sample.scripted [])
                (map Sample.byte_of_Z [4; 10; 10; 90; 0])) as (_ & H & _).
    edestruct H as (_ & _ & Hconv); [reflexivity |].
    rewrite Hconv by discriminate. reflexivity.
  - destruct (prepare_encodes_rgb_or_l (pillow := Sample.pillow)
                (service := Sample.scripted [])
                (map Sample.byte_of_Z [2; 10; 10; 90])) as (_ & H & _).
    edestruct H as (Hkeep & _); [reflexivity |].
    rewrite Hkeep by now right. reflexivity.
Defined.

(** C5 as worded fails on an image with an alpha band that is not in
    mode RGBA: a black, fully transparent LA pixel is converted to black,
    where laying it over white would give white. *)
Lemma la_image_is_converted_not_composited :
  Spec.has_alpha_channel "LA" = true
  /\ PIL.Image_open (Pillow := Sample.pillow) (map Sample.byte_of_Z [4; 10; 10; 0; 0])
     = Ok {| PIL.width := 100; PIL.height := 100; PIL.format := Some "PNG";
             PIL.mode := "LA"; PIL.pixels := [0; 0] |}
  /\ ImageProcessor.prepare (pillow := Sample.pillow) (map Sample.byte_of_Z [4; 10; 10; 0; 0])
     = Ok (map Sample.byte_of_Z [1; 10; 10; 0; 0; 0])
  /\ (flat <- Spec.composite_on_white (H := Sample.pillow)
                {| PIL.width := 100; PIL.height := 100; PIL.format := Some "PNG";
                   PIL.mode := "LA"; PIL.pixels := [0; 0] |} ;;
      PIL.save_png (Pillow := Sample.pillow) flat)
     = Ok (map Sample.byte_of_Z [1; 10; 10; 255; 255; 255])
  /\ map Sample.byte_of_Z [1; 10; 10; 0; 0; 0]
     <> map Sample.byte_of_Z [1; 10; 10; 255; 255; 255].
Proof.
  split; [reflexivity |]. split; [reflexivity |]. split; [reflexivity |].
  split; [vm_compute; reflexivity |]. vm_compute. discriminate.
Qed.

(* ----------------------------------------------------------------- *)
(** ** Start-up *)

Section Startup.
Context `{pillow : PIL.Pillow} `{service : Hub.Service} `{floats : FloatFormat}.

(** C8.  Without a token in [HF_TOKEN] (unset or empty) the script run
    stops while the processor is being created, with the message that
    belongs to the missing token alone: the session is as it was, so no
    batch has begun and no item has a result, and the world is as it
    was, so no remote call has been made. *)
Theorem missing_token_stops_at_startup
    (environ : list (str * str)) (inputs : App.Inputs) (state : App.SessionState)
    (w : Hub.World) :
  ImageProcessor.environ_get environ "HF_TOKEN" = None
  \/ ImageProcessor.environ_get environ "HF_TOKEN" = Some "" ->
  ImageProcessor.__init__ environ
  = St.Stop [St.ErrorTokenNotFound; St.InfoSetupInstructions]
  /\ App.main environ inputs state w
     = (St.Stop [St.ErrorTokenNotFound; St.InfoSetupInstructions], state, w)
  /\ (forall other shown,
        ImageProcessor.__init__ other = St.Stop shown ->
        In St.ErrorTokenNotFound shown ->
        ImageProcessor.environ_get other "HF_TOKEN" = None
        \/ ImageProcessor.environ_get other "HF_TOKEN" = Some "").
Proof.
  intros Htoken.
  assert (Hinit : ImageProcessor.__init__ environ
                  = St.Stop [St.ErrorTokenNotFound; St.InfoSetupInstructions]).
  { unfold ImageProcessor.__init__, ImageProcessor._initialize_client.
    destruct Htoken as [-> | ->]; reflexivity. }
  split; [exact Hinit |]. split.
  - unfold App.main. now rewrite Hinit.
  - intros other shown. unfold ImageProcessor.__init__, ImageProcessor._initialize_client.
    destruct (ImageProcessor.environ_get other "HF_TOKEN") as [token |]; [| now left].
    destruct token as [| c token]; [now right |]. cbn [Py.truthy negb].
    destruct (Hub.InferenceClient_init "fal-ai" (String c token)); [| discriminate].
    intros [= <-] [H | [H | []]]; discriminate.
Qed.

End Startup.

Lemma missing_token_stops_at_startup_witness :
  App.main (pillow := Sample.pillow) (service := Sample.scripted []) (floats := Sample.floats)
    [("HOME", "/root")]
    {| App.uploaded_files := [Sample.image_file "cat.png" 1 [1; 2; 3]];
       App.prompt := "add a hat"; App.start_clicked := true |}
    {| App.uploaded_files_data :=
         [("k1", {| App.fd_filename := "a.png"; App.fd_size := 4;
                    App.fd_dimensions := "100x100"; App.fd_format := "PNG";
                    App.fd_mode := "L"; App.fd_bytes := map Sample.byte_of_Z [2; 10; 10; 7];
                    App.fd_hash := "k1" |})];
       App.processing_results := []; App.current_prompt := "";
       App.processing_in_progress := false |}
    []
  = (St.Stop [St.ErrorTokenNotFound; St.InfoSetupInstructions],
     {| App.uploaded_files_data :=
          [("k1", {| App.fd_filename := "a.png"; App.fd_size := 4;
                     App.fd_dimensions := "100x100"; App.fd_format := "PNG";
                     App.fd_mode := "L"; App.fd_bytes := map Sample.byte_of_Z [2; 10; 10; 7];
                     App.fd_hash := "k1" |})];
        App.processing_results := []; App.current_prompt := "";
        App.processing_in_progress := false |},
     []).
Proof.
  apply (missing_token_stops_at_startup (pillow := Sample.pillow)
           (service := Sample.scripted []) (floats := Sample.floats)).
  left. reflexivity.
Defined.

(** With a token the same run goes through the upload and the batch. *)
Example main_with_token_runs_the_batch :
  let '(ended, state, w) :=
    App.main (pillow := Sample.pillow) (service := Sample.scripted []) (floats := Sample.floats)
      [("HF_TOKEN", "hf_x")]
      {| App.uploaded_files := [Sample.image_file "cat.png" 1 [1; 2; 3]];
         App.prompt := "add a hat"; App.start_clicked := true |}
      App.initialize_session_state [] in
  ended = St.Continue tt [St.SuccessClientInitialized]
  /\ map (option_map ImageProcessor.success) (App.processing_results state) = [Some true]
  /\ List.length (Hub.calls w) = 1%nat.
Proof. vm_compute. repeat split. Qed.

(* ----------------------------------------------------------------- *)
(** ** The fingerprint and the session *)

Lemma hexdigit_is_hex (x : Z) : Spec.is_hex (Hashlib.hexdigit (Z.land x 15)) = true.
Proof.
  assert (H : 0 <= Z.land x 15 < 16).
  { change 15 with (Z.ones 4). rewrite Z.land_ones by lia. apply Z.mod_pos_bound. lia. }
  remember (Z.land x 15) as v eqn:E. clear E.
  assert (C : v = 0 \/ v = 1 \/ v = 2 \/ v = 3 \/ v = 4 \/ v = 5 \/ v = 6 \/ v = 7
              \/ v = 8 \/ v = 9 \/ v = 10 \/ v = 11 \/ v = 12 \/ v = 13 \/ v = 14 \/ v = 15)
    by lia.
  repeat destruct C as [-> | C]; try reflexivity. now subst.
Qed.

Lemma sha256_hexdigest_length (msg : bytes) :
  String.length (Hashlib.sha256_hexdigest msg) = 64%nat.
Proof. reflexivity. Qed.

Lemma md5_hexdigest_length (msg : bytes) :
  String.length (Hashlib.md5_hexdigest msg) = 32%nat.
Proof. reflexivity. Qed.

Lemma create_file_hash_shape (file_content : bytes) (filename : str) :
  String.length (App.create_file_hash file_content filename) = 12%nat
  /\ Spec.all_chars Spec.is_hex (App.create_file_hash file_content filename) = true.
Proof.
  unfold App.create_file_hash.
  generalize (Py.encode (filename ++ "_" ++ Py.str_of_int (Py.len file_content) ++ "_"
                           ++ Hashlib.md5_hexdigest file_content)).
  intros msg. split; [reflexivity |].
  unfold Hashlib.sha256_hexdigest.
  generalize (Hashlib.sha256_state msg). intros s.
  unfold Hashlib.hex_word_be, Hashlib.hex_byte, Spec.all_chars.
  cbn [substring list_ascii_of_string forallb].
  now rewrite !hexdigit_is_hex.
Qed.

Lemma dict_contains_set_same {V} (key : str) (v : V) (d : App.dict V) :
  App.dict_contains key (App.dict_set key v d) = true.
Proof.
  unfold App.dict_contains. induction d as [| [k x] d IH]; cbn.
  - now rewrite String.eqb_refl.
  - destruct (String.eqb_spec k key) as [-> | N]; cbn.
    + now rewrite String.eqb_refl.
    + destruct (String.eqb_spec k key); [contradiction | exact IH].
Qed.

Lemma dict_contains_set_kept {V} (key other : str) (v : V) (d : App.dict V) :
  App.dict_contains other d = true ->
  App.dict_contains other (App.dict_set key v d) = true.
Proof.
  unfold App.dict_contains. induction d as [| [k x] d IH]; cbn; [discriminate |].
  destruct (String.eqb_spec k key) as [-> | N]; cbn.
  - trivial.
  - destruct (String.eqb k other); cbn; [reflexivity | exact IH].
Qed.

(** A new key goes to the end of the dictionary. *)
Lemma dict_set_new {V} (key : str) (v : V) (d : App.dict V) :
  App.dict_contains key d = false -> App.dict_set key v d = (d ++ [(key, v)])%list.
Proof.
  unfold App.dict_contains. induction d as [| [k x] d IH]; cbn; [reflexivity |].
  destruct (String.eqb k key); cbn; [discriminate |]. intros H. now rewrite (IH H).
Qed.

Lemma dict_set_keeps_unique_keys {V} (key : str) (v : V) (d : App.dict V) :
  NoDup (App.keys d) -> NoDup (App.keys (App.dict_set key v d)).
Proof.
  destruct (App.dict_contains key d) eqn:E.
  - unfold App.keys.
    assert (H : map fst (App.dict_set key v d) = map fst d); [| now rewrite H].
    unfold App.dict_contains in E. induction d as [| [k x] d IH]; cbn in *.
    + discriminate.
    + destruct (String.eqb_spec k key); cbn in *; [reflexivity | now rewrite IH].
  - rewrite (dict_set_new key v d E). unfold App.keys. rewrite map_app. cbn.
    intros H. apply NoDup_app; [exact H | repeat constructor; intros [] |].
    intros k Hk [Hkey | []]. subst k.
    unfold App.dict_contains in E. rewrite <- not_true_iff_false in E. apply E.
    apply existsb_exists. apply in_map_iff in Hk as ([k' x] & Hfst & Hin). cbn in Hfst.
    subst k'. exists (key, x). split; [exact Hin | apply String.eqb_refl].
Qed.

Section Session.
Context `{pillow : PIL.Pillow} `{floats : FloatFormat}.

(** A file whose fingerprint is in the session already is skipped. *)
Lemma upload_step_present (u : App.Upload) (file : ImageProcessor.UploadedFile) :
  App.dict_contains
    (App.create_file_hash (ImageProcessor.getvalue file) (ImageProcessor.name file))
    (App.session u) = true ->
  App.upload_step u file = u.
Proof. intros H. unfold App.upload_step. now rewrite H. Qed.

Lemma upload_step_keeps (u : App.Upload) (file : ImageProcessor.UploadedFile) (key : str) :
  App.dict_contains key (App.session u) = true ->
  App.dict_contains key (App.session (App.upload_step u file)) = true.
Proof.
  intros H. unfold App.upload_step.
  destruct (App.dict_contains (App.create_file_hash _ _) (App.session u));
    cbn [negb]; [exact H |].
  destruct (ImageProcessor.validate_image file); cbn [App.session]; [| exact H].
  now apply dict_contains_set_kept.
Qed.

(** After its step a file is in the session or has been found invalid. *)
Lemma upload_step_settles (u : App.Upload) (file : ImageProcessor.UploadedFile) :
  App.dict_contains
    (App.create_file_hash (ImageProcessor.getvalue file) (ImageProcessor.name file))
    (App.session (App.upload_step u file)) = true
  \/ ImageProcessor.valid (ImageProcessor.validate_image file) = false.
Proof.
  unfold App.upload_step.
  destruct (App.dict_contains _ (App.session u)) eqn:E; cbn [negb]; [now left |].
  destruct (ImageProcessor.validate_image file); cbn [App.session]; [| now right].
  left. apply dict_contains_set_same.
Qed.

(** A settled file changes neither the session nor the count. *)
Lemma upload_step_settled (u : App.Upload) (file : ImageProcessor.UploadedFile) :
  App.dict_contains
    (App.create_file_hash (ImageProcessor.getvalue file) (ImageProcessor.name file))
    (App.session u) = true
  \/ ImageProcessor.valid (ImageProcessor.validate_image file) = false ->
  App.session (App.upload_step u file) = App.session u
  /\ App.new_files (App.upload_step u file) = App.new_files u.
Proof.
  intros [H | H]; [now rewrite upload_step_present |].
  unfold App.upload_step.
  destruct (App.dict_contains _ (App.session u)); cbn [negb]; [now split |].
  destruct (ImageProcessor.validate_image file); [discriminate | now split].
Qed.

Lemma upload_pass_keeps (files : list ImageProcessor.UploadedFile) :
  forall (u : App.Upload) (key : str),
    App.dict_contains key (App.session u) = true ->
    App.dict_contains key (App.session (fold_left App.upload_step files u)) = true.
Proof.
  induction files as [| file files IH]; intros u key H; [exact H |].
  cbn [fold_left]. apply IH. now apply upload_step_keeps.
Qed.

Lemma upload_pass_settles (files : list ImageProcessor.UploadedFile) :
  forall u : App.Upload,
    Forall (fun file =>
              App.dict_contains
                (App.create_file_hash (ImageProcessor.getvalue file)
                                      (ImageProcessor.name file))
                (App.session (fold_left App.upload_step files u)) = true
              \/ ImageProcessor.valid (ImageProcessor.validate_image file) = false)
           files.
Proof.
  induction files as [| file files IH]; intros u; [constructor |].
  cbn [fold_left]. constructor; [| apply IH].
  destruct (upload_step_settles u file) as [H | H]; [left | now right].
  now apply upload_pass_keeps.
Qed.

Lemma upload_pass_settled (files : list ImageProcessor.UploadedFile) :
  forall u : App.Upload,
    Forall (fun file =>
              App.dict_contains
                (App.create_file_hash (ImageProcessor.getvalue file)
                                      (ImageProcessor.name file))
                (App.session u) = true
              \/ ImageProcessor.valid (ImageProcessor.validate_image file) = false)
           files ->
    App.session (fold_left App.upload_step files u) = App.session u
    /\ App.new_files (fold_left App.upload_step files u) = App.new_files u.
Proof.
  induction files as [| file files IH]; intros u H; [now split |].
  inversion H as [| ? ? Hfile Hrest]; subst. cbn [fold_left].
  destruct (upload_step_settled u file Hfile) as (Hs & Hn).
  rewrite <- Hs, <- Hn. apply IH. now rewrite Hs.
Qed.

(** One step adds at most one entry and removes none. *)
Lemma upload_step_grows_by_one (u : App.Upload) (file : ImageProcessor.UploadedFile) :
  (List.length (App.session u) <= List.length (App.session (App.upload_step u file))
   <= List.length (App.session u) + 1)%nat
  /\ App.new_files u <= App.new_files (App.upload_step u file) <= App.new_files u + 1
  /\ (NoDup (App.keys (App.session u)) ->
      NoDup (App.keys (App.session (App.upload_step u file)))).
Proof.
  unfold App.upload_step.
  destruct (App.dict_contains _ (App.session u)) eqn:E; cbn [negb];
    [repeat split; auto; lia |].
  destruct (ImageProcessor.validate_image file); cbn [App.session App.new_files];
    [| repeat split; auto; lia].
  rewrite (dict_set_new _ _ _ E), length_app. cbn [List.length].
  repeat split; try lia. intros H. rewrite <- (dict_set_new _ _ _ E).
  now apply dict_set_keeps_unique_keys.
Qed.

Lemma upload_pass_grows (files : list ImageProcessor.UploadedFile) :
  forall u : App.Upload,
    (List.length (App.session u)
     <= List.length (App.session (fold_left App.upload_step files u))
     <= List.length (App.session u) + List.length files)%nat
    /\ App.new_files u <= App.new_files (fold_left App.upload_step files u)
       <= App.new_files u + Z.of_nat (List.length files)
    /\ (NoDup (App.keys (App.session u)) ->
        NoDup (App.keys (App.session (fold_left App.upload_step files u)))).
Proof.
  induction files as [| file files IH]; intros u; cbn [fold_left List.length].
  - repeat split; auto; lia.
  - destruct (upload_step_grows_by_one u file) as (H1 & H2 & H3).
    destruct (IH (App.upload_step u file)) as (I1 & I2 & I3).
    repeat split; try lia. auto.
Qed.

(** The files a pass looks at: the first 15. *)
Lemma process_uploads_fold (uploaded_files : list ImageProcessor.UploadedFile)
                           (files : App.dict App.FileData) :
  App.process_uploads uploaded_files files
  = fold_left App.upload_step (firstn 15 uploaded_files)
              {| App.session := files; App.new_files := 0; App.invalid_files := [] |}.
Proof.
  unfold App.process_uploads, Py.len, App.MAX_FILES.
  destruct (Z.gtb_spec (Z.of_nat (List.length uploaded_files)) 0) as [Hpos | Hzero].
  - destruct (Z.gtb_spec (Z.of_nat (List.length uploaded_files)) 15) as [Hmany | Hfew].
    + reflexivity.
    + change (Z.to_nat 15) with 15%nat. rewrite firstn_all2 by lia. reflexivity.
  - destruct uploaded_files; [reflexivity | cbn [List.length] in Hzero; lia].
Qed.

End Session.

Section SessionClaims.
Context `{pillow : PIL.Pillow} `{floats : FloatFormat}.

(** C4.  The fingerprint is a function of the bytes and the name, always
    12 lower-case hexadecimal characters; a file whose fingerprint is in
    the session already is skipped without an error, so that uploading a
    file a second time, or running the whole pass again on the same
    uploads, leaves the session, its size and its entries, as it was. *)
Theorem fingerprint_is_stable_and_reupload_is_noop :
  (forall file_content filename,
     String.length (App.create_file_hash file_content filename) = 12%nat
     /\ Spec.all_chars Spec.is_hex (App.create_file_hash file_content filename) = true)
  /\ (forall f1 f2 : ImageProcessor.UploadedFile,
        ImageProcessor.getvalue f1 = ImageProcessor.getvalue f2 ->
        ImageProcessor.name f1 = ImageProcessor.name f2 ->
        App.create_file_hash (ImageProcessor.getvalue f1) (ImageProcessor.name f1)
        = App.create_file_hash (ImageProcessor.getvalue f2) (ImageProcessor.name f2))
  /\ (forall u file,
        App.dict_contains
          (App.create_file_hash (ImageProcessor.getvalue file) (ImageProcessor.name file))
          (App.session u) = true ->
        App.upload_step u file = u)
  /\ (forall u file,
        App.session (App.upload_step (App.upload_step u file) file)
        = App.session (App.upload_step u file))
  /\ (forall uploaded_files files,
        let once := App.session (App.process_uploads uploaded_files files) in
        App.session (App.process_uploads uploaded_files once) = once
        /\ App.new_files (App.process_uploads uploaded_files once) = 0).
Proof.
  split; [| split; [| split; [| split]]].
  - apply create_file_hash_shape.
  - intros f1 f2 H1 H2. now rewrite H1, H2.
  - apply upload_step_present.
  - intros u file. apply upload_step_settled, upload_step_settles.
  - intros uploaded_files files once. subst once.
    rewrite !process_uploads_fold.
    apply (upload_pass_settled (firstn 15 uploaded_files)
             {| App.session := _; App.new_files := 0; App.invalid_files := [] |}).
    apply upload_pass_settles.
Qed.

(** C7, as the code has it.  A pass over the uploader looks at its first
    15 files only, whatever the session holds, and goes on with them
    instead of refusing the upload; so a pass adds at most 15 entries,
    removes none, and a session that starts empty holds at most 15 after
    one pass.  The keys stay unique. *)
Theorem upload_pass_adds_at_most_15
    (uploaded_files : list ImageProcessor.UploadedFile) (files : App.dict App.FileData) :
  let u := App.process_uploads uploaded_files files in
  (List.length files <= List.length (App.session u) <= List.length files + 15)%nat
  /\ 0 <= App.new_files u <= App.MAX_FILES
  /\ (files = [] -> (List.length (App.session u) <= 15)%nat)
  /\ App.process_uploads uploaded_files files
     = App.process_uploads (firstn 15 uploaded_files) files
  /\ (NoDup (App.keys files) -> NoDup (App.keys (App.session u))).
Proof.
  intros u. subst u. rewrite !process_uploads_fold, firstn_firstn.
  change (Init.Nat.min 15 15) with 15%nat.
  destruct (upload_pass_grows (firstn 15 uploaded_files)
              {| App.session := files; App.new_files := 0; App.invalid_files := [] |})
    as (H1 & H2 & H3).
  cbn [App.session App.new_files] in *.
  pose proof (firstn_le_length 15 uploaded_files) as Hlen.
  unfold App.MAX_FILES.
  repeat split; try lia; try exact H3.
  intros ->. cbn [List.length] in H1. lia.
Qed.

End SessionClaims.

Lemma fingerprint_is_stable_and_reupload_is_noop_witness :
  App.session
    (App.upload_step (pillow := Sample.pillow) (floats := Sample.floats)
       (App.upload_step (pillow := Sample.pillow) (floats := Sample.floats)
          {| App.session := []; App.new_files := 0; App.invalid_files := [] |}
          (Sample.image_file "cat.png" 1 [1; 2; 3]))
       (Sample.image_file "cat.png" 1 [1; 2; 3]))
  = App.session
      (App.upload_step (pillow := Sample.pillow) (floats := Sample.floats)
         {| App.session := []; App.new_files := 0; App.invalid_files := [] |}
         (Sample.image_file "cat.png" 1 [1; 2; 3])).
Proof.
  destruct (fingerprint_is_stable_and_reupload_is_noop
              (pillow := Sample.pillow) (floats := Sample.floats))
    as (_ & _ & _ & Htwice & _).
  exact (Htwice {| App.session := []; App.new_files := 0; App.invalid_files := [] |}
                (Sample.image_file "cat.png" 1 [1; 2; 3])).
Defined.

(** Uploading the same image twice leaves one entry. *)
Example same_file_twice_is_one_entry :
  map fst (App.session
             (App.process_uploads (pillow := Sample.pillow) (floats := Sample.floats)
                [Sample.image_file "cat.png" 1 [1; 2; 3];
                 Sample.image_file "cat.png" 1 [1; 2; 3]] []))
  = ["6e5002bc3937"].
Proof. vm_compute. reflexivity. Qed.

Lemma upload_pass_adds_at_most_15_witness :
  (List.length
     (App.session (App.process_uploads (pillow := Sample.pillow) (floats := Sample.floats)
                     (Sample.album 1 20) [])) <= 15)%nat.
Proof.
  destruct (upload_pass_adds_at_most_15 (pillow := Sample.pillow) (floats := Sample.floats)
              (Sample.album 1 20) []) as (_ & _ & Hempty & _).
  exact (Hempty eq_refl).
Defined.

(** C7 as worded fails across two passes: fifteen images, then one more
    in the uploader, leave sixteen entries in the session. *)
Lemma two_passes_hold_sixteen_entries :
  List.length
    (App.session
       (App.process_uploads (pillow := Sample.pillow) (floats := Sample.floats)
          (Sample.album 16 1)
          (App.session
             (App.process_uploads (pillow := Sample.pillow) (floats := Sample.floats)
                (Sample.album 1 15) []))))
  = 16%nat
  /\ (Z.of_nat 16 >? App.MAX_FILES) = true.
Proof. vm_compute. split; reflexivity. Qed.

(* ----------------------------------------------------------------- *)
(** ** The archive *)

Lemma all_chars_cons (p : ascii -> bool) (c : ascii) (s : str) :
  Spec.all_chars p (String c s) = p c && Spec.all_chars p s.
Proof. reflexivity. Qed.

Lemma string_of_uint_digits (d : Decimal.uint) :
  Spec.all_chars Py.isdigit_ascii (NilEmpty.string_of_uint d) = true.
Proof. induction d; cbn [NilEmpty.string_of_uint]; rewrite ?all_chars_cons, ?IHd; reflexivity. Qed.

Lemma format_02d_digits (n : nat) : Spec.all_chars Py.isdigit_ascii (Py.format_02d n) = true.
Proof.
  unfold Py.format_02d, Py.str_of_nat.
  destruct (String.length _ <? 2)%nat; cbn [append];
    rewrite ?all_chars_cons, string_of_uint_digits; reflexivity.
Qed.

(** Reading the index back: the padding zero does not change the number. *)
Lemma format_02d_parse (n : nat) :
  option_map Nat.of_uint (NilEmpty.uint_of_string (Py.format_02d n)) = Some n.
Proof.
  unfold Py.format_02d, Py.str_of_nat.
  destruct (String.length _ <? 2)%nat; cbn [append NilEmpty.uint_of_string];
    rewrite NilEmpty.usu; cbn [option_map uint_of_char].
  - change (Nat.of_uint (Decimal.D0 (Nat.to_uint n))) with (Nat.of_uint (Nat.to_uint n)).
    now rewrite Unsigned.of_to.
  - now rewrite Unsigned.of_to.
Qed.

Lemma format_02d_injective (a b : nat) : Py.format_02d a = Py.format_02d b -> a = b.
Proof.
  intros H. pose proof (format_02d_parse a) as Ha. rewrite H, format_02d_parse in Ha.
  now injection Ha.
Qed.

(** An index below 100 is written on exactly two digits. *)
Lemma format_02d_two_digits (n : nat) :
  (n < 100)%nat -> String.length (Py.format_02d n) = 2%nat.
Proof.
  intros H.
  do 100 (destruct n as [| n]; [reflexivity |]). lia.
Qed.

(** A run of digits followed by an underscore is read off a string in one
    way only. *)
Lemma digits_prefix_unique (d1 d2 r1 r2 : str) :
  Spec.all_chars Py.isdigit_ascii d1 = true ->
  Spec.all_chars Py.isdigit_ascii d2 = true ->
  d1 ++ String "_" r1 = d2 ++ String "_" r2 -> d1 = d2.
Proof.
  revert d2. induction d1 as [| c1 d1 IH]; intros [| c2 d2] H1 H2; cbn [append]; intros E.
  - reflexivity.
  - injection E as <- _. rewrite all_chars_cons in H2. discriminate.
  - injection E as -> _. rewrite all_chars_cons in H1. discriminate.
  - injection E as -> E. rewrite all_chars_cons in H1, H2.
    apply andb_true_iff in H1 as (_ & H1). apply andb_true_iff in H2 as (_ & H2).
    now rewrite (IH d2 H1 H2 E).
Qed.

(** Entries written at different places have different names, whatever
    the file names are. *)
Lemma entry_name_injective (i j : nat) (f g : str) :
  App.entry_name i f = App.entry_name j g -> i = j.
Proof.
  unfold App.entry_name. intros E.
  apply digits_prefix_unique in E; try apply format_02d_digits.
  apply format_02d_injective in E. lia.
Qed.

Lemma write_entries_names (results : list ImageProcessor.ProcessingResult) :
  forall (i : nat) (name : str),
    In name (map App.zip_filename (App.write_entries i results)) ->
    exists k f, (i <= k)%nat /\ name = App.entry_name k f.
Proof.
  induction results as [| r results IH]; intros i name; cbn [App.write_entries map];
    [intros [] |].
  destruct r as [f b im o n | f e].
  - cbn [map App.zip_filename]. intros [<- | H].
    + exists i, f. split; [lia | reflexivity].
    + destruct (IH (S i) name H) as (k & g & Hk & ->). exists k, g. split; [lia | reflexivity].
  - intros H. destruct (IH (S i) name H) as (k & g & Hk & ->).
    exists k, g. split; [lia | reflexivity].
Qed.

Lemma write_entries_distinct (results : list ImageProcessor.ProcessingResult) :
  forall i : nat, NoDup (map App.zip_filename (App.write_entries i results)).
Proof.
  induction results as [| r results IH]; intros i; cbn [App.write_entries map];
    [constructor |].
  destruct r as [f b im o n | f e]; [| apply IH].
  cbn [map App.zip_filename]. constructor; [| apply IH].
  intros H. apply write_entries_names in H as (k & g & Hk & E).
  apply entry_name_injective in E. lia.
Qed.

(** With successes only, the entry at place [k] is the result at place
    [k]. *)
Lemma write_entries_nth (results : list ImageProcessor.ProcessingResult) :
  forallb ImageProcessor.success results = true ->
  forall (i k : nat) f b im o n,
    nth_error results k = Some (ImageProcessor.Success f b im o n) ->
    nth_error (App.write_entries i results) k
    = Some {| App.zip_filename := App.entry_name (i + k) f; App.zip_data := b |}.
Proof.
  induction results as [| r results IH]; intros Hall i k f b im o n Hk.
  - destruct k; discriminate.
  - cbn [forallb] in Hall. apply andb_true_iff in Hall as (Hr & Hall).
    destruct r as [f' b' im' o' n' | f' e']; [| discriminate].
    cbn [App.write_entries]. destruct k as [| k]; cbn [nth_error] in *.
    + injection Hk as -> -> _ _ _. now rewrite Nat.add_0_r.
    + rewrite (IH Hall (S i) k f b im o n Hk). do 3 f_equal. lia.
Qed.

Lemma write_entries_length (results : list ImageProcessor.ProcessingResult) :
  forall i : nat,
    List.length (App.write_entries i results)
    = List.length (List.filter ImageProcessor.success results).
Proof.
  induction results as [| r results IH]; intros i; [reflexivity |].
  destruct r; cbn [App.write_entries List.filter ImageProcessor.success List.length];
    now rewrite IH.
Qed.

Lemma filter_all_chars (p : ascii -> bool) (s : str) :
  Spec.all_chars p (Py.filter p s) = true.
Proof.
  induction s as [| c s IH]; [reflexivity |]. cbn [Py.filter].
  destruct (p c) eqn:E; [| exact IH]. now rewrite all_chars_cons, E, IH.
Qed.

Lemma lstrip_all_chars (p : ascii -> bool) (s : str) :
  Spec.all_chars p s = true -> Spec.all_chars p (Py.lstrip s) = true.
Proof.
  induction s as [| c s IH]; [trivial |]. cbn [Py.lstrip]. intros H.
  destruct (Py.isspace c); [| exact H].
  rewrite all_chars_cons in H. apply andb_true_iff in H as (_ & H). now apply IH.
Qed.

Lemma rstrip_all_chars (p : ascii -> bool) (s : str) :
  Spec.all_chars p s = true -> Spec.all_chars p (Py.rstrip s) = true.
Proof.
  induction s as [| c s IH]; [trivial |]. cbn [Py.rstrip]. intros H.
  rewrite all_chars_cons in H. apply andb_true_iff in H as (Hc & H). specialize (IH H).
  destruct (Py.rstrip s) as [| c' r].
  - destruct (Py.isspace c); [reflexivity |]. now rewrite all_chars_cons, Hc.
  - now rewrite all_chars_cons, Hc, IH.
Qed.

(** Two ways to weaken a subsequence: one more character on the right,
    one fewer on the left. *)
Lemma subsequence_weaken (t : str) :
  (forall s b, Spec.subsequence s t = true -> Spec.subsequence s (String b t) = true)
  /\ (forall a s, Spec.subsequence (String a s) t = true -> Spec.subsequence s t = true).
Proof.
  induction t as [| c t (IH1 & IH2)].
  - split.
    + intros [| a s] b H; [reflexivity | discriminate].
    + intros a s H. discriminate.
  - assert (Htail : forall a s, Spec.subsequence (String a s) (String c t) = true ->
                                Spec.subsequence s (String c t) = true).
    { intros a s. cbn [Spec.subsequence].
      destruct (Ascii.eqb a c); intros H; [now apply IH1 |].
      apply IH1. now apply IH2 with a. }
    split; [| exact Htail].
    intros [| a s] b H; [reflexivity |].
    change (Spec.subsequence (String a s) (String b (String c t)))
      with (if Ascii.eqb a b then Spec.subsequence s (String c t)
            else Spec.subsequence (String a s) (String c t)).
    destruct (Ascii.eqb a b); [now apply Htail with a | exact H].
Qed.

Lemma subsequence_refl (s : str) : Spec.subsequence s s = true.
Proof. induction s as [| c s IH]; [reflexivity |]. cbn. now rewrite Ascii.eqb_refl. Qed.

Lemma subsequence_trans (u : str) :
  forall s t, Spec.subsequence s t = true -> Spec.subsequence t u = true ->
              Spec.subsequence s u = true.
Proof.
  induction u as [| c u IH]; intros s t Hst Htu.
  - destruct t; [| discriminate]. destruct s; [reflexivity | discriminate].
  - destruct t as [| b t]; [destruct s; [reflexivity | discriminate] |].
    cbn [Spec.subsequence] in Htu.
    destruct (Ascii.eqb_spec b c) as [-> | Nbc].
    + destruct s as [| a s]; [reflexivity |]. cbn [Spec.subsequence] in Hst |- *.
      destruct (Ascii.eqb a c); [now apply IH with t |].
      now apply IH with t.
    + apply subsequence_weaken. now apply IH with (String b t).
Qed.

Lemma filter_subsequence (p : ascii -> bool) (s : str) :
  Spec.subsequence (Py.filter p s) s = true.
Proof.
  induction s as [| c s IH]; [reflexivity |]. cbn [Py.filter].
  destruct (p c).
  - cbn. now rewrite Ascii.eqb_refl.
  - now apply subsequence_weaken.
Qed.

Lemma lstrip_subsequence (s : str) : Spec.subsequence (Py.lstrip s) s = true.
Proof.
  induction s as [| c s IH]; [reflexivity |]. cbn [Py.lstrip].
  destruct (Py.isspace c); [now apply subsequence_weaken | apply subsequence_refl].
Qed.

Lemma rstrip_subsequence (s : str) : Spec.subsequence (Py.rstrip s) s = true.
Proof.
  induction s as [| c s IH]; [reflexivity |]. cbn [Py.rstrip].
  destruct (Py.rstrip s) as [| c' r].
  - destruct (Py.isspace c); [reflexivity |]. cbn. now rewrite Ascii.eqb_refl.
  - cbn [Spec.subsequence]. now rewrite Ascii.eqb_refl.
Qed.

Lemma strip_subsequence (s : str) : Spec.subsequence (Py.strip s) s = true.
Proof.
  unfold Py.strip. apply subsequence_trans with (Py.lstrip s);
    [apply rstrip_subsequence | apply lstrip_subsequence].
Qed.

(** The sanitised name is made of safe characters of the base name, in
    their order. *)
Lemma safe_name_sanitized (filename : str) :
  Spec.all_chars App.safe_char (App.safe_name filename) = true
  /\ Spec.subsequence (App.safe_name filename) (fst (Py.splitext filename)) = true.
Proof.
  unfold App.safe_name, Py.strip. split.
  - apply rstrip_all_chars, lstrip_all_chars, filter_all_chars.
  - apply subsequence_trans with (Py.filter App.safe_char (fst (Py.splitext filename)));
      [apply strip_subsequence | apply filter_subsequence].
Qed.

Lemma substring_whole (s : str) : substring 0 (String.length s) s = s.
Proof. induction s as [| c s IH]; [reflexivity |]. cbn. now rewrite IH. Qed.

Lemma substring_cut (s : str) :
  forall n : nat, (n <= String.length s)%nat ->
                  substring 0 n s ++ substring n (String.length s - n) s = s.
Proof.
  induction s as [| c s IH]; intros [| n] H; cbn [String.length] in *.
  - reflexivity.
  - lia.
  - change (substring 0 0 (String c s)) with "". cbn [append].
    apply (substring_whole (String c s)).
  - cbn [substring append Nat.sub]. rewrite IH by lia. reflexivity.
Qed.

Lemma rfind_from_bound (c : ascii) (s : str) :
  forall i found : Z,
    Py.rfind_from c s i found = found
    \/ i <= Py.rfind_from c s i found < i + Z.of_nat (String.length s).
Proof.
  induction s as [| x s IH]; intros i found; cbn [Py.rfind_from String.length]; [now left |].
  destruct (IH (i + 1) (if Ascii.eqb x c then i else found)) as [-> | H].
  - destruct (Ascii.eqb x c); [right; lia | now left].
  - right. lia.
Qed.

(** [splitext] cuts the name in two. *)
Lemma splitext_cut (p : str) : fst (Py.splitext p) ++ snd (Py.splitext p) = p.
Proof.
  unfold Py.splitext.
  destruct (Z.ltb_spec (Py.rfind "/" p) (Py.rfind "." p)) as [Hlt | Hge]; cbn [andb].
  2: { cbn [fst snd]. clear. induction p as [| c p IH]; [reflexivity |]. cbn. now rewrite IH. }
  destruct (Py.has_stem _ p _); cbn [fst snd].
  2: { clear. induction p as [| c p IH]; [reflexivity |]. cbn. now rewrite IH. }
  apply substring_cut.
  unfold Py.rfind in *.
  destruct (rfind_from_bound "." p 0 (-1)) as [E | H]; [| lia].
  destruct (rfind_from_bound "/" p 0 (-1)) as [E' | H']; lia.
Qed.

(** C6.  The archive holds one entry per successful result; the entry
    of the result at place [k] (from 0) is named by [k + 1] in decimal,
    padded with a zero to two digits, then ["_edited_"], the sanitised
    base name and [".png"]; the sanitised name is what [strip] leaves of
    the alphanumerics, spaces, hyphens and underscores of the name without
    its extension; the names are pairwise distinct whatever the file
    names are; and no result gives the empty archive. *)
Theorem archive_entries_are_numbered_and_distinct
    (results : list ImageProcessor.ProcessingResult) :
  App.create_zip_download [] = []
  /\ List.length (App.create_zip_download results)
     = List.length (List.filter ImageProcessor.success results)
  /\ NoDup (map App.zip_filename (App.create_zip_download results))
  /\ (forallb ImageProcessor.success results = true ->
      List.length (App.create_zip_download results) = List.length results
      /\ forall k f b im o n,
           nth_error results k = Some (ImageProcessor.Success f b im o n) ->
           nth_error (App.create_zip_download results) k
           = Some {| App.zip_filename :=
                       Py.format_02d (k + 1) ++ "_edited_" ++ App.safe_name f ++ ".png";
                     App.zip_data := b |})
  /\ (forall k, (k + 1 < 100)%nat ->
                String.length (Py.format_02d (k + 1)) = 2%nat
                /\ Spec.all_chars Py.isdigit_ascii (Py.format_02d (k + 1)) = true)
  /\ (forall filename,
        App.safe_name filename
        = Py.strip (Py.filter App.safe_char (fst (Py.splitext filename)))
        /\ Spec.all_chars
             (fun c => Py.isalnum c || Ascii.eqb c " " || Ascii.eqb c "-" || Ascii.eqb c "_")
             (App.safe_name filename) = true
        /\ Spec.subsequence (App.safe_name filename) (fst (Py.splitext filename)) = true
        /\ fst (Py.splitext filename) ++ snd (Py.splitext filename) = filename).
Proof.
  unfold App.create_zip_download.
  split; [reflexivity |]. split; [apply write_entries_length |].
  split; [apply write_entries_distinct |].
  split; [| split].
  - intros Hall. split.
    + rewrite write_entries_length. f_equal. clear -Hall.
      induction results as [| r results IH]; [reflexivity |].
      cbn [forallb] in Hall. apply andb_true_iff in Hall as (Hr & Hall).
      cbn [List.filter]. rewrite Hr, IH by assumption. reflexivity.
    + intros k f b im o n Hk.
      rewrite (write_entries_nth results Hall 0 k f b im o n Hk). reflexivity.
  - intros k Hk. split; [now apply format_02d_two_digits | apply format_02d_digits].
  - intros filename. split; [reflexivity |].
    destruct (safe_name_sanitized filename) as (H1 & H2).
    split; [exact H1 |]. split; [exact H2 | apply splitext_cut].
Qed.

Lemma archive_entries_are_numbered_and_distinct_witness :
  nth_error
    (App.create_zip_download
       [ImageProcessor.Success "holiday (1).jpg" [x01%byte] (PIL.Image_new "RGB" (1, 1) [0; 0; 0]) 9 1;
        ImageProcessor.Success "holiday (1).jpg" [x02%byte] (PIL.Image_new "RGB" (1, 1) [0; 0; 0]) 9 1])
    1
  = Some {| App.zip_filename := "02_edited_holiday 1.png"; App.zip_data := [x02%byte] |}.
Proof.
  destruct (archive_entries_are_numbered_and_distinct
              [ImageProcessor.Success "holiday (1).jpg" [x01%byte]
                 (PIL.Image_new "RGB" (1, 1) [0; 0; 0]) 9 1;
               ImageProcessor.Success "holiday (1).jpg" [x02%byte]
                 (PIL.Image_new "RGB" (1, 1) [0; 0; 0]) 9 1])
    as (_ & _ & _ & H & _).
  destruct (H eq_refl) as (_ & Hnth).
  exact (Hnth 1%nat "holiday (1).jpg" [x02%byte] (PIL.Image_new "RGB" (1, 1) [0; 0; 0]) 9 1
              eq_refl).
Defined.

(** The scenario of the specification: two successes around a failure give
    two entries, numbered by their places in the list they come from. *)
Example archive_of_the_successes :
  map App.zip_filename
    (App.create_zip_download
       [ImageProcessor.Success "a.png" [x01%byte] (PIL.Image_new "RGB" (1, 1) [0; 0; 0]) 9 1;
        ImageProcessor.Success " my cat_2.final.webp" [x02%byte]
          (PIL.Image_new "RGB" (1, 1) [0; 0; 0]) 9 1])
  = ["01_edited_a.png"; "02_edited_my cat_2final.png"].
Proof. reflexivity. Qed.

(* ================================================================= *)
(** * More of the code *)

(* ----------------------------------------------------------------- *)
(** ** What an accepted file is *)

Section Accepted.
Context `{pillow : PIL.Pillow} `{floats : FloatFormat}.

(** Reading an accepted result backwards: every check has passed. *)
Lemma valid_file_facts (file : ImageProcessor.UploadedFile)
                       (size : Z) (dims format mode : str) (b : bytes) :
  ImageProcessor.validate_image file = ImageProcessor.Valid size dims format mode b ->
  size = ImageProcessor.size file
  /\ b = ImageProcessor.getvalue file
  /\ b <> []
  /\ size <= ImageProcessor.MAX_FILE_SIZE
  /\ Py.str_in (ImageProcessor.file_extension (ImageProcessor.name file))
               ImageProcessor.SUPPORTED_FORMATS = true
  /\ exists image,
       PIL.Image_open b = Ok image
       /\ 50 <= PIL.width image <= 4000
       /\ 50 <= PIL.height image <= 4000
       /\ dims = ImageProcessor.dimensions image
       /\ mode = PIL.mode image
       /\ format = match PIL.format image with
                   | Some f => if Py.truthy f then f else "Unknown"
                   | None => "Unknown"
                   end.
Proof.
  unfold ImageProcessor.validate_image, ImageProcessor.validate_image_body.
  destruct (Z.gtb_spec (ImageProcessor.size file) ImageProcessor.MAX_FILE_SIZE) as [Hbig | Hsize];
    [discriminate |].
  destruct (Py.str_in _ ImageProcessor.SUPPORTED_FORMATS) eqn:Hext; cbn [negb];
    [| discriminate].
  destruct (Z.eqb_spec (Py.len (ImageProcessor.getvalue file)) 0) as [Hlen | Hlen];
    [discriminate |].
  destruct (PIL.Image_open (ImageProcessor.getvalue file)) as [image | e] eqn:Hopen;
    cbn [bind]; [| discriminate].
  destruct (Z.gtb_spec (PIL.width image) 4000); destruct (Z.gtb_spec (PIL.height image) 4000);
    cbn [orb]; try discriminate.
  destruct (Z.ltb_spec (PIL.width image) 50); destruct (Z.ltb_spec (PIL.height image) 50);
    cbn [orb]; try discriminate.
  intros [= <- <- <- <- <-].
  repeat split; try assumption; try lia.
  - intros Hnil. apply Hlen. now apply len_zero_iff.
  - exists image. repeat split; try assumption; lia.
Qed.

(** X1.  [validate_image] accepts a file only if every check has passed:
    the size is at most 10 MiB, the extension is a supported one, the
    bytes are not empty and decode to an image whose two dimensions lie in
    [50, 4000]; the accepted description carries the file's own size and
    bytes, unchanged, the decoder's mode and a format that is never
    empty. *)
Theorem validate_image_accepts_only_checked_files
    (file : ImageProcessor.UploadedFile) (size : Z) (dims format mode : str) (b : bytes) :
  ImageProcessor.validate_image file = ImageProcessor.Valid size dims format mode b ->
  size = ImageProcessor.size file
  /\ b = ImageProcessor.getvalue file
  /\ b <> []
  /\ size <= 10 * 1024 * 1024
  /\ In (ImageProcessor.file_extension (ImageProcessor.name file)) ["png"; "jpg"; "jpeg"; "webp"]
  /\ format <> ""
  /\ exists image,
       PIL.Image_open b = Ok image
       /\ 50 <= PIL.width image <= 4000
       /\ 50 <= PIL.height image <= 4000
       /\ dims = Py.str_of_int (PIL.width image) ++ "x" ++ Py.str_of_int (PIL.height image)
       /\ mode = PIL.mode image.
Proof.
  intros H. apply valid_file_facts in H
    as (Hs & Hb & Hne & Hsize & Hext & image & Hopen & Hw & Hh & Hd & Hm & Hf).
  repeat split; try assumption.
  - unfold Py.str_in in Hext. apply existsb_exists in Hext as (x & Hin & Heq).
    apply String.eqb_eq in Heq. now subst x.
  - subst format. destruct (PIL.format image) as [[| c f] |]; cbn; discriminate.
  - exists image. repeat split; try assumption; lia.
Qed.

End Accepted.

Lemma validate_image_accepts_only_checked_files_witness :
  map Sample.byte_of_Z [1; 10; 10; 1; 2; 3]
  = ImageProcessor.getvalue (Sample.image_file "cat.PNG" 1 [1; 2; 3])
  /\ In (ImageProcessor.file_extension
           (ImageProcessor.name (Sample.image_file "cat.PNG" 1 [1; 2; 3])))
        ["png"; "jpg"; "jpeg"; "webp"].
Proof.
  destruct (validate_image_accepts_only_checked_files
              (pillow := Sample.pillow) (floats := Sample.floats)
              (Sample.image_file "cat.PNG" 1 [1; 2; 3])
              6 "100x100" "PNG" "RGB" (map Sample.byte_of_Z [1; 10; 10; 1; 2; 3]) eq_refl)
    as (_ & Hb & _ & _ & Hext & _).
  split; [exact Hb | exact Hext].
Defined.

(* ----------------------------------------------------------------- *)
(** ** What an upload pass does to the session *)

Section Uploads.
Context `{pillow : PIL.Pillow} `{floats : FloatFormat}.

(** The three things one step of the loop can do. *)
Lemma upload_step_cases (u : App.Upload) (file : ImageProcessor.UploadedFile) :
  let key := App.create_file_hash (ImageProcessor.getvalue file) (ImageProcessor.name file) in
  (App.dict_contains key (App.session u) = true /\ App.upload_step u file = u)
  \/ (App.dict_contains key (App.session u) = false
      /\ exists size dims format mode b,
           ImageProcessor.validate_image file = ImageProcessor.Valid size dims format mode b
           /\ App.upload_step u file
              = {| App.session :=
                     (App.session u
                      ++ [(key, {| App.fd_filename := ImageProcessor.name file;
                                   App.fd_size := size; App.fd_dimensions := dims;
                                   App.fd_format := format; App.fd_mode := mode;
                                   App.fd_bytes := b; App.fd_hash := key |})])%list;
                   App.new_files := App.new_files u + 1;
                   App.invalid_files := App.invalid_files u |})
  \/ (App.dict_contains key (App.session u) = false
      /\ exists error,
           ImageProcessor.validate_image file = ImageProcessor.Invalid error
           /\ App.upload_step u file
              = {| App.session := App.session u;
                   App.new_files := App.new_files u;
                   App.invalid_files :=
                     (App.invalid_files u ++ [(ImageProcessor.name file, error)])%list |}).
Proof.
  intros key. unfold App.upload_step. fold key.
  destruct (App.dict_contains key (App.session u)) eqn:E; cbn [negb].
  - left. destruct u. now split.
  - destruct (ImageProcessor.validate_image file) as [size dims format mode b | error].
    + right. left. split; [reflexivity |]. exists size, dims, format, mode, b.
      split; [reflexivity |]. now rewrite (dict_set_new _ _ _ E).
    + right. right. split; [reflexivity |]. now exists error.
Qed.

Lemma upload_step_keeps_well_formed (u : App.Upload) (file : ImageProcessor.UploadedFile) :
  Page.well_formed (App.session u) -> Page.well_formed (App.session (App.upload_step u file)).
Proof.
  intros (Hkeys & Hall). split.
  - now apply upload_step_grows_by_one.
  - destruct (upload_step_cases u file)
      as [(_ & ->) | [(_ & size & dims & format & mode & b & Hvalid & ->)
                     | (_ & error & _ & ->)]];
      cbn [App.session]; try exact Hall.
    apply Forall_app. split; [exact Hall |]. constructor; [| constructor].
    apply valid_file_facts in Hvalid
      as (Hs & Hb & Hne & Hsize & Hext & image & Hopen & Hw & Hh & Hd & Hm & _).
    unfold Page.stored_by_upload.
    cbn [fst snd App.fd_hash App.fd_bytes App.fd_filename App.fd_size App.fd_dimensions
           App.fd_mode].
    subst b size. repeat split; try assumption.
    exists image. repeat split; try assumption; lia.
Qed.

Lemma upload_pass_keeps_well_formed (files : list ImageProcessor.UploadedFile) :
  forall u : App.Upload,
    Page.well_formed (App.session u) ->
    Page.well_formed (App.session (fold_left App.upload_step files u)).
Proof.
  induction files as [| file files IH]; intros u H; [exact H |].
  cbn [fold_left]. now apply IH, upload_step_keeps_well_formed.
Qed.

(** X2.  The session stays well formed through an upload pass: its keys
    are unique, and every entry sits under its own fingerprint and holds
    the name, the size and the bytes of a file that passed every check of
    the validator: bytes that are not empty and decode to an image within
    50 and 4000 on both sides, a supported extension, at most 10 MiB. *)
Theorem upload_pass_keeps_session_well_formed
    (uploaded_files : list ImageProcessor.UploadedFile) (files : App.dict App.FileData) :
  Page.well_formed files ->
  Page.well_formed (App.session (App.process_uploads uploaded_files files)).
Proof.
  intros H. rewrite process_uploads_fold.
  now apply (upload_pass_keeps_well_formed (firstn 15 uploaded_files)
               {| App.session := files; App.new_files := 0; App.invalid_files := [] |}).
Qed.

(** The counters of a pass, step by step. *)
Lemma upload_pass_counts (files : list ImageProcessor.UploadedFile) :
  forall u : App.Upload,
    let u' := fold_left App.upload_step files u in
    Z.of_nat (List.length (App.session u')) - App.new_files u'
    = Z.of_nat (List.length (App.session u)) - App.new_files u
    /\ App.new_files u <= App.new_files u'
    /\ (App.new_files u' - App.new_files u)
       + (Py.len (App.invalid_files u') - Py.len (App.invalid_files u))
       <= Py.len files
    /\ exists reported,
         App.invalid_files u' = (App.invalid_files u ++ reported)%list
         /\ Forall (fun entry =>
                      exists file, In file files
                                   /\ fst entry = ImageProcessor.name file
                                   /\ ImageProcessor.validate_image file
                                      = ImageProcessor.Invalid (snd entry))
                   reported.
Proof.
  induction files as [| file files IH]; intros u; cbn [fold_left].
  - cbv zeta. refine (conj _ (conj _ (conj _ _))); try (unfold Py.len; lia).
    exists []. now rewrite app_nil_r.
  - specialize (IH (App.upload_step u file)). cbv zeta in IH |- *.
    destruct IH as (I1 & I2 & I3 & reported & I4 & I5).
    unfold Py.len in *. cbn [List.length] in *.
    assert (Hrest : Forall (fun entry =>
                      exists f, In f (file :: files)
                                /\ fst entry = ImageProcessor.name f
                                /\ ImageProcessor.validate_image f
                                   = ImageProcessor.Invalid (snd entry)) reported).
    { refine (Forall_impl _ _ I5). intros entry (f & Hin & H). exists f. split; [now right | exact H]. }
    destruct (upload_step_cases u file)
      as [(_ & E) | [(_ & size & dims & format & mode & b & _ & E)
                    | (_ & error & Hinvalid & E)]];
      rewrite E in *; cbn [App.session App.new_files App.invalid_files] in *.
    + refine (conj _ (conj _ (conj _ _))); try lia. now exists reported.
    + rewrite length_app in I1. cbn [List.length] in I1.
      refine (conj _ (conj _ (conj _ _))); try lia. now exists reported.
    + rewrite length_app in I3. cbn [List.length] in I3.
      refine (conj _ (conj _ (conj _ _))); try lia.
      exists ((ImageProcessor.name file, error) :: reported). split.
      * rewrite I4, <- app_assoc. reflexivity.
      * constructor; [| exact Hrest]. exists file. split; [now left | now split].
Qed.

(** X3.  The count a pass announces is the number of entries it has
    added: the session holds as many entries as before plus [new_files];
    every file the pass looks at is counted at most once, as new or as
    rejected; and the rejection list names only files of the pass, each
    with the error the validator gave it. *)
Theorem upload_pass_counts_what_it_adds
    (uploaded_files : list ImageProcessor.UploadedFile) (files : App.dict App.FileData) :
  let u := App.process_uploads uploaded_files files in
  Py.len (App.session u) = Py.len files + App.new_files u
  /\ 0 <= App.new_files u
  /\ App.new_files u + Py.len (App.invalid_files u) <= Py.len (firstn 15 uploaded_files)
  /\ Forall (fun entry =>
               exists file, In file (firstn 15 uploaded_files)
                            /\ fst entry = ImageProcessor.name file
                            /\ ImageProcessor.validate_image file
                               = ImageProcessor.Invalid (snd entry))
            (App.invalid_files u).
Proof.
  intros u. subst u. rewrite process_uploads_fold.
  destruct (upload_pass_counts (firstn 15 uploaded_files)
              {| App.session := files; App.new_files := 0; App.invalid_files := [] |})
    as (H1 & H2 & H3 & reported & H4 & H5).
  cbn [App.session App.new_files App.invalid_files app] in *.
  unfold Py.len in *. cbn [List.length] in *.
  refine (conj _ (conj _ (conj _ _))); try lia. now rewrite H4.
Qed.

Lemma upload_step_keeps_report (u : App.Upload) (file : ImageProcessor.UploadedFile)
                               (entry : str * str) :
  In entry (App.invalid_files u) -> In entry (App.invalid_files (App.upload_step u file)).
Proof.
  intros H.
  destruct (upload_step_cases u file)
    as [(_ & ->) | [(_ & size & dims & format & mode & b & _ & ->) | (_ & error & _ & ->)]];
    cbn [App.invalid_files]; try exact H.
  apply in_or_app. now left.
Qed.

Lemma upload_pass_keeps_report (files : list ImageProcessor.UploadedFile) :
  forall (u : App.Upload) (entry : str * str),
    In entry (App.invalid_files u) ->
    In entry (App.invalid_files (fold_left App.upload_step files u)).
Proof.
  induction files as [| file files IH]; intros u entry H; [exact H |].
  cbn [fold_left]. now apply IH, upload_step_keeps_report.
Qed.

(** Every file of a pass ends up in the session or in the report. *)
Lemma upload_pass_accounts_for (files : list ImageProcessor.UploadedFile) :
  forall u : App.Upload,
    Forall (fun file =>
              let key := App.create_file_hash (ImageProcessor.getvalue file)
                                              (ImageProcessor.name file) in
              App.dict_contains key (App.session (fold_left App.upload_step files u)) = true
              \/ exists error,
                   ImageProcessor.validate_image file = ImageProcessor.Invalid error
                   /\ In (ImageProcessor.name file, error)
                         (App.invalid_files (fold_left App.upload_step files u)))
           files.
Proof.
  induction files as [| file files IH]; intros u; [constructor |].
  cbn [fold_left]. constructor; [| apply IH]. cbv zeta.
  destruct (upload_step_cases u file)
    as [(Hin & E) | [(_ & size & dims & format & mode & b & _ & E) | (_ & error & Hinv & E)]].
  - left. apply upload_pass_keeps. now rewrite E.
  - left. apply upload_pass_keeps. rewrite E. cbn [App.session].
    unfold App.dict_contains. rewrite existsb_app. cbn [existsb fst].
    rewrite String.eqb_refl. cbn [orb]. now rewrite orb_true_r.
  - right. exists error. split; [exact Hinv |]. apply upload_pass_keeps_report.
    rewrite E. cbn [App.invalid_files]. apply in_or_app. right. now left.
Qed.

(** X4.  After a pass, whatever the session held before it (also after
    "Clear Files" or after the removal of an entry), each of the first 15
    files of the uploader is in the session under its fingerprint, or the
    validator has rejected it and the rejection is in the list shown to
    the user. *)
Theorem upload_pass_accounts_for_every_file
    (uploaded_files : list ImageProcessor.UploadedFile) (files : App.dict App.FileData) :
  let u := App.process_uploads uploaded_files files in
  Forall (fun file =>
            App.dict_contains
              (App.create_file_hash (ImageProcessor.getvalue file) (ImageProcessor.name file))
              (App.session u) = true
            \/ exists error,
                 ImageProcessor.validate_image file = ImageProcessor.Invalid error
                 /\ In (ImageProcessor.name file, error) (App.invalid_files u))
         (firstn 15 uploaded_files).
Proof.
  intros u. subst u. rewrite process_uploads_fold.
  apply (upload_pass_accounts_for (firstn 15 uploaded_files)
           {| App.session := files; App.new_files := 0; App.invalid_files := [] |}).
Qed.

End Uploads.

Lemma upload_pass_keeps_session_well_formed_witness :
  Page.well_formed (pillow := Sample.pillow)
    (App.session (App.process_uploads (pillow := Sample.pillow) (floats := Sample.floats)
                    (Sample.album 1 2) [])).
Proof.
  apply (upload_pass_keeps_session_well_formed (pillow := Sample.pillow)
           (floats := Sample.floats) (Sample.album 1 2) []).
  split; constructor.
Defined.

(* ----------------------------------------------------------------- *)
(** ** Removing a loaded file *)




Section Removal.
Context `{pillow : PIL.Pillow} `{floats : FloatFormat}.


End Removal.


(* ----------------------------------------------------------------- *)
(** ** A script run, from the processor to the batch *)

Lemma final_error_is_not_an_input_error (e : Exception) :
  ImageProcessor.final_error e <> "Invalid image data format"
  /\ ImageProcessor.final_error e <> "Empty prompt".
Proof.
  rewrite final_error_classified.
  destruct (Spec.classify (exn_text e)); cbn [Spec.kind_message]; split; discriminate.
Qed.

Section Run.
Context `{pillow : PIL.Pillow} `{service : Hub.Service} `{floats : FloatFormat}.

(** X6.  With a working processor, a click on the start button does
    nothing when the session is empty after the upload pass, when the
    instruction is blank or when a batch is marked as in progress: the
    run makes no remote call, pauses nowhere and leaves the results of
    the last batch as they were. *)
Theorem start_click_without_files_or_prompt_does_nothing
    (environ : list (str * str)) (inputs : App.Inputs) (state : App.SessionState)
    (w : Hub.World) (processor : ImageProcessor.ImageProcessor) (shown : list St.Message) :
  ImageProcessor.__init__ environ = St.Continue processor shown ->
  App.session (App.process_uploads (App.uploaded_files inputs)
                                   (App.uploaded_files_data state)) = []
  \/ Spec.blank (App.prompt inputs) = true
  \/ App.processing_in_progress state = true ->
  App.main environ inputs state w
  = (St.Continue tt shown,
     {| App.uploaded_files_data :=
          App.session (App.process_uploads (App.uploaded_files inputs)
                                           (App.uploaded_files_data state));
        App.processing_results := App.processing_results state;
        App.current_prompt := App.prompt inputs;
        App.processing_in_progress := App.processing_in_progress state |},
     w).
Proof.
  intros Hinit Hblocked. unfold App.main. rewrite Hinit.
  assert (Hcan : App.can_process
                   {| App.uploaded_files_data :=
                        App.session (App.process_uploads (App.uploaded_files inputs)
                                                         (App.uploaded_files_data state));
                      App.processing_results := App.processing_results state;
                      App.current_prompt := App.prompt inputs;
                      App.processing_in_progress := App.processing_in_progress state |}
                   (App.prompt inputs) = false).
  { unfold App.can_process. cbn [App.uploaded_files_data App.processing_in_progress].
    destruct Hblocked as [-> | [Hb | ->]].
    - reflexivity.
    - apply strip_blank_iff in Hb. rewrite Hb. cbn [Py.truthy]. now rewrite andb_false_r.
    - cbn [negb]. now rewrite andb_false_r. }
  rewrite Hcan, andb_false_r. reflexivity.
Qed.

(** What a call on bytes that are not empty, with an instruction that is
    not blank, can return. *)
Lemma process_single_image_outcomes (self : ImageProcessor.ImageProcessor) (b : bytes)
                                    (prompt filename : str) (w w1 : Hub.World)
                                    (r : ImageProcessor.ProcessingResult) :
  b <> [] -> Spec.blank prompt = false ->
  ImageProcessor.process_single_image self (ImageProcessor.IsBytes b) prompt filename w
  = (Some r, w1) ->
  (exists rb edited, r = ImageProcessor.Success filename rb edited (Py.len b) (Py.len rb))
  \/ (exists e, ImageProcessor.prepare b = Raises e
                /\ r = ImageProcessor.Failure filename
                         ("Image preprocessing failed: " ++ exn_text e))
  \/ (exists e, r = ImageProcessor.Failure filename (ImageProcessor.final_error e)).
Proof.
  intros Hb Hp.
  unfold ImageProcessor.process_single_image, ImageProcessor.process_single_image_body.
  rewrite empty_prompt_test, Hp.
  destruct (Z.eqb_spec (Py.len b) 0) as [E | _]; [now apply len_zero_iff in E |].
  destruct (ImageProcessor.prepare b) as [processed | e].
  2: { intros [= <- _]. right. left. now exists e. }
  rewrite retry_loop_unrolled. cbv zeta.
  destruct (fst (ImageProcessor.call_api self processed prompt w)) as [[edited rb] | e1].
  { intros [= <- _]. left. now exists rb, edited. }
  destruct (fst (ImageProcessor.call_api self processed prompt _)) as [[edited rb] | e2];
    intros [= <- _]; [left; now exists rb, edited | right; right; now exists e2].
Qed.

(** X7.  In a batch over a well-formed session (one built by uploads)
    with an instruction that is not blank, as the start button requires,
    every result is a success, a failure of the preparation or a failure
    of the remote call: no item is reported with "Invalid image data
    format" or "Empty prompt". *)
Theorem batch_after_uploads_fails_only_downstream
    (processor : ImageProcessor.ImageProcessor) (state : App.SessionState)
    (prompt : str) (w : Hub.World) :
  Page.well_formed (App.uploaded_files_data state) ->
  App.can_process state prompt = true ->
  App.processing_results (fst (App.run_batch processor prompt state w)) <> []
  /\ Forall (fun result =>
               exists r, result = Some r
                 /\ ((exists name rb edited o n,
                        r = ImageProcessor.Success name rb edited o n)
                     \/ (exists name e,
                           r = ImageProcessor.Failure name
                                 ("Image preprocessing failed: " ++ exn_text e))
                     \/ (exists name e,
                           r = ImageProcessor.Failure name (ImageProcessor.final_error e)))
                 /\ (forall name, r <> ImageProcessor.Failure name "Invalid image data format")
                 /\ (forall name, r <> ImageProcessor.Failure name "Empty prompt"))
            (App.processing_results (fst (App.run_batch processor prompt state w))).
Proof.
  intros (_ & Hstored) Hcan.
  unfold App.can_process in Hcan.
  apply andb_true_iff in Hcan as (Hcan & _). apply andb_true_iff in Hcan as (Hfiles & Hprompt).
  assert (Hp : Spec.blank prompt = false).
  { destruct (Spec.blank prompt) eqn:E; [| reflexivity].
    apply strip_blank_iff in E. rewrite E in Hprompt. discriminate. }
  destruct (process_files_appends processor (App.uploaded_files_data state) prompt [] w)
    as (results & w' & Hrun & Hall).
  cbn [app] in Hrun. unfold App.run_batch. rewrite Hrun. cbn [fst App.processing_results].
  split.
  - destruct (App.uploaded_files_data state); [discriminate |].
    inversion Hall. discriminate.
  - clear Hrun Hfiles Hprompt.
    induction Hall as [| item r items rs (w0 & w1 & Hitem) _ IH]; cbn [map]; constructor.
    + inversion Hstored as [| ? ? Hfirst _]; subst.
      destruct Hfirst as (_ & _ & Hne & _).
      exists r. split; [reflexivity |].
      destruct (process_single_image_outcomes _ _ _ _ _ _ _ Hne Hp Hitem)
        as [(rb & ed & ->) | [(e & _ & ->) | (e & ->)]].
      * split; [left; eexists _, rb, ed, _, _; reflexivity |].
        split; discriminate.
      * split; [right; left; now exists (App.fd_filename (snd item)), e |].
        split; discriminate.
      * split; [right; right; now exists (App.fd_filename (snd item)), e |].
        destruct (final_error_is_not_an_input_error e) as (H1 & H2).
        split; intros name [= _ H]; [now apply H1 | now apply H2].
    + apply IH. now inversion Hstored.
Qed.

(** The world grows by at most two calls per item. *)
Lemma process_files_trace (processor : ImageProcessor.ImageProcessor)
                          (files_data : list (str * App.FileData)) (prompt : str) :
  forall (acc : list (option ImageProcessor.ProcessingResult)) (w : Hub.World),
  exists trace,
    snd (App.process_files processor files_data prompt acc w) = (w ++ trace)%list
    /\ (List.length (Hub.calls trace) <= 2 * List.length files_data)%nat.
Proof.
  induction files_data as [| [file_hash file_data] rest IH]; intros acc w.
  - exists []. cbn. rewrite app_nil_r. split; [reflexivity | lia].
  - cbn [App.process_files].
    destruct (process_single_image_trace processor
                (ImageProcessor.IsBytes (App.fd_bytes file_data)) prompt
                (App.fd_filename file_data) w) as (r & trace & Hrun & _ & Htrace).
    rewrite Hrun.
    destruct (IH (acc ++ [Some r])%list ((w ++ trace) ++ [Hub.Sleep 200])%list)
      as (more & Hmore & Hcalls).
    exists (trace ++ Hub.Sleep 200 :: more)%list.
    rewrite Hmore. split; [now rewrite <- !app_assoc |].
    unfold Hub.calls in *. rewrite !filter_app, !length_app. cbn [List.filter Hub.is_call].
    cbn [List.length].
    destruct Htrace as [-> | (c & Hc & [-> | ->])]; cbn [List.filter Hub.is_call];
      rewrite ?Hc; cbn [List.filter Hub.is_call List.length]; lia.
Qed.

(** X8.  A batch only adds to the history of the world, and over N items
    it makes at most 2 N remote calls. *)
Theorem batch_makes_at_most_two_calls_per_item
    (processor : ImageProcessor.ImageProcessor) (state : App.SessionState)
    (prompt : str) (w : Hub.World) :
  exists trace,
    snd (App.run_batch processor prompt state w) = (w ++ trace)%list
    /\ (List.length (Hub.calls trace) <= 2 * List.length (App.uploaded_files_data state))%nat.
Proof.
  unfold App.run_batch.
  destruct (process_files_trace processor (App.uploaded_files_data state) prompt [] w)
    as (trace & Htrace & Hcalls).
  destruct (App.process_files processor (App.uploaded_files_data state) prompt [] w)
    as [results w1].
  cbn [snd] in *. subst w1. exists (trace ++ [Hub.Sleep 1000])%list.
  split; [now rewrite app_assoc |].
  unfold Hub.calls in *. rewrite filter_app, length_app. cbn. lia.
Qed.

(** X9.  A failure of the first attempt, be it of the remote call or of
    the encoding of its answer, is not reported when the second attempt
    succeeds: the result is the success of the second answer, with the
    sizes of the original bytes and of the encoded answer; the service
    has been called twice, a second apart, each time with the prepared
    bytes, the stripped instruction and the model name. *)
Theorem second_attempt_hides_first_failure
    (self : ImageProcessor.ImageProcessor) (b processed rb : bytes)
    (prompt filename : str) (w : Hub.World) (edited : PIL.Image) (e1 : Exception) :
  let call := Hub.RemoteCall (ImageProcessor.client self) processed (Py.strip prompt)
                             "Qwen/Qwen-Image-Edit" in
  b <> [] -> Spec.blank prompt = false ->
  ImageProcessor.prepare b = Ok processed ->
  Hub.image_to_image w (ImageProcessor.client self) processed (Py.strip prompt)
                     "Qwen/Qwen-Image-Edit" = Raises e1
  \/ (exists first,
        Hub.image_to_image w (ImageProcessor.client self) processed (Py.strip prompt)
                           "Qwen/Qwen-Image-Edit" = Ok first
        /\ PIL.save_png first = Raises e1) ->
  Hub.image_to_image (w ++ [call; Hub.Sleep 1000])%list (ImageProcessor.client self)
                     processed (Py.strip prompt) "Qwen/Qwen-Image-Edit" = Ok edited ->
  PIL.save_png edited = Ok rb ->
  ImageProcessor.process_single_image self (ImageProcessor.IsBytes b) prompt filename w
  = (Some (ImageProcessor.Success filename rb edited (Py.len b) (Py.len rb)),
     (w ++ [call; Hub.Sleep 1000; call])%list).
Proof.
  intros call Hb Hp Hprep Hfirst Hsecond Hsave.
  unfold ImageProcessor.process_single_image, ImageProcessor.process_single_image_body.
  rewrite empty_prompt_test, Hp, Hprep.
  destruct (Z.eqb_spec (Py.len b) 0) as [E | _]; [now apply len_zero_iff in E |].
  rewrite retry_loop_unrolled. cbv zeta.
  change ImageProcessor.model with "Qwen/Qwen-Image-Edit". fold call.
  assert (H1 : fst (ImageProcessor.call_api self processed prompt w) = Raises e1).
  { unfold ImageProcessor.call_api. cbn [fst].
    change ImageProcessor.model with "Qwen/Qwen-Image-Edit".
    destruct Hfirst as [-> | (first & -> & Hs)]; cbn [bind]; [reflexivity |].
    now rewrite Hs. }
  assert (H2 : fst (ImageProcessor.call_api self processed prompt
                      (w ++ [call; Hub.Sleep 1000])%list) = Ok (edited, rb)).
  { unfold ImageProcessor.call_api. cbn [fst].
    change ImageProcessor.model with "Qwen/Qwen-Image-Edit".
    rewrite Hsecond. cbn [bind]. now rewrite Hsave. }
  now rewrite H1, H2.
Qed.

(** X10.  With a token that is not empty, the outcome of a script run
    hangs on the constructor of the client: if it raises, the run stops
    with the initialisation error and its text, the session and the
    world untouched; if it returns, the processor holds a client of the
    provider "fal-ai" whose key is the token. *)
Theorem client_constructor_decides_the_run
    (environ : list (str * str)) (token : str) (inputs : App.Inputs)
    (state : App.SessionState) (w : Hub.World) :
  ImageProcessor.environ_get environ "HF_TOKEN" = Some token ->
  token <> "" ->
  (forall e, Hub.InferenceClient_init "fal-ai" token = Some e ->
             App.main environ inputs state w
             = (St.Stop [St.ErrorClientInit (exn_text e); St.ErrorCheckToken], state, w))
  /\ (Hub.InferenceClient_init "fal-ai" token = None ->
      ImageProcessor.__init__ environ
      = St.Continue {| ImageProcessor.client :=
                         {| Hub.provider := "fal-ai"; Hub.api_key := token |} |}
                    [St.SuccessClientInitialized]).
Proof.
  intros Henv Htoken.
  assert (Ht : negb (Py.truthy token) = false) by (destruct token; [contradiction | reflexivity]).
  split.
  - intros e He. unfold App.main, ImageProcessor.__init__, ImageProcessor._initialize_client.
    now rewrite Henv, Ht, He.
  - intros Hok. unfold ImageProcessor.__init__, ImageProcessor._initialize_client.
    now rewrite Henv, Ht, Hok.
Qed.

End Run.

Lemma start_click_without_files_or_prompt_does_nothing_witness :
  App.main (pillow := Sample.pillow) (service := Sample.scripted []) (floats := Sample.floats)
    [("HF_TOKEN", "hf_x")]
    {| App.uploaded_files := []; App.prompt := "add a hat"; App.start_clicked := true |}
    App.initialize_session_state []
  = (St.Continue tt [St.SuccessClientInitialized],
     {| App.uploaded_files_data :=
          App.session (App.process_uploads (pillow := Sample.pillow) (floats := Sample.floats)
                         [] []);
        App.processing_results := [];
        App.current_prompt := "add a hat";
        App.processing_in_progress := false |},
     []).
Proof.
  apply (start_click_without_files_or_prompt_does_nothing
           (pillow := Sample.pillow) (service := Sample.scripted []) (floats := Sample.floats)
           [("HF_TOKEN", "hf_x")]
           {| App.uploaded_files := []; App.prompt := "add a hat"; App.start_clicked := true |}
           App.initialize_session_state [] Sample.processor [St.SuccessClientInitialized]).
  - reflexivity.
  - left. reflexivity.
Defined.

Lemma batch_after_uploads_fails_only_downstream_witness :
  Forall (fun result =>
            exists r, result = Some r
              /\ ((exists name rb edited o n, r = ImageProcessor.Success name rb edited o n)
                  \/ (exists name e,
                        r = ImageProcessor.Failure name
                              ("Image preprocessing failed: " ++ exn_text e))
                  \/ (exists name e,
                        r = ImageProcessor.Failure name (ImageProcessor.final_error e)))
              /\ (forall name, r <> ImageProcessor.Failure name "Invalid image data format")
              /\ (forall name, r <> ImageProcessor.Failure name "Empty prompt"))
         (App.processing_results
            (fst (App.run_batch (pillow := Sample.pillow)
                    (service := Sample.scripted [Some "timeout"; Some "timeout"])
                    Sample.processor "add a hat"
                    {| App.uploaded_files_data :=
                         [("6e5002bc3937",
                           {| App.fd_filename := "cat.png"; App.fd_size := 6;
                              App.fd_dimensions := "100x100";
                              App.fd_format := "PNG"; App.fd_mode := "RGB";
                              App.fd_bytes := map Sample.byte_of_Z [1; 10; 10; 1; 2; 3];
                              App.fd_hash := "6e5002bc3937" |})];
                       App.processing_results := []; App.current_prompt := "";
                       App.processing_in_progress := false |}
                    []))).
Proof.
  destruct (batch_after_uploads_fails_only_downstream
              (pillow := Sample.pillow)
              (service := Sample.scripted [Some "timeout"; Some "timeout"])
              Sample.processor
              {| App.uploaded_files_data :=
                   [("6e5002bc3937",
                     {| App.fd_filename := "cat.png"; App.fd_size := 6;
                        App.fd_dimensions := "100x100";
                        App.fd_format := "PNG"; App.fd_mode := "RGB";
                        App.fd_bytes := map Sample.byte_of_Z [1; 10; 10; 1; 2; 3];
                        App.fd_hash := "6e5002bc3937" |})];
                 App.processing_results := []; App.current_prompt := "";
                 App.processing_in_progress := false |}
              "add a hat" []) as (_ & H).
  - split.
    + repeat constructor. intros [].
    + constructor; [| constructor]. unfold Page.stored_by_upload.
      split; [reflexivity |]. split; [vm_compute; reflexivity |].
      split; [discriminate |]. split; [vm_compute; discriminate |].
      split; [reflexivity |].
      exists {| PIL.width := 100; PIL.height := 100; PIL.format := Some "PNG";
                PIL.mode := "RGB"; PIL.pixels := [1; 2; 3] |}.
      repeat split; try reflexivity; cbn; lia.
  - reflexivity.
  - exact H.
Defined.

Lemma second_attempt_hides_first_failure_witness :
  ImageProcessor.process_single_image (pillow := Sample.pillow)
    (service := Sample.scripted [Some "connection reset"; None])
    Sample.processor (ImageProcessor.IsBytes (map Sample.byte_of_Z [2; 10; 10; 7]))
    " blur it " "a.png" []
  = (Some (ImageProcessor.Success "a.png" (map Sample.byte_of_Z [2; 10; 10; 7])
             {| PIL.width := 100; PIL.height := 100; PIL.format := Some "PNG";
                PIL.mode := "L"; PIL.pixels := [7] |}
             (Py.len (map Sample.byte_of_Z [2; 10; 10; 7]))
             (Py.len (map Sample.byte_of_Z [2; 10; 10; 7]))),
     ([] ++ [Hub.RemoteCall (ImageProcessor.client Sample.processor)
               (map Sample.byte_of_Z [2; 10; 10; 7]) (Py.strip " blur it ")
               "Qwen/Qwen-Image-Edit";
             Hub.Sleep 1000;
             Hub.RemoteCall (ImageProcessor.client Sample.processor)
               (map Sample.byte_of_Z [2; 10; 10; 7]) (Py.strip " blur it ")
               "Qwen/Qwen-Image-Edit"])%list).
Proof.
  apply (second_attempt_hides_first_failure (pillow := Sample.pillow)
           (service := Sample.scripted [Some "connection reset"; None])
           Sample.processor (map Sample.byte_of_Z [2; 10; 10; 7])
           (map Sample.byte_of_Z [2; 10; 10; 7]) (map Sample.byte_of_Z [2; 10; 10; 7])
           " blur it " "a.png" []
           {| PIL.width := 100; PIL.height := 100; PIL.format := Some "PNG";
              PIL.mode := "L"; PIL.pixels := [7] |}
           (Raise "connection reset")).
  - discriminate.
  - reflexivity.
  - reflexivity.
  - left. reflexivity.
  - reflexivity.
  - reflexivity.
Defined.

Lemma client_constructor_decides_the_run_witness :
  App.main (pillow := Sample.pillow) (floats := Sample.floats)
    (service := {| Hub.InferenceClient_init := fun _ _ => Some (Raise "no route to host");
                   Hub.image_to_image := fun _ _ _ _ _ => Raises (Raise "unreachable") |})
    [("HF_TOKEN", "hf_x")]
    {| App.uploaded_files := []; App.prompt := "add a hat"; App.start_clicked := true |}
    App.initialize_session_state []
  = (St.Stop [St.ErrorClientInit "no route to host"; St.ErrorCheckToken],
     App.initialize_session_state, [])
  /\ ImageProcessor.__init__ (service := Sample.scripted []) [("HF_TOKEN", "hf_x")]
     = St.Continue Sample.processor [St.SuccessClientInitialized].
Proof.
  split.
  - destruct (client_constructor_decides_the_run (pillow := Sample.pillow)
                (floats := Sample.floats)
                (service := {| Hub.InferenceClient_init :=
                                 fun _ _ => Some (Raise "no route to host");
                               Hub.image_to_image :=
                                 fun _ _ _ _ _ => Raises (Raise "unreachable") |})
                [("HF_TOKEN", "hf_x")] "hf_x"
                {| App.uploaded_files := []; App.prompt := "add a hat";
                   App.start_clicked := true |}
                App.initialize_session_state [] eq_refl) as (Hstop & _);
      [discriminate |].
    exact (Hstop (Raise "no route to host") eq_refl).
  - destruct (client_constructor_decides_the_run (pillow := Sample.pillow)
                (floats := Sample.floats) (service := Sample.scripted [])
                [("HF_TOKEN", "hf_x")] "hf_x"
                {| App.uploaded_files := []; App.prompt := "add a hat";
                   App.start_clicked := true |}
                App.initialize_session_state [] eq_refl) as (_ & Hok);
      [discriminate |].
    exact (Hok eq_refl).
Defined.

(** ** The results page *)

Lemma select_some (keep : bool -> bool) (results : list ImageProcessor.ProcessingResult) :
  Page.select keep (map Some results)
  = Ok (List.filter (fun r => keep (ImageProcessor.success r)) results).
Proof.
  induction results as [| r results IH]; [reflexivity |].
  cbn [map Page.select List.filter]. rewrite IH. reflexivity.
Qed.

Lemma filter_success_partition (results : list ImageProcessor.ProcessingResult) :
  (List.length (List.filter ImageProcessor.success results)
   + List.length (List.filter (fun r => negb (ImageProcessor.success r)) results)
   = List.length results)%nat.
Proof.
  induction results as [| r results IH]; [reflexivity |].
  cbn [List.filter]. destruct (ImageProcessor.success r); cbn [negb List.length]; lia.
Qed.

Lemma filter_success_all (results : list ImageProcessor.ProcessingResult) :
  forallb ImageProcessor.success (List.filter ImageProcessor.success results) = true.
Proof.
  induction results as [| r results IH]; [reflexivity |].
  cbn [List.filter]. destruct (ImageProcessor.success r) eqn:E; [| exact IH].
  cbn [forallb]. now rewrite E, IH.
Qed.

Lemma write_entries_sizes (results : list ImageProcessor.ProcessingResult) :
  Forall (fun r => match r with
                   | ImageProcessor.Success _ rb _ _ n => n = Py.len rb
                   | ImageProcessor.Failure _ _ => False
                   end) results ->
  forall i : nat,
    map (fun entry => Py.len (App.zip_data entry)) (App.write_entries i results)
    = map Page.result_size results.
Proof.
  induction 1 as [| r results Hr _ IH]; intros i; [reflexivity |].
  destruct r as [f rb im o n | f e]; [| contradiction].
  cbn [App.write_entries map App.zip_data Page.result_size]. now rewrite IH, Hr.
Qed.


Lemma split_first_segment (stem rest : str) :
  Py.contains "." stem = false ->
  hd EmptyString (Py.split "." (stem ++ "." ++ rest)) = stem.
Proof.
  induction stem as [| c stem IH]; intros H.
  - reflexivity.
  - rewrite contains_dot_cons in H. apply orb_false_iff in H as [Hc Hs].
    change (String c stem ++ "." ++ rest) with (String c (stem ++ "." ++ rest)).
    cbn [Py.split]. rewrite Hc. specialize (IH Hs).
    destruct (Py.split "." (stem ++ "." ++ rest)) as [| h r] eqn:E.
    + now destruct (split_not_nil "." (stem ++ "." ++ rest)).
    + cbn [hd] in *. now rewrite IH.
Qed.

Section Results.
Context `{pillow : PIL.Pillow} `{service : Hub.Service}.

(** What a returned dictionary records about its call. *)
Lemma process_single_image_record (self : ImageProcessor.ImageProcessor) (b : bytes)
                                  (prompt filename : str) (w w1 : Hub.World)
                                  (r : ImageProcessor.ProcessingResult) :
  ImageProcessor.process_single_image self (ImageProcessor.IsBytes b) prompt filename w
  = (Some r, w1) ->
  ImageProcessor.filename r = filename
  /\ match r with
     | ImageProcessor.Success _ rb _ o n => o = Py.len b /\ n = Py.len rb
     | ImageProcessor.Failure _ _ => True
     end.
Proof.
  unfold ImageProcessor.process_single_image, ImageProcessor.process_single_image_body.
  destruct (Py.len b =? 0); [intros [= <- _]; now split |].
  destruct (negb (Py.truthy prompt) || negb (Py.truthy (Py.strip prompt)));
    [intros [= <- _]; now split |].
  destruct (ImageProcessor.prepare b) as [processed | e]; [| intros [= <- _]; now split].
  rewrite retry_loop_unrolled. cbv zeta.
  destruct (fst (ImageProcessor.call_api self processed prompt w)) as [[edited rb] | e1];
    [intros [= <- _]; now split |].
  destruct (fst (ImageProcessor.call_api self processed prompt _)) as [[edited rb] | e2];
    intros [= <- _]; now split.
Qed.

(** The results a batch run leaves in the session, item by item. *)
Lemma run_batch_results (processor : ImageProcessor.ImageProcessor) (prompt : str)
                        (state : App.SessionState) (w : Hub.World) :
  exists results,
    App.processing_results (fst (App.run_batch processor prompt state w))
    = map Some results
    /\ Forall2 (fun item r =>
                  ImageProcessor.filename r = App.fd_filename (snd item)
                  /\ match r with
                     | ImageProcessor.Success _ rb _ o n =>
                         o = Py.len (App.fd_bytes (snd item)) /\ n = Py.len rb
                     | ImageProcessor.Failure _ _ => True
                     end)
               (App.uploaded_files_data state) results.
Proof.
  unfold App.run_batch. cbv zeta.
  destruct (process_files_appends processor (App.uploaded_files_data state) prompt [] w)
    as (results & w' & Hrun & Hall).
  rewrite Hrun. exists results. split; [reflexivity |]. clear Hrun.
  induction Hall as [| item r files results (w0 & w1 & Hcall) _ IH]; constructor.
  - exact (process_single_image_record _ _ _ _ _ _ _ Hcall).
  - exact IH.
Qed.

(** X11.  After a batch run the statistics of the results page never
    raise: every result is a dictionary, the successful and the failed
    results are the two filters of the result list, and their counts add
    up to the number of loaded files. *)
Theorem statistics_count_every_loaded_file
    (processor : ImageProcessor.ImageProcessor) (prompt : str)
    (state : App.SessionState) (w : Hub.World) :
  let results := App.processing_results (fst (App.run_batch processor prompt state w)) in
  exists all good bad,
    results = map Some all
    /\ Page.successful results = Ok good
    /\ Page.failed results = Ok bad
    /\ good = List.filter ImageProcessor.success all
    /\ bad = List.filter (fun r => negb (ImageProcessor.success r)) all
    /\ (List.length good + List.length bad
        = List.length (App.uploaded_files_data state))%nat.
Proof.
  cbv zeta. destruct (run_batch_results processor prompt state w) as (all & -> & Hall).
  exists all, (List.filter ImageProcessor.success all),
    (List.filter (fun r => negb (ImageProcessor.success r)) all).
  split; [reflexivity |]. split; [apply (select_some (fun s => s)) |].
  split; [apply (select_some negb) |]. split; [reflexivity |]. split; [reflexivity |].
  rewrite filter_success_partition. symmetry. exact (Forall2_length Hall).
Qed.

(** X12.  The archive of the results page matches its labels: it has one
    entry per successful result of the batch (the count on the download
    button), entry [k] holds the encoded bytes of the [k]-th successful
    result under the number [k+1] (failed items leave no gap), and the
    "Output Size" metric sums exactly the bytes stored in the archive. *)
Theorem archive_holds_what_the_page_counts
    (processor : ImageProcessor.ImageProcessor) (prompt : str)
    (state : App.SessionState) (w : Hub.World) :
  let results := App.processing_results (fst (App.run_batch processor prompt state w)) in
  exists good,
    Page.successful results = Ok good
    /\ List.length (App.create_zip_download good) = List.length good
    /\ (forall (k : nat) (r : ImageProcessor.ProcessingResult),
          nth_error good k = Some r ->
          exists rb edited o,
            r = ImageProcessor.Success (ImageProcessor.filename r) rb edited o (Py.len rb)
            /\ nth_error (App.create_zip_download good) k
               = Some {| App.zip_filename := App.entry_name k (ImageProcessor.filename r);
                         App.zip_data := rb |})
    /\ Page.output_bytes good
       = fold_left Z.add
           (map (fun entry => Py.len (App.zip_data entry)) (App.create_zip_download good)) 0.
Proof.
  cbv zeta. destruct (run_batch_results processor prompt state w) as (all & -> & Hall).
  exists (List.filter ImageProcessor.success all).
  assert (Hsizes : Forall (fun r => match r with
                                     | ImageProcessor.Success _ rb _ _ n => n = Py.len rb
                                     | ImageProcessor.Failure _ _ => False
                                     end) (List.filter ImageProcessor.success all)).
  { apply Forall_forall. intros r Hr. apply filter_In in Hr as (Hin & Hs).
    destruct r as [f rb im o n | f e]; [| discriminate].
    clear Hs. induction Hall as [| item r' items rs Hr' _ IH]; [contradiction |].
    destruct Hin as [-> | Hin]; [now destruct Hr' as (_ & _ & Hn) | now apply IH]. }
  split; [apply (select_some (fun s => s)) |].
  split.
  { unfold App.create_zip_download. rewrite write_entries_length.
    f_equal. clear Hsizes Hall.
    induction all as [| r all IH]; [reflexivity |].
    cbn [List.filter]. destruct (ImageProcessor.success r) eqn:E; [| exact IH].
    cbn [List.filter]. now rewrite E, IH. }
  split.
  { intros k r Hk.
    assert (Hin : In r (List.filter ImageProcessor.success all))
      by (eapply nth_error_In; exact Hk).
    rewrite Forall_forall in Hsizes. specialize (Hsizes r Hin).
    destruct r as [f rb im o n | f e]; [| contradiction]. subst n.
    exists rb, im, o. split; [reflexivity |].
    unfold App.create_zip_download.
    exact (write_entries_nth _ (filter_success_all all) 0 k f rb im o _ Hk). }
  unfold Page.output_bytes, App.create_zip_download.
  now rewrite (write_entries_sizes _ Hsizes 0).
Qed.


End Results.

Example two_cats_come_from_uploads :
  App.session (App.process_uploads (pillow := Sample.pillow) (floats := Sample.floats)
                 [Sample.image_file "cat.png" 1 [1; 2; 3];
                  Sample.image_file "cat.png" 1 [4; 5; 6]] [])
  = App.uploaded_files_data Sample.two_cats.
Proof. vm_compute. reflexivity. Qed.


(** X14.  The single download of a preview is named after the part of the
    file name before its FIRST dot: everything from the first dot on is
    dropped, so two results whose names agree up to there get the same
    download name (the archive, which cuts at the last dot, keeps them
    apart by number). *)
Theorem download_name_keeps_only_the_first_segment (stem rest : str) :
  Py.contains "." stem = false ->
  Page.download_name (stem ++ "." ++ rest) = "edited_" ++ stem ++ ".png"
  /\ Page.download_name stem = "edited_" ++ stem ++ ".png".
Proof.
  intros H. unfold Page.download_name. split.
  - now rewrite (split_first_segment stem rest H).
  - now rewrite (split_no_dot stem H).
Qed.

Lemma download_name_keeps_only_the_first_segment_witness :
  Page.download_name ("holiday" ++ "." ++ "2024.final.jpg") = "edited_" ++ "holiday" ++ ".png"
  /\ Page.download_name "holiday" = "edited_" ++ "holiday" ++ ".png".
Proof.
  exact (download_name_keeps_only_the_first_segment "holiday" "2024.final.jpg" eq_refl).
Defined.

(** X15.  The preview list is a prefix of the successful results, of the
    chosen length or shorter if there are fewer, and the note "Showing k
    of n results" appears exactly when some successful result is left
    out of it; with "All" every result is previewed and there is no
    note. *)
Theorem preview_note_tells_what_is_hidden
    (n : Z) (chosen : list ImageProcessor.ProcessingResult) :
  0 <= n ->
  (exists hidden,
     chosen = (Page.previews (Page.Count n) chosen ++ hidden)%list
     /\ Py.len (Page.previews (Page.Count n) chosen) = Z.min n (Py.len chosen)
     /\ (Page.more_results_note (Page.Count n) chosen = true <-> hidden <> []))
  /\ Page.previews Page.All chosen = chosen
  /\ Page.more_results_note Page.All chosen = false.
Proof.
  intros Hn. unfold Page.previews, Page.more_results_note, Page.preview_count, Py.len.
  split.
  - exists (skipn (Z.to_nat (Z.min n (Z.of_nat (List.length chosen)))) chosen).
    split; [now rewrite firstn_skipn |]. split.
    + rewrite length_firstn. lia.
    + rewrite Z.gtb_lt. split.
      * intros Hlt Hnil. apply (f_equal (@List.length _)) in Hnil.
        rewrite length_skipn in Hnil. cbn in Hnil. lia.
      * intros Hnil. destruct (Z.min_spec n (Z.of_nat (List.length chosen)))
          as [(Hlt & ->) | (Hge & Hmin)]; [lia |].
        exfalso. apply Hnil. rewrite Hmin, Nat2Z.id. apply skipn_all.
  - split.
    + rewrite Nat2Z.id. apply firstn_all.
    + rewrite Z.gtb_ltb. apply Z.ltb_irrefl.
Qed.

Lemma preview_note_tells_what_is_hidden_witness :
  (exists hidden,
     [ImageProcessor.Success "a.png" [] (PIL.Image_new "L" (64, 64) [7]) 9 0;
      ImageProcessor.Success "b.png" [] (PIL.Image_new "L" (64, 64) [7]) 7 0]
     = (Page.previews (Page.Count 1)
          [ImageProcessor.Success "a.png" [] (PIL.Image_new "L" (64, 64) [7]) 9 0;
           ImageProcessor.Success "b.png" [] (PIL.Image_new "L" (64, 64) [7]) 7 0]
        ++ hidden)%list
     /\ hidden <> [])
  /\ Page.more_results_note Page.All
       [ImageProcessor.Success "a.png" [] (PIL.Image_new "L" (64, 64) [7]) 9 0;
        ImageProcessor.Success "b.png" [] (PIL.Image_new "L" (64, 64) [7]) 7 0]
     = false.
Proof.
  destruct (preview_note_tells_what_is_hidden 1
              [ImageProcessor.Success "a.png" [] (PIL.Image_new "L" (64, 64) [7]) 9 0;
               ImageProcessor.Success "b.png" [] (PIL.Image_new "L" (64, 64) [7]) 7 0])
    as ((hidden & Hcut & _ & Hnote) & _ & Hall); [lia |].
  split; [| exact Hall].
  exists hidden. split; [exact Hcut |]. apply Hnote. reflexivity.
Defined.
